(** * IBM Cloud Object Storage plugin: the s3fs provisioner

    A shallow embedding of [provisioner/ibm-s3fs-provisioner.go]
    ([parseSecret], [getCredentials], [Provision], [Delete], [deleteBucket])
    and the properties of its configuration resolution, policy checks,
    bucket lifecycle and persisted volume descriptor.

    Conventions of the embedding:
    - Go [string] is [string]; Go [int] (64 bit) is [Z], the only
      operations on it being [strconv.Atoi] and [strconv.Itoa];
    - Go [map[string]string] is [gmap string string]; reading a missing
      key gives the empty string, as in Go;
    - a Go [error] is a value of [Error], one constructor per [fmt.Errorf]
      / [errors.New] site of the file (the [pvcName:clusterID:] prefix of
      the messages and the log lines are not modelled);
    - the collaborators ([p.Client], [p.Backend], [p.UUIDGenerator]) are
      functions over an abstract [World]; every call is recorded in a
      trace of [Event]s;
    - a method call on a nil interface or a field read through a nil
      pointer is the outcome [Panic]. *)

From Stdlib Require Import ZArith String Ascii List Bool Lia.
From stdpp Require Import base option list strings gmap pretty.

Local Open Scope string_scope.
Local Open Scope Z_scope.

(** ** Errors *)

(** The two failures of [strconv.Atoi]. *)
Inductive NumErrorKind := ErrSyntax | ErrRange.

(** The numeric annotations of a claim that [Provision] converts. *)
Inductive NumField :=
| F_s3fs_fuse_retry_count
| F_chunk_size_mb
| F_parallel_count
| F_multireq_max
| F_stat_cache_size
| F_stat_cache_expire_seconds.

Inductive Error :=
(* an error value produced by a collaborator *)
| External (msg : string)
(* strconv.Atoi: parsing "input": invalid syntax / value out of range *)
| AtoiError (input : string) (kind : NumErrorKind)
(* the map-to-struct decoder refused the value stored under a key *)
| UnmarshalError (key value : string)
(* "%s secret missing" *)
| SecretMissing (keyName : string)
(* "cannot get secret %s: %v" *)
| CannotGetSecret (secretName : string) (cause : Error)
(* "cannot unmarshal PVC annotations: %v" *)
| CannotUnmarshalPVC (cause : Error)
(* "cannot unmarshal storage class parameters: %v" *)
| CannotUnmarshalSC (cause : Error)
(* Bad value for ibm.io/object-store-endpoint "%v": scheme is missing. ... *)
| BadObjectStoreEndpoint (value : string)
(* Bad value for ibm.io/iam-endpoint "%v": Must be of the form ... *)
| BadIAMEndpoint (value : string)
(* "Cannot convert value of <field> into integer: %v" *)
| CannotConvert (field : NumField) (cause : Error)
(* "value of stat-cache-expire-seconds should be >= 0" *)
| NegativeStatCacheExpire
(* "object-path cannot be set when auto-create is enabled, got: %s" *)
| ObjectPathWithAutoCreate (objectPath : string)
(* "bucket auto-create must be enabled when bucket auto-delete is enabled" *)
| AutoDeleteWithoutAutoCreate
(* "bucket cannot be set when auto-delete is enabled, got: %s" *)
| BucketWithAutoDelete (bucket : string)
(* "cannot create UUID for bucket name: %v" *)
| CannotCreateUUID (cause : Error)
(* "bucket name not specified" *)
| BucketNameNotSpecified
(* "cannot get credentials: %v" *)
| CannotGetCredentials (cause : Error)
(* "cannot create bucket using API key without service-instance-id" *)
| APIKeyWithoutServiceInstanceID
(* "cannot create bucket %s: %v" *)
| CannotCreateBucket (bucket : string) (cause : Error)
(* "cannot access bucket %s: %v" *)
| CannotAccessBucket (bucket : string) (cause : Error)
(* cannot access object-path "%s" inside bucket %s: %v *)
| CannotAccessObjectPath (objectPath bucket : string) (cause : Error)
(* object-path "%s" not found inside bucket %s *)
| ObjectPathNotFound (objectPath bucket : string)
(* "cannot marshal driver options: %v" *)
| CannotMarshalDriverOptions (cause : Error)
(* "cannot marshal pv options: %v" *)
| CannotMarshalPVOptions (cause : Error)
(* "cannot unmarshal PV annotations: %v" *)
| CannotUnmarshalPV (cause : Error)
(* "cannot delete bucket: %v" *)
| CannotDeleteBucket (cause : Error).

(** A Go result [(value, error)]. *)
Inductive Result (A : Type) :=
| Ok (a : A)
| Err (e : Error).
Arguments Ok {A} a.
Arguments Err {A} e.

(** Modelled from the spec: the error taxonomy of section 7
    ([ConfigParseError], [ValidationError], [CredentialError],
    [BackendError], [MarshalError]); the source has one untyped [error]
    and tells the cases apart by message only. *)
Inductive ErrorClass :=
| ConfigParseError
| ValidationError
| CredentialError
| BackendError
| MarshalError.

(** Modelled from the spec: the class of each error site, after section 7
    (malformed numeric string; cross-field policy violation, missing
    bucket, bad endpoint scheme, object-path not found, missing
    service-instance-id; secret missing or missing a field; bucket
    create, access-check and existence-check failures; descriptor
    serialization failure).  Sites that section 7 does not place have
    no class. *)
Definition error_class (e : Error) : option ErrorClass :=
  match e with
  | CannotConvert _ _ => Some ConfigParseError
  | BadObjectStoreEndpoint _ | BadIAMEndpoint _ | NegativeStatCacheExpire
  | ObjectPathWithAutoCreate _ | AutoDeleteWithoutAutoCreate
  | BucketWithAutoDelete _ | BucketNameNotSpecified
  | APIKeyWithoutServiceInstanceID | ObjectPathNotFound _ _ =>
      Some ValidationError
  | SecretMissing _ | CannotGetSecret _ _ | CannotGetCredentials _ =>
      Some CredentialError
  | CannotCreateBucket _ _ | CannotAccessBucket _ _
  | CannotAccessObjectPath _ _ _ => Some BackendError
  | CannotMarshalDriverOptions _ | CannotMarshalPVOptions _ => Some MarshalError
  | External _ | AtoiError _ _ | UnmarshalError _ _ | CannotUnmarshalPVC _
  | CannotUnmarshalSC _ | CannotUnmarshalPV _ | CannotCreateUUID _
  | CannotDeleteBucket _ => None
  end.

(** ** Strings and integers of the Go standard library *)

(** [strings.HasPrefix(s, prefix)]. *)
Definition HasPrefix (s pre : string) : bool := String.prefix pre s.

Definition is_digit (c : ascii) : bool :=
  let n := N_of_ascii c in (48 <=? n)%N && (n <=? 57)%N.

Definition digit_value (c : ascii) : Z := Z.of_N (N_of_ascii c) - 48.

(** The largest [uint64], the bound of the digit loop of
    [strconv.ParseUint]. *)
Definition max_uint64 : Z := 2 ^ 64 - 1.

(** What the digit loop ends in: the value read, a character that is
    not a digit, or a value that left the 64 bits. *)
Inductive Digits :=
| DigitsValue (n : Z)
| DigitsSyntax
| DigitsRange.

(** The digit loop, left to right: a character that is not a digit
    stops it with a syntax error, a digit that takes the value past
    [max_uint64] stops it with a range error, whatever follows. *)
Fixpoint digits_value (s : string) (acc : Z) : Digits :=
  match s with
  | EmptyString => DigitsValue acc
  | String c s' =>
      if is_digit c then
        let n := 10 * acc + digit_value c in
        if max_uint64 <? n then DigitsRange else digits_value s' n
      else DigitsSyntax
  end.

Definition min_int : Z := - 2 ^ 63.
Definition max_int : Z := 2 ^ 63 - 1.

(** [strconv.Atoi]: an optional sign, then one or more decimal digits;
    the value has to fit the 64-bit [int]. *)
Definition Atoi (s : string) : Result Z :=
  let '(neg, body) :=
    match s with
    | String "-" r => (true, r)
    | String "+" r => (false, r)
    | _ => (false, s)
    end in
  match body with
  | EmptyString => Err (AtoiError s ErrSyntax)
  | _ =>
      match digits_value body 0 with
      | DigitsSyntax => Err (AtoiError s ErrSyntax)
      | DigitsRange => Err (AtoiError s ErrRange)
      | DigitsValue n =>
          let v := if neg then - n else n in
          if (min_int <=? v) && (v <=? max_int) then Ok v
          else Err (AtoiError s ErrRange)
      end
  end.

(** [strconv.Itoa]. *)
Definition Itoa (z : Z) : string := pretty z.

(** ** The structs of the file *)

(** [pvcAnnotations]: the annotations of a claim. *)
Record pvcAnnotations := {
  pvc_AutoCreateBucket : bool;          (* ibm.io/auto-create-bucket,string *)
  pvc_AutoDeleteBucket : bool;          (* ibm.io/auto-delete-bucket,string *)
  pvc_Bucket : string;                  (* ibm.io/bucket *)
  pvc_ObjectPath : string;              (* ibm.io/object-path,omitempty *)
  pvc_Endpoint : string;                (* ibm.io/endpoint,omitempty *)
  pvc_Region : string;                  (* ibm.io/region,omitempty *)
  pvc_SecretName : string;              (* ibm.io/secret-name *)
  pvc_ChunkSizeMB : string;             (* ibm.io/chunk-size-mb,omitempty *)
  pvc_ParallelCount : string;           (* ibm.io/parallel-count,omitempty *)
  pvc_MultiReqMax : string;             (* ibm.io/multireq-max,omitempty *)
  pvc_StatCacheSize : string;           (* ibm.io/stat-cache-size,omitempty *)
  pvc_S3FSFUSERetryCount : string;      (* ibm.io/s3fs-fuse-retry-count,omitempty *)
  pvc_StatCacheExpireSeconds : string;  (* ibm.io/stat-cache-expire-seconds,omitempty *)
  pvc_IAMEndpoint : string;             (* ibm.io/iam-endpoint,omitempty *)
  pvc_ValidateBucket : string           (* ibm.io/validate-bucket,omitempty *)
}.

(** [pvAnnotations]: the embedded [pvcAnnotations] and the namespace of
    the secret. *)
Record pvAnnotations := {
  pva_pvcAnnotations : pvcAnnotations;
  pva_SecretNamespace : string          (* ibm.io/secret-namespace *)
}.

(** [scOptions]: the parameters of a storage class. *)
Record scOptions := {
  sc_ChunkSizeMB : Z;                   (* ibm.io/chunk-size-mb,string *)
  sc_ParallelCount : Z;                 (* ibm.io/parallel-count,string *)
  sc_MultiReqMax : Z;                   (* ibm.io/multireq-max,string *)
  sc_StatCacheSize : Z;                 (* ibm.io/stat-cache-size,string *)
  sc_TLSCipherSuite : string;           (* ibm.io/tls-cipher-suite,omitempty *)
  sc_DebugLevel : string;               (* ibm.io/debug-level *)
  sc_CurlDebug : bool;                  (* ibm.io/curl-debug,string,omitempty *)
  sc_KernelCache : bool;                (* ibm.io/kernel-cache,string,omitempty *)
  sc_S3FSFUSERetryCount : Z;            (* ibm.io/s3fs-fuse-retry-count,string,omitempty *)
  sc_IAMEndpoint : string;              (* ibm.io/iam-endpoint,omitempty *)
  sc_OSEndpoint : string;               (* ibm.io/object-store-endpoint,omitempty *)
  sc_OSStorageClass : string            (* ibm.io/object-store-storage-class,omitempty *)
}.

Definition driverName : string := "ibm/ibmc-s3fs".
Definition autoBucketNamePrefix : string := "tmp-s3fs-".
Definition fsType : string := "".

(** Assignments to single fields, as [Provision] makes them. *)
Definition set_pvc_Bucket (b : string) (a : pvcAnnotations) : pvcAnnotations :=
  {| pvc_AutoCreateBucket := pvc_AutoCreateBucket a;
     pvc_AutoDeleteBucket := pvc_AutoDeleteBucket a;
     pvc_Bucket := b;
     pvc_ObjectPath := pvc_ObjectPath a;
     pvc_Endpoint := pvc_Endpoint a;
     pvc_Region := pvc_Region a;
     pvc_SecretName := pvc_SecretName a;
     pvc_ChunkSizeMB := pvc_ChunkSizeMB a;
     pvc_ParallelCount := pvc_ParallelCount a;
     pvc_MultiReqMax := pvc_MultiReqMax a;
     pvc_StatCacheSize := pvc_StatCacheSize a;
     pvc_S3FSFUSERetryCount := pvc_S3FSFUSERetryCount a;
     pvc_StatCacheExpireSeconds := pvc_StatCacheExpireSeconds a;
     pvc_IAMEndpoint := pvc_IAMEndpoint a;
     pvc_ValidateBucket := pvc_ValidateBucket a |}.

Definition set_sc_OSEndpoint (v : string) (s : scOptions) : scOptions :=
  {| sc_ChunkSizeMB := sc_ChunkSizeMB s; sc_ParallelCount := sc_ParallelCount s;
     sc_MultiReqMax := sc_MultiReqMax s; sc_StatCacheSize := sc_StatCacheSize s;
     sc_TLSCipherSuite := sc_TLSCipherSuite s; sc_DebugLevel := sc_DebugLevel s;
     sc_CurlDebug := sc_CurlDebug s; sc_KernelCache := sc_KernelCache s;
     sc_S3FSFUSERetryCount := sc_S3FSFUSERetryCount s;
     sc_IAMEndpoint := sc_IAMEndpoint s;
     sc_OSEndpoint := v;
     sc_OSStorageClass := sc_OSStorageClass s |}.

Definition set_sc_OSStorageClass (v : string) (s : scOptions) : scOptions :=
  {| sc_ChunkSizeMB := sc_ChunkSizeMB s; sc_ParallelCount := sc_ParallelCount s;
     sc_MultiReqMax := sc_MultiReqMax s; sc_StatCacheSize := sc_StatCacheSize s;
     sc_TLSCipherSuite := sc_TLSCipherSuite s; sc_DebugLevel := sc_DebugLevel s;
     sc_CurlDebug := sc_CurlDebug s; sc_KernelCache := sc_KernelCache s;
     sc_S3FSFUSERetryCount := sc_S3FSFUSERetryCount s;
     sc_IAMEndpoint := sc_IAMEndpoint s;
     sc_OSEndpoint := sc_OSEndpoint s;
     sc_OSStorageClass := v |}.

Definition set_sc_IAMEndpoint (v : string) (s : scOptions) : scOptions :=
  {| sc_ChunkSizeMB := sc_ChunkSizeMB s; sc_ParallelCount := sc_ParallelCount s;
     sc_MultiReqMax := sc_MultiReqMax s; sc_StatCacheSize := sc_StatCacheSize s;
     sc_TLSCipherSuite := sc_TLSCipherSuite s; sc_DebugLevel := sc_DebugLevel s;
     sc_CurlDebug := sc_CurlDebug s; sc_KernelCache := sc_KernelCache s;
     sc_S3FSFUSERetryCount := sc_S3FSFUSERetryCount s;
     sc_IAMEndpoint := v;
     sc_OSEndpoint := sc_OSEndpoint s;
     sc_OSStorageClass := sc_OSStorageClass s |}.

Definition set_sc_S3FSFUSERetryCount (v : Z) (s : scOptions) : scOptions :=
  {| sc_ChunkSizeMB := sc_ChunkSizeMB s; sc_ParallelCount := sc_ParallelCount s;
     sc_MultiReqMax := sc_MultiReqMax s; sc_StatCacheSize := sc_StatCacheSize s;
     sc_TLSCipherSuite := sc_TLSCipherSuite s; sc_DebugLevel := sc_DebugLevel s;
     sc_CurlDebug := sc_CurlDebug s; sc_KernelCache := sc_KernelCache s;
     sc_S3FSFUSERetryCount := v;
     sc_IAMEndpoint := sc_IAMEndpoint s;
     sc_OSEndpoint := sc_OSEndpoint s;
     sc_OSStorageClass := sc_OSStorageClass s |}.

Definition set_sc_ChunkSizeMB (v : Z) (s : scOptions) : scOptions :=
  {| sc_ChunkSizeMB := v; sc_ParallelCount := sc_ParallelCount s;
     sc_MultiReqMax := sc_MultiReqMax s; sc_StatCacheSize := sc_StatCacheSize s;
     sc_TLSCipherSuite := sc_TLSCipherSuite s; sc_DebugLevel := sc_DebugLevel s;
     sc_CurlDebug := sc_CurlDebug s; sc_KernelCache := sc_KernelCache s;
     sc_S3FSFUSERetryCount := sc_S3FSFUSERetryCount s;
     sc_IAMEndpoint := sc_IAMEndpoint s;
     sc_OSEndpoint := sc_OSEndpoint s;
     sc_OSStorageClass := sc_OSStorageClass s |}.

Definition set_sc_ParallelCount (v : Z) (s : scOptions) : scOptions :=
  {| sc_ChunkSizeMB := sc_ChunkSizeMB s; sc_ParallelCount := v;
     sc_MultiReqMax := sc_MultiReqMax s; sc_StatCacheSize := sc_StatCacheSize s;
     sc_TLSCipherSuite := sc_TLSCipherSuite s; sc_DebugLevel := sc_DebugLevel s;
     sc_CurlDebug := sc_CurlDebug s; sc_KernelCache := sc_KernelCache s;
     sc_S3FSFUSERetryCount := sc_S3FSFUSERetryCount s;
     sc_IAMEndpoint := sc_IAMEndpoint s;
     sc_OSEndpoint := sc_OSEndpoint s;
     sc_OSStorageClass := sc_OSStorageClass s |}.

Definition set_sc_MultiReqMax (v : Z) (s : scOptions) : scOptions :=
  {| sc_ChunkSizeMB := sc_ChunkSizeMB s; sc_ParallelCount := sc_ParallelCount s;
     sc_MultiReqMax := v; sc_StatCacheSize := sc_StatCacheSize s;
     sc_TLSCipherSuite := sc_TLSCipherSuite s; sc_DebugLevel := sc_DebugLevel s;
     sc_CurlDebug := sc_CurlDebug s; sc_KernelCache := sc_KernelCache s;
     sc_S3FSFUSERetryCount := sc_S3FSFUSERetryCount s;
     sc_IAMEndpoint := sc_IAMEndpoint s;
     sc_OSEndpoint := sc_OSEndpoint s;
     sc_OSStorageClass := sc_OSStorageClass s |}.

Definition set_sc_StatCacheSize (v : Z) (s : scOptions) : scOptions :=
  {| sc_ChunkSizeMB := sc_ChunkSizeMB s; sc_ParallelCount := sc_ParallelCount s;
     sc_MultiReqMax := sc_MultiReqMax s; sc_StatCacheSize := v;
     sc_TLSCipherSuite := sc_TLSCipherSuite s; sc_DebugLevel := sc_DebugLevel s;
     sc_CurlDebug := sc_CurlDebug s; sc_KernelCache := sc_KernelCache s;
     sc_S3FSFUSERetryCount := sc_S3FSFUSERetryCount s;
     sc_IAMEndpoint := sc_IAMEndpoint s;
     sc_OSEndpoint := sc_OSEndpoint s;
     sc_OSStorageClass := sc_OSStorageClass s |}.

(** [driver.Options]: the options handed to the mount driver.  The field
    names and types are those of the literal built by [Provision]. *)
Record Options := {
  do_ChunkSizeMB : Z;
  do_ParallelCount : Z;
  do_MultiReqMax : Z;
  do_StatCacheSize : Z;
  do_TLSCipherSuite : string;
  do_CurlDebug : bool;
  do_KernelCache : bool;
  do_DebugLevel : string;
  do_S3FSFUSERetryCount : string;
  do_StatCacheExpireSeconds : string;
  do_IAMEndpoint : string;
  do_OSEndpoint : string;
  do_OSStorageClass : string;
  do_Bucket : string;
  do_ObjectPath : string
}.

(** [backend.ObjectStorageCredentials], with the fields the file uses. *)
Record ObjectStorageCredentials := {
  cred_AccessKey : string;
  cred_SecretKey : string;
  cred_APIKey : string;
  cred_ServiceInstanceID : string;
  cred_IAMEndpoint : string
}.

Definition set_cred_IAMEndpoint (v : string) (c : ObjectStorageCredentials)
  : ObjectStorageCredentials :=
  {| cred_AccessKey := cred_AccessKey c; cred_SecretKey := cred_SecretKey c;
     cred_APIKey := cred_APIKey c;
     cred_ServiceInstanceID := cred_ServiceInstanceID c;
     cred_IAMEndpoint := v |}.

(** [v1.Secret]: only [Data] is read; a [[]byte] value is kept as the
    string [string(bytesVal)] makes of it. *)
Record Secret := { secret_Data : gmap string string }.

(** The constants [driver.SecretAccessKey], [driver.SecretSecretKey],
    [driver.SecretAPIKey] and [driver.SecretServiceInstanceID]: package
    [driver] is not among the sources, so the four key names are
    parameters of the development. *)
Record SecretKeys := {
  SecretAccessKey : string;
  SecretSecretKey : string;
  SecretAPIKey : string;
  SecretServiceInstanceID : string
}.

(** The parts of [v1.PersistentVolumeClaim] and
    [controller.VolumeOptions] that [Provision] reads.  A
    [resource.Quantity] is kept as its text, the zero quantity as the
    empty string. *)
Record PersistentVolumeClaim := {
  claim_Name : string;
  claim_Namespace : string;
  claim_Annotations : gmap string string;
  claim_AccessModes : list string;
  claim_Requests : gmap string string
}.

Record VolumeOptions := {
  vo_PersistentVolumeReclaimPolicy : string;
  vo_PVName : string;
  vo_PVC : PersistentVolumeClaim;
  vo_Parameters : gmap string string
}.

(** The parts of [v1.PersistentVolume] that [Provision] writes and
    [Delete] reads.  [FlexVolume] is a pointer: [None] is nil. *)
Record SecretReference := { sr_Name : string }.

Record FlexPersistentVolumeSource := {
  fv_Driver : string;
  fv_FSType : string;
  fv_SecretRef : option SecretReference;
  fv_ReadOnly : bool;
  fv_Options : gmap string string
}.

Record PersistentVolume := {
  pv_Name : string;
  pv_Annotations : gmap string string;
  pv_PersistentVolumeReclaimPolicy : string;
  pv_AccessModes : list string;
  pv_Capacity : gmap string string;
  pv_FlexVolume : option FlexPersistentVolumeSource
}.

(** [v1.ResourceStorage]. *)
Definition ResourceStorage : string := "storage".

(** ** Maps and structs: package [parser] *)

(** Go's [m[k]] on a [map[string]string]. *)
Definition map_get (m : gmap string string) (k : string) : string :=
  default "" (m !! k).

(** Modelled from the spec: [parser.UnmarshalMap] and [parser.MarshalToMap]
    (package [utils/parser] is not among the sources).  Section 4.5 asks
    for a format-stable pair driven by the stable key names of section 6;
    the model follows the [json] tags of the structs: a field is stored
    under its tag; a [bool] or [int] tagged [string] is stored as its
    literal; a field tagged [omitempty] is left out when it is the zero
    value; a key that is missing leaves the zero value; keys that no field
    claims are ignored. *)
Definition decode_string (m : gmap string string) (k : string) : string :=
  default "" (m !! k).

Definition decode_bool (m : gmap string string) (k : string) : Result bool :=
  match m !! k with
  | None => Ok false
  | Some v =>
      if String.eqb v "true" then Ok true
      else if String.eqb v "false" then Ok false
      else Err (UnmarshalError k v)
  end.

(** An integer literal of JSON: no [+] sign and no leading zero. *)
Definition json_int_literal (v : string) : bool :=
  match v with
  | String "+" _ => false
  | String "0" (String _ _) => false
  | String "-" (String "0" (String _ _)) => false
  | _ => true
  end.

Definition decode_int (m : gmap string string) (k : string) : Result Z :=
  match m !! k with
  | None => Ok 0
  | Some v =>
      if json_int_literal v then
        match Atoi v with
        | Ok z => Ok z
        | Err _ => Err (UnmarshalError k v)
        end
      else Err (UnmarshalError k v)
  end.

Definition encode_string (k v : string) (m : gmap string string)
  : gmap string string := <[k := v]> m.

Definition encode_string_omitempty (k v : string) (m : gmap string string)
  : gmap string string := if String.eqb v "" then m else <[k := v]> m.

Definition bool_literal (b : bool) : string := if b then "true" else "false".

Definition encode_bool (k : string) (b : bool) (m : gmap string string)
  : gmap string string := <[k := bool_literal b]> m.

Definition encode_bool_omitempty (k : string) (b : bool) (m : gmap string string)
  : gmap string string := if b then <[k := "true"]> m else m.

Definition encode_int (k : string) (z : Z) (m : gmap string string)
  : gmap string string := <[k := Itoa z]> m.

(** Modelled from the spec: [parser.UnmarshalMap] into a [pvcAnnotations]. *)
Definition UnmarshalMap_pvcAnnotations (m : gmap string string)
  : Result pvcAnnotations :=
  match decode_bool m "ibm.io/auto-create-bucket" with
  | Err e => Err e
  | Ok autoCreate =>
  match decode_bool m "ibm.io/auto-delete-bucket" with
  | Err e => Err e
  | Ok autoDelete =>
      Ok {| pvc_AutoCreateBucket := autoCreate;
            pvc_AutoDeleteBucket := autoDelete;
            pvc_Bucket := decode_string m "ibm.io/bucket";
            pvc_ObjectPath := decode_string m "ibm.io/object-path";
            pvc_Endpoint := decode_string m "ibm.io/endpoint";
            pvc_Region := decode_string m "ibm.io/region";
            pvc_SecretName := decode_string m "ibm.io/secret-name";
            pvc_ChunkSizeMB := decode_string m "ibm.io/chunk-size-mb";
            pvc_ParallelCount := decode_string m "ibm.io/parallel-count";
            pvc_MultiReqMax := decode_string m "ibm.io/multireq-max";
            pvc_StatCacheSize := decode_string m "ibm.io/stat-cache-size";
            pvc_S3FSFUSERetryCount := decode_string m "ibm.io/s3fs-fuse-retry-count";
            pvc_StatCacheExpireSeconds :=
              decode_string m "ibm.io/stat-cache-expire-seconds";
            pvc_IAMEndpoint := decode_string m "ibm.io/iam-endpoint";
            pvc_ValidateBucket := decode_string m "ibm.io/validate-bucket" |}
  end end.

(** Modelled from the spec: [parser.UnmarshalMap] into a [pvAnnotations]
    (the fields of the embedded struct are read at the top level). *)
Definition UnmarshalMap_pvAnnotations (m : gmap string string)
  : Result pvAnnotations :=
  match UnmarshalMap_pvcAnnotations m with
  | Err e => Err e
  | Ok a =>
      Ok {| pva_pvcAnnotations := a;
            pva_SecretNamespace := decode_string m "ibm.io/secret-namespace" |}
  end.

(** Modelled from the spec: [parser.UnmarshalMap] into a [scOptions]. *)
Definition UnmarshalMap_scOptions (m : gmap string string) : Result scOptions :=
  match decode_int m "ibm.io/chunk-size-mb" with
  | Err e => Err e
  | Ok chunk =>
  match decode_int m "ibm.io/parallel-count" with
  | Err e => Err e
  | Ok parallel =>
  match decode_int m "ibm.io/multireq-max" with
  | Err e => Err e
  | Ok multireq =>
  match decode_int m "ibm.io/stat-cache-size" with
  | Err e => Err e
  | Ok statCache =>
  match decode_bool m "ibm.io/curl-debug" with
  | Err e => Err e
  | Ok curlDebug =>
  match decode_bool m "ibm.io/kernel-cache" with
  | Err e => Err e
  | Ok kernelCache =>
  match decode_int m "ibm.io/s3fs-fuse-retry-count" with
  | Err e => Err e
  | Ok retry =>
      Ok {| sc_ChunkSizeMB := chunk;
            sc_ParallelCount := parallel;
            sc_MultiReqMax := multireq;
            sc_StatCacheSize := statCache;
            sc_TLSCipherSuite := decode_string m "ibm.io/tls-cipher-suite";
            sc_DebugLevel := decode_string m "ibm.io/debug-level";
            sc_CurlDebug := curlDebug;
            sc_KernelCache := kernelCache;
            sc_S3FSFUSERetryCount := retry;
            sc_IAMEndpoint := decode_string m "ibm.io/iam-endpoint";
            sc_OSEndpoint := decode_string m "ibm.io/object-store-endpoint";
            sc_OSStorageClass :=
              decode_string m "ibm.io/object-store-storage-class" |}
  end end end end end end end.

(** Modelled from the spec: [parser.MarshalToMap] of a [pvAnnotations]. *)
Definition MarshalToMap_pvAnnotations (a : pvAnnotations)
  : Result (gmap string string) :=
  let c := pva_pvcAnnotations a in
  Ok (encode_bool "ibm.io/auto-create-bucket" (pvc_AutoCreateBucket c)
     (encode_bool "ibm.io/auto-delete-bucket" (pvc_AutoDeleteBucket c)
     (encode_string "ibm.io/bucket" (pvc_Bucket c)
     (encode_string_omitempty "ibm.io/object-path" (pvc_ObjectPath c)
     (encode_string_omitempty "ibm.io/endpoint" (pvc_Endpoint c)
     (encode_string_omitempty "ibm.io/region" (pvc_Region c)
     (encode_string "ibm.io/secret-name" (pvc_SecretName c)
     (encode_string_omitempty "ibm.io/chunk-size-mb" (pvc_ChunkSizeMB c)
     (encode_string_omitempty "ibm.io/parallel-count" (pvc_ParallelCount c)
     (encode_string_omitempty "ibm.io/multireq-max" (pvc_MultiReqMax c)
     (encode_string_omitempty "ibm.io/stat-cache-size" (pvc_StatCacheSize c)
     (encode_string_omitempty "ibm.io/s3fs-fuse-retry-count"
        (pvc_S3FSFUSERetryCount c)
     (encode_string_omitempty "ibm.io/stat-cache-expire-seconds"
        (pvc_StatCacheExpireSeconds c)
     (encode_string_omitempty "ibm.io/iam-endpoint" (pvc_IAMEndpoint c)
     (encode_string_omitempty "ibm.io/validate-bucket" (pvc_ValidateBucket c)
     (encode_string "ibm.io/secret-namespace" (pva_SecretNamespace a)
        ∅)))))))))))))))).

(** Modelled from the spec: [parser.MarshalToMap] of a [driver.Options].
    The tags of [driver.Options] are not among the sources; section 6
    gives the keys as the annotation names without the [ibm.io/] prefix
    ([object-store-endpoint], [iam-endpoint], ...), and [Delete] reads
    three of them under exactly these names.  Fields are left out when
    empty where the matching annotation or class parameter is. *)
Definition MarshalToMap_Options (d : Options) : Result (gmap string string) :=
  Ok (encode_int "chunk-size-mb" (do_ChunkSizeMB d)
     (encode_int "parallel-count" (do_ParallelCount d)
     (encode_int "multireq-max" (do_MultiReqMax d)
     (encode_int "stat-cache-size" (do_StatCacheSize d)
     (encode_string_omitempty "tls-cipher-suite" (do_TLSCipherSuite d)
     (encode_bool_omitempty "curl-debug" (do_CurlDebug d)
     (encode_bool_omitempty "kernel-cache" (do_KernelCache d)
     (encode_string "debug-level" (do_DebugLevel d)
     (encode_string_omitempty "s3fs-fuse-retry-count" (do_S3FSFUSERetryCount d)
     (encode_string_omitempty "stat-cache-expire-seconds"
        (do_StatCacheExpireSeconds d)
     (encode_string_omitempty "iam-endpoint" (do_IAMEndpoint d)
     (encode_string_omitempty "object-store-endpoint" (do_OSEndpoint d)
     (encode_string_omitempty "object-store-storage-class" (do_OSStorageClass d)
     (encode_string "bucket" (do_Bucket d)
     (encode_string_omitempty "object-path" (do_ObjectPath d)
        ∅))))))))))))))).

(** ** Effects: outcomes, events and the collaborators *)

(** What a call of [Provision] or [Delete] ends in: a returned value, a
    returned [error], or a run-time panic (nil dereference). *)
Inductive Outcome (A : Type) :=
| Return (a : A)
| Fail (e : Error)
| Panic.
Arguments Return {A} a.
Arguments Fail {A} e.
Arguments Panic {A}.

Section Provisioner.

Context {World Session : Type}.

(** One entry per call of a collaborator, with the arguments passed. *)
Inductive Event :=
| EvSecretsGet (secretNamespace secretName : string)
| EvUUIDNew
| EvNewObjectStorageSession (endpoint region : string)
    (creds : ObjectStorageCredentials)
| EvCreateBucket (sess : Session) (bucket : string)
| EvCheckBucketAccess (sess : Session) (bucket : string)
| EvCheckObjectPathExistence (sess : Session) (bucket objectPath : string)
| EvDeleteBucket (sess : Session) (bucket : string).

(** [IBMS3fsProvisioner]: [Client] (the secrets of the cluster),
    [Backend] (the session factory and the methods of its sessions) and
    [UUIDGenerator], each a function of the world it acts on.  A Go
    [error] result is [None] for nil. *)
Record IBMS3fsProvisioner := {
  Client_Secrets_Get : string -> string -> World -> Result Secret * World;
  Backend_NewObjectStorageSession :
    string -> string -> ObjectStorageCredentials -> World -> Session * World;
  Session_CreateBucket : Session -> string -> World -> (string * option Error) * World;
  Session_CheckBucketAccess : Session -> string -> World -> option Error * World;
  Session_CheckObjectPathExistence :
    Session -> string -> string -> World -> (bool * option Error) * World;
  Session_DeleteBucket : Session -> string -> World -> option Error * World;
  UUIDGenerator_New : World -> Result string * World
}.

(** The state threaded through a call: the world and the calls made. *)
Definition State : Type := World * list Event.

Definition M (A : Type) : Type := State -> Outcome A * State.

Definition ret {A} (a : A) : M A := fun st => (Return a, st).

Definition fail {A} (e : Error) : M A := fun st => (Fail e, st).

Definition panic {A} : M A := fun st => (Panic, st).

Definition bind {A B} (m : M A) (k : A -> M B) : M B :=
  fun st =>
    match m st with
    | (Return a, st') => k a st'
    | (Fail e, st') => (Fail e, st')
    | (Panic, st') => (Panic, st')
    end.

(** [if err != nil { return fmt.Errorf("...: %v", err) }] around a call. *)
Definition wrap_error {A} (wrap : Error -> Error) (m : M A) : M A :=
  fun st =>
    match m st with
    | (Fail e, st') => (Fail (wrap e), st')
    | r => r
    end.

(** A call of a collaborator: the world moves on, the call is recorded. *)
Definition call {A} (ev : Event) (f : World -> A * World) : M A :=
  fun st =>
    let '(a, w') := f (fst st) in (Return a, (w', (snd st ++ [ev])%list)).

Notation "'let*' x ':=' c 'in' k" := (bind c (fun x => k))
  (at level 10, x name, c at level 100, k at level 200, only parsing).
Notation "'let*' ' pat ':=' c 'in' k" :=
  (bind c (fun x => match x with pat => k end))
  (at level 10, pat pattern, c at level 100, k at level 200, only parsing).

Context (keys : SecretKeys) (p : IBMS3fsProvisioner).

(** ** [parseSecret] and [getCredentials] *)

Definition parseSecret (secret : Secret) (keyName : string) : Result string :=
  match secret_Data secret !! keyName with
  | None => Err (SecretMissing keyName)
  | Some bytesVal => Ok bytesVal
  end.

Definition getCredentials (secretName secretNamespace : string)
  : M ObjectStorageCredentials :=
  let* r := call (EvSecretsGet secretNamespace secretName)
         (Client_Secrets_Get p secretNamespace secretName) in
  match r with
  | Err err => fail (CannotGetSecret secretName err)
  | Ok secrets =>
      match parseSecret secrets (SecretAPIKey keys) with
      | Err _ =>
          match parseSecret secrets (SecretAccessKey keys) with
          | Err err => fail err
          | Ok accessKey =>
              match parseSecret secrets (SecretSecretKey keys) with
              | Err err => fail err
              | Ok secretKey =>
                  ret {| cred_AccessKey := accessKey;
                         cred_SecretKey := secretKey;
                         cred_APIKey := "";
                         cred_ServiceInstanceID := "";
                         cred_IAMEndpoint := "" |}
              end
          end
      | Ok apiKey =>
          (* the error of this read is dropped; on failure the value is "" *)
          let serviceInstanceID :=
            match parseSecret secrets (SecretServiceInstanceID keys) with
            | Ok v => v
            | Err _ => ""
            end in
          ret {| cred_AccessKey := "";
                 cred_SecretKey := "";
                 cred_APIKey := apiKey;
                 cred_ServiceInstanceID := serviceInstanceID;
                 cred_IAMEndpoint := "" |}
      end
  end.

(** ** [Provision] *)

(** The scheme test of both endpoint checks. *)
Definition has_scheme (s : string) : bool :=
  HasPrefix s "https://" || HasPrefix s "http://".

(** The shape of the five override blocks of lines 187-220: a non-empty
    annotation is converted and replaces the value of the class. *)
Definition override_int (field : NumField) (claim : string) (current : Z)
  : Result Z :=
  if String.eqb claim "" then Ok current
  else
    match Atoi claim with
    | Ok v => Ok v
    | Err err => Err (CannotConvert field err)
    end.

(** [Provision], lines 157-230: the overrides of the storage class by
    the claim, with the endpoint and integer checks, in source order. *)
Definition Provision_resolve (pvc : pvcAnnotations) (sc : scOptions)
  : Result scOptions :=
  let sc := if String.eqb (pvc_Endpoint pvc) "" then sc
            else set_sc_OSEndpoint (pvc_Endpoint pvc) sc in
  let sc := if String.eqb (pvc_Region pvc) "" then sc
            else set_sc_OSStorageClass (pvc_Region pvc) sc in
  if negb (has_scheme (sc_OSEndpoint sc))
  then Err (BadObjectStoreEndpoint (sc_OSEndpoint sc)) else
  let sc := if String.eqb (pvc_IAMEndpoint pvc) "" then sc
            else set_sc_IAMEndpoint (pvc_IAMEndpoint pvc) sc in
  if negb (has_scheme (sc_IAMEndpoint sc))
  then Err (BadIAMEndpoint (sc_IAMEndpoint sc)) else
  match override_int F_s3fs_fuse_retry_count
          (pvc_S3FSFUSERetryCount pvc) (sc_S3FSFUSERetryCount sc) with
  | Err err => Err err
  | Ok v =>
  let sc := set_sc_S3FSFUSERetryCount v sc in
  match override_int F_chunk_size_mb (pvc_ChunkSizeMB pvc) (sc_ChunkSizeMB sc) with
  | Err err => Err err
  | Ok v =>
  let sc := set_sc_ChunkSizeMB v sc in
  match override_int F_parallel_count
          (pvc_ParallelCount pvc) (sc_ParallelCount sc) with
  | Err err => Err err
  | Ok v =>
  let sc := set_sc_ParallelCount v sc in
  match override_int F_multireq_max (pvc_MultiReqMax pvc) (sc_MultiReqMax sc) with
  | Err err => Err err
  | Ok v =>
  let sc := set_sc_MultiReqMax v sc in
  match override_int F_stat_cache_size
          (pvc_StatCacheSize pvc) (sc_StatCacheSize sc) with
  | Err err => Err err
  | Ok v =>
  let sc := set_sc_StatCacheSize v sc in
  if String.eqb (pvc_StatCacheExpireSeconds pvc) "" then Ok sc
  else
    match Atoi (pvc_StatCacheExpireSeconds pvc) with
    | Err err => Err (CannotConvert F_stat_cache_expire_seconds err)
    | Ok cacheExpireSeconds =>
        if cacheExpireSeconds <? 0 then Err NegativeStatCacheExpire else Ok sc
    end
  end end end end end.

(** [Provision], lines 232-253: the checks across the flags of the
    claim and the generated bucket name.  Returns the claim, with
    [Bucket] assigned when a name was generated. *)
Definition Provision_policy (pvc : pvcAnnotations) : M pvcAnnotations :=
  if pvc_AutoCreateBucket pvc && negb (String.eqb (pvc_ObjectPath pvc) "")
  then fail (ObjectPathWithAutoCreate (pvc_ObjectPath pvc)) else
  if pvc_AutoDeleteBucket pvc then
    if negb (pvc_AutoCreateBucket pvc) then fail AutoDeleteWithoutAutoCreate else
    if negb (String.eqb (pvc_Bucket pvc) "")
    then fail (BucketWithAutoDelete (pvc_Bucket pvc)) else
    let* r := call EvUUIDNew (UUIDGenerator_New p) in
    match r with
    | Err err => fail (CannotCreateUUID err)
    | Ok id => ret (set_pvc_Bucket (autoBucketNamePrefix ++ id) pvc)
    end
  else if String.eqb (pvc_Bucket pvc) "" then fail BucketNameNotSpecified
  else ret pvc.

(** The value of [valBucket] after lines 255-259. *)
Definition valBucket (pvc : pvcAnnotations) : bool :=
  if String.eqb (pvc_ValidateBucket pvc) "no" && negb (pvc_AutoCreateBucket pvc)
  then false else true.

(** [Provision], lines 262-299: credentials and session, bucket
    creation, access check and object-path check.  [creds] and [sess]
    start out nil. *)
Definition Provision_lifecycle (secretNamespace : string)
    (pvc : pvcAnnotations) (sc : scOptions) : M unit :=
  let* '(creds, sess) :=
     (if valBucket pvc then
        let* creds := wrap_error CannotGetCredentials
                   (getCredentials (pvc_SecretName pvc) secretNamespace) in
        let creds := set_cred_IAMEndpoint (sc_IAMEndpoint sc) creds in
        let* sess := call (EvNewObjectStorageSession
                        (sc_OSEndpoint sc) (sc_OSStorageClass sc) creds)
                  (Backend_NewObjectStorageSession p
                     (sc_OSEndpoint sc) (sc_OSStorageClass sc) creds) in
        ret (Some creds, Some sess)
      else ret (None, None)) in
  let* _ := (if pvc_AutoCreateBucket pvc then
          match creds with
          | None => panic
          | Some creds =>
              if negb (String.eqb (cred_APIKey creds) "")
                 && String.eqb (cred_ServiceInstanceID creds) ""
              then fail APIKeyWithoutServiceInstanceID
              else
                match sess with
                | None => panic
                | Some sess =>
                    let* '(msg, err) := call (EvCreateBucket sess (pvc_Bucket pvc))
                                     (Session_CreateBucket p sess (pvc_Bucket pvc)) in
                    match err with
                    | Some err => fail (CannotCreateBucket (pvc_Bucket pvc) err)
                    | None => ret tt
                    end
                end
          end
        else ret tt) in
  let* _ := (if valBucket pvc then
          match sess with
          | None => panic
          | Some sess =>
              let* err := call (EvCheckBucketAccess sess (pvc_Bucket pvc))
                       (Session_CheckBucketAccess p sess (pvc_Bucket pvc)) in
              match err with
              | Some err => fail (CannotAccessBucket (pvc_Bucket pvc) err)
              | None => ret tt
              end
          end
        else ret tt) in
  if negb (String.eqb (pvc_ObjectPath pvc) "") then
    match sess with
    | None => panic
    | Some sess =>
        let* '(found, err) :=
           call (EvCheckObjectPathExistence sess (pvc_Bucket pvc) (pvc_ObjectPath pvc))
             (Session_CheckObjectPathExistence p sess
                (pvc_Bucket pvc) (pvc_ObjectPath pvc)) in
        match err with
        | Some err =>
            fail (CannotAccessObjectPath (pvc_ObjectPath pvc) (pvc_Bucket pvc) err)
        | None =>
            if negb found
            then fail (ObjectPathNotFound (pvc_ObjectPath pvc) (pvc_Bucket pvc))
            else ret tt
        end
    end
  else ret tt.

(** The [driver.Options] literal of lines 301-317. *)
Definition driver_Options (pvc : pvcAnnotations) (sc : scOptions) : Options :=
  {| do_ChunkSizeMB := sc_ChunkSizeMB sc;
     do_ParallelCount := sc_ParallelCount sc;
     do_MultiReqMax := sc_MultiReqMax sc;
     do_StatCacheSize := sc_StatCacheSize sc;
     do_TLSCipherSuite := sc_TLSCipherSuite sc;
     do_CurlDebug := sc_CurlDebug sc;
     do_KernelCache := sc_KernelCache sc;
     do_DebugLevel := sc_DebugLevel sc;
     do_S3FSFUSERetryCount := Itoa (sc_S3FSFUSERetryCount sc);
     do_StatCacheExpireSeconds := pvc_StatCacheExpireSeconds pvc;
     do_IAMEndpoint := sc_IAMEndpoint sc;
     do_OSEndpoint := sc_OSEndpoint sc;
     do_OSStorageClass := sc_OSStorageClass sc;
     do_Bucket := pvc_Bucket pvc;
     do_ObjectPath := pvc_ObjectPath pvc |}.

(** [Provision], lines 301-351: the two maps and the volume. *)
Definition Provision_volume (options : VolumeOptions)
    (pvc : pvcAnnotations) (sc : scOptions) : Result PersistentVolume :=
  match MarshalToMap_Options (driver_Options pvc sc) with
  | Err err => Err (CannotMarshalDriverOptions err)
  | Ok driverOptions =>
  match MarshalToMap_pvAnnotations
          {| pva_pvcAnnotations := pvc;
             pva_SecretNamespace := claim_Namespace (vo_PVC options) |} with
  | Err err => Err (CannotMarshalPVOptions err)
  | Ok pvAnnots =>
      Ok {| pv_Name := vo_PVName options;
            pv_Annotations := pvAnnots;
            pv_PersistentVolumeReclaimPolicy :=
              vo_PersistentVolumeReclaimPolicy options;
            pv_AccessModes := claim_AccessModes (vo_PVC options);
            pv_Capacity :=
              {[ ResourceStorage :=
                   map_get (claim_Requests (vo_PVC options)) ResourceStorage ]};
            pv_FlexVolume :=
              Some {| fv_Driver := driverName;
                      fv_FSType := fsType;
                      fv_SecretRef := Some {| sr_Name := pvc_SecretName pvc |};
                      fv_ReadOnly := false;
                      fv_Options := driverOptions |} |}
  end end.

(** [Provision] after the two [UnmarshalMap] calls. *)
Definition Provision_unmarshalled (options : VolumeOptions)
    (pvc : pvcAnnotations) (sc : scOptions) : M PersistentVolume :=
  match Provision_resolve pvc sc with
  | Err err => fail err
  | Ok sc =>
      let* pvc := Provision_policy pvc in
      let* _ := Provision_lifecycle (claim_Namespace (vo_PVC options)) pvc sc in
      match Provision_volume options pvc sc with
      | Err err => fail err
      | Ok pv => ret pv
      end
  end.

Definition Provision (options : VolumeOptions) : M PersistentVolume :=
  match UnmarshalMap_pvcAnnotations (claim_Annotations (vo_PVC options)) with
  | Err err => fail (CannotUnmarshalPVC err)
  | Ok pvc =>
      match UnmarshalMap_scOptions (vo_Parameters options) with
      | Err err => fail (CannotUnmarshalSC err)
      | Ok sc => Provision_unmarshalled options pvc sc
      end
  end.

(** ** [deleteBucket] and [Delete] *)

Definition deleteBucket (pvAnnots : pvAnnotations)
    (endpointValue regionValue iamEndpoint : string) : M unit :=
  let* creds := wrap_error CannotGetCredentials
             (getCredentials (pvc_SecretName (pva_pvcAnnotations pvAnnots))
                (pva_SecretNamespace pvAnnots)) in
  let creds := set_cred_IAMEndpoint iamEndpoint creds in
  let* sess := call (EvNewObjectStorageSession endpointValue regionValue creds)
            (Backend_NewObjectStorageSession p endpointValue regionValue creds) in
  let* err := call (EvDeleteBucket sess (pvc_Bucket (pva_pvcAnnotations pvAnnots)))
           (Session_DeleteBucket p sess (pvc_Bucket (pva_pvcAnnotations pvAnnots))) in
  match err with
  | Some err => fail err
  | None => ret tt
  end.

Definition Delete (pv : PersistentVolume) : M unit :=
  match pv_FlexVolume pv with
  | None => panic
  | Some flexVolume =>
      let endpointValue := map_get (fv_Options flexVolume) "object-store-endpoint" in
      let regionValue :=
        map_get (fv_Options flexVolume) "object-store-storage-class" in
      let iamEndpoint := map_get (fv_Options flexVolume) "iam-endpoint" in
      match UnmarshalMap_pvAnnotations (pv_Annotations pv) with
      | Err err => fail (CannotUnmarshalPV err)
      | Ok pvAnnots =>
          if pvc_AutoDeleteBucket (pva_pvcAnnotations pvAnnots) then
            wrap_error CannotDeleteBucket
              (deleteBucket pvAnnots endpointValue regionValue iamEndpoint)
          else ret tt
      end
  end.

End Provisioner.

Arguments Event : clear implicits.
Arguments IBMS3fsProvisioner : clear implicits.
Arguments State : clear implicits.
Arguments M : clear implicits.

(** ** The properties of the specification, as definitions *)

(** Section 4.1, in its words: the claim value wins if non-empty, else
    the class value. *)
Definition effective_OSEndpoint (pvc : pvcAnnotations) (sc : scOptions) : string :=
  if String.eqb (pvc_Endpoint pvc) "" then sc_OSEndpoint sc else pvc_Endpoint pvc.

Definition effective_OSStorageClass (pvc : pvcAnnotations) (sc : scOptions) : string :=
  if String.eqb (pvc_Region pvc) "" then sc_OSStorageClass sc else pvc_Region pvc.

Definition effective_IAMEndpoint (pvc : pvcAnnotations) (sc : scOptions) : string :=
  if String.eqb (pvc_IAMEndpoint pvc) "" then sc_IAMEndpoint sc else pvc_IAMEndpoint pvc.

(** Section 4.1: a non-empty claim string is parsed as an integer and
    overrides the value of the class. *)
Definition overrides_int (claim : string) (class resolved : Z) : Prop :=
  (claim = "" -> resolved = class) /\ (claim <> "" -> Atoi claim = Ok resolved).

(** The five integer parameters that a claim can override, in the order
    [Provision] treats them, and where each is on the claim and on the
    class. *)
Definition numeric_overrides : list NumField :=
  [F_s3fs_fuse_retry_count; F_chunk_size_mb; F_parallel_count;
   F_multireq_max; F_stat_cache_size].

Definition claim_value (f : NumField) (pvc : pvcAnnotations) : string :=
  match f with
  | F_s3fs_fuse_retry_count => pvc_S3FSFUSERetryCount pvc
  | F_chunk_size_mb => pvc_ChunkSizeMB pvc
  | F_parallel_count => pvc_ParallelCount pvc
  | F_multireq_max => pvc_MultiReqMax pvc
  | F_stat_cache_size => pvc_StatCacheSize pvc
  | F_stat_cache_expire_seconds => pvc_StatCacheExpireSeconds pvc
  end.

Definition class_value (f : NumField) (sc : scOptions) : Z :=
  match f with
  | F_s3fs_fuse_retry_count => sc_S3FSFUSERetryCount sc
  | F_chunk_size_mb => sc_ChunkSizeMB sc
  | F_parallel_count => sc_ParallelCount sc
  | F_multireq_max => sc_MultiReqMax sc
  | F_stat_cache_size => sc_StatCacheSize sc
  | F_stat_cache_expire_seconds => 0
  end.

(** A claim string that is set and is not an integer. *)
Definition malformed (s : string) : bool :=
  negb (String.eqb s "") && match Atoi s with Ok _ => false | Err _ => true end.

(** The first of the five integer overrides that is malformed. *)
Definition first_malformed (pvc : pvcAnnotations) : option NumField :=
  find (fun f => malformed (claim_value f pvc)) numeric_overrides.

(** Section 4.2: the four rules of the policy, in the order of the
    specification. *)
Inductive PolicyRule :=
| ObjectPathNeedsExistingBucket   (* 1: object-path set and auto-create *)
| AutoDeleteNeedsAutoCreate       (* 2: auto-delete without auto-create *)
| AutoDeleteNeedsGeneratedName    (* 3: auto-delete with an explicit bucket *)
| BucketNameRequired.             (* 4: no auto-delete and no bucket name *)

Definition violates (r : PolicyRule) (pvc : pvcAnnotations) : bool :=
  match r with
  | ObjectPathNeedsExistingBucket =>
      negb (String.eqb (pvc_ObjectPath pvc) "") && pvc_AutoCreateBucket pvc
  | AutoDeleteNeedsAutoCreate =>
      pvc_AutoDeleteBucket pvc && negb (pvc_AutoCreateBucket pvc)
  | AutoDeleteNeedsGeneratedName =>
      pvc_AutoDeleteBucket pvc && negb (String.eqb (pvc_Bucket pvc) "")
  | BucketNameRequired =>
      negb (pvc_AutoDeleteBucket pvc) && String.eqb (pvc_Bucket pvc) ""
  end.

Definition rule_index (r : PolicyRule) : nat :=
  match r with
  | ObjectPathNeedsExistingBucket => 1
  | AutoDeleteNeedsAutoCreate => 2
  | AutoDeleteNeedsGeneratedName => 3
  | BucketNameRequired => 4
  end.

(** The first rule, in that order, that a claim violates. *)
Definition first_violated (pvc : pvcAnnotations) : option PolicyRule :=
  if violates ObjectPathNeedsExistingBucket pvc
  then Some ObjectPathNeedsExistingBucket
  else if violates AutoDeleteNeedsAutoCreate pvc
  then Some AutoDeleteNeedsAutoCreate
  else if violates AutoDeleteNeedsGeneratedName pvc
  then Some AutoDeleteNeedsGeneratedName
  else if violates BucketNameRequired pvc
  then Some BucketNameRequired
  else None.

(** The error of the source for each rule. *)
Definition rule_error (r : PolicyRule) (pvc : pvcAnnotations) : Error :=
  match r with
  | ObjectPathNeedsExistingBucket => ObjectPathWithAutoCreate (pvc_ObjectPath pvc)
  | AutoDeleteNeedsAutoCreate => AutoDeleteWithoutAutoCreate
  | AutoDeleteNeedsGeneratedName => BucketWithAutoDelete (pvc_Bucket pvc)
  | BucketNameRequired => BucketNameNotSpecified
  end.

(** ** A small object store, to run the provisioner on *)

(** A session of the fake backend remembers how it was opened. *)
Record FakeSession := {
  fs_endpoint : string;
  fs_region : string;
  fs_creds : ObjectStorageCredentials
}.

(** The world of the fake: the buckets that exist and the number of
    tokens handed out. *)
Record FakeWorld := {
  fw_buckets : list string;
  fw_tokens : nat
}.

Definition fake_keys : SecretKeys :=
  {| SecretAccessKey := "access-key";
     SecretSecretKey := "secret-key";
     SecretAPIKey := "api-key";
     SecretServiceInstanceID := "service-instance-id" |}.

(** The fake collaborators over a fixed secret store, keyed by
    [namespace/name]: creating a bucket adds it, the access check looks
    it up, every object path exists, tokens are numbered. *)
Definition fake_provisioner (secrets : gmap string Secret)
  : IBMS3fsProvisioner FakeWorld FakeSession :=
  {| Client_Secrets_Get := fun ns name w =>
       (match secrets !! (ns ++ "/" ++ name) with
        | Some s => Ok s
        | None => Err (External "secret not found")
        end, w);
     Backend_NewObjectStorageSession := fun endpoint region creds w =>
       ({| fs_endpoint := endpoint; fs_region := region; fs_creds := creds |}, w);
     Session_CreateBucket := fun _ bucket w =>
       (("", None),
        {| fw_buckets := bucket :: fw_buckets w; fw_tokens := fw_tokens w |});
     Session_CheckBucketAccess := fun _ bucket w =>
       (if bool_decide (bucket ∈ fw_buckets w) then None
        else Some (External "no such bucket"), w);
     Session_CheckObjectPathExistence := fun _ _ _ w => ((true, None), w);
     Session_DeleteBucket := fun _ bucket w =>
       (None,
        {| fw_buckets := filter (fun b => b <> bucket) (fw_buckets w);
           fw_tokens := fw_tokens w |});
     UUIDGenerator_New := fun w =>
       (Ok (pretty (fw_tokens w)),
        {| fw_buckets := fw_buckets w; fw_tokens := S (fw_tokens w) |}) |}.

Definition fake_start (buckets : list string) : State FakeWorld FakeSession :=
  ({| fw_buckets := buckets; fw_tokens := 0 |}, []).

(** Secrets of the two shapes of section 4.3, and two with an API key
    and no service instance. *)
Definition hmac_secret : Secret :=
  {| secret_Data := {[ "access-key" := "AK"; "secret-key" := "SK" ]} |}.

Definition iam_secret : Secret :=
  {| secret_Data := {[ "api-key" := "KEY"; "service-instance-id" := "SID" ]} |}.

Definition api_key_only_secret : Secret :=
  {| secret_Data := {[ "api-key" := "KEY" ]} |}.

Definition empty_api_key_secret : Secret :=
  {| secret_Data := {[ "api-key" := "" ]} |}.

Definition fake_secrets : gmap string Secret :=
  {[ "ns1/s1" := hmac_secret; "ns1/iam" := iam_secret;
     "ns1/keyonly" := api_key_only_secret;
     "ns1/emptykey" := empty_api_key_secret ]}.

(** A storage class and a request built from the annotations of a claim. *)
Definition class_parameters : gmap string string :=
  {[ "ibm.io/chunk-size-mb" := "16"; "ibm.io/parallel-count" := "2";
     "ibm.io/multireq-max" := "20"; "ibm.io/stat-cache-size" := "100000";
     "ibm.io/s3fs-fuse-retry-count" := "5"; "ibm.io/debug-level" := "warn";
     "ibm.io/iam-endpoint" := "https://iam.example.com";
     "ibm.io/object-store-endpoint" := "https://s3.example.com";
     "ibm.io/object-store-storage-class" := "standard" ]}.

Definition request (annotations parameters : gmap string string) : VolumeOptions :=
  {| vo_PersistentVolumeReclaimPolicy := "Delete";
     vo_PVName := "pv1";
     vo_PVC := {| claim_Name := "claim1";
                  claim_Namespace := "ns1";
                  claim_Annotations := annotations;
                  claim_AccessModes := ["ReadWriteMany"];
                  claim_Requests := {[ "storage" := "8Gi" ]} |};
     vo_Parameters := parameters |}.

(** The storage class above, as [UnmarshalMap] reads it. *)
Definition class_options : scOptions :=
  {| sc_ChunkSizeMB := 16; sc_ParallelCount := 2; sc_MultiReqMax := 20;
     sc_StatCacheSize := 100000; sc_TLSCipherSuite := ""; sc_DebugLevel := "warn";
     sc_CurlDebug := false; sc_KernelCache := false; sc_S3FSFUSERetryCount := 5;
     sc_IAMEndpoint := "https://iam.example.com";
     sc_OSEndpoint := "https://s3.example.com";
     sc_OSStorageClass := "standard" |}.

(** A claim that sets the flags and names only. *)
Definition plain_claim (autoCreate autoDelete : bool)
    (bucket objectPath secretName validateBucket : string) : pvcAnnotations :=
  {| pvc_AutoCreateBucket := autoCreate; pvc_AutoDeleteBucket := autoDelete;
     pvc_Bucket := bucket; pvc_ObjectPath := objectPath;
     pvc_Endpoint := ""; pvc_Region := ""; pvc_SecretName := secretName;
     pvc_ChunkSizeMB := ""; pvc_ParallelCount := ""; pvc_MultiReqMax := "";
     pvc_StatCacheSize := ""; pvc_S3FSFUSERetryCount := "";
     pvc_StatCacheExpireSeconds := ""; pvc_IAMEndpoint := "";
     pvc_ValidateBucket := validateBucket |}.

(** Auto-create and auto-delete, no bucket name. *)
Definition generated_annotations : gmap string string :=
  {[ "ibm.io/auto-create-bucket" := "true"; "ibm.io/auto-delete-bucket" := "true";
     "ibm.io/secret-name" := "s1" ]}.

(** An existing bucket with an object path, validation switched off. *)
Definition unvalidated_path_annotations : gmap string string :=
  {[ "ibm.io/bucket" := "b1"; "ibm.io/secret-name" := "s1";
     "ibm.io/validate-bucket" := "no"; "ibm.io/object-path" := "data/" ]}.

(** An existing bucket, validation switched off. *)
Definition unvalidated_annotations : gmap string string :=
  {[ "ibm.io/bucket" := "b1"; "ibm.io/secret-name" := "s1";
     "ibm.io/validate-bucket" := "no" ]}.

(** Auto-create and auto-delete with validation switched off. *)
Definition unvalidated_create_annotations : gmap string string :=
  {[ "ibm.io/auto-create-bucket" := "true"; "ibm.io/auto-delete-bucket" := "true";
     "ibm.io/secret-name" := "s1"; "ibm.io/validate-bucket" := "no" ]}.

(** Auto-create together with an object path. *)
Definition path_with_create_annotations : gmap string string :=
  {[ "ibm.io/auto-create-bucket" := "true"; "ibm.io/object-path" := "data/";
     "ibm.io/bucket" := "b1"; "ibm.io/secret-name" := "s1" ]}.

(** Bucket [b1] through a secret holding an API key only: to be
    created, or only to be validated. *)
Definition key_only_create_annotations : gmap string string :=
  {[ "ibm.io/auto-create-bucket" := "true"; "ibm.io/bucket" := "b1";
     "ibm.io/secret-name" := "keyonly" ]}.

Definition key_only_validate_annotations : gmap string string :=
  {[ "ibm.io/bucket" := "b1"; "ibm.io/secret-name" := "keyonly" ]}.

(** Bucket [b1] to be created through a secret whose API key is empty. *)
Definition empty_key_create_annotations : gmap string string :=
  {[ "ibm.io/auto-create-bucket" := "true"; "ibm.io/bucket" := "b1";
     "ibm.io/secret-name" := "emptykey" ]}.





(** A class whose IAM endpoint lacks a scheme. *)
Definition class_parameters_bare_iam : gmap string string :=
  <[ "ibm.io/iam-endpoint" := "iam.example.com" ]> class_parameters.

(** Persisted volumes: one whose bucket is kept, and two of a generated
    bucket that differ in one mount option only. *)
Definition persisted_volume (annotations options : gmap string string)
  : PersistentVolume :=
  {| pv_Name := "pv1";
     pv_Annotations := annotations;
     pv_PersistentVolumeReclaimPolicy := "Delete";
     pv_AccessModes := ["ReadWriteMany"];
     pv_Capacity := {[ "storage" := "8Gi" ]};
     pv_FlexVolume :=
       Some {| fv_Driver := driverName; fv_FSType := fsType;
               fv_SecretRef := Some {| sr_Name := "s1" |};
               fv_ReadOnly := false; fv_Options := options |} |}.

Definition kept_descriptor : gmap string string :=
  {[ "ibm.io/auto-create-bucket" := "false"; "ibm.io/auto-delete-bucket" := "false";
     "ibm.io/bucket" := "b1"; "ibm.io/secret-name" := "s1";
     "ibm.io/secret-namespace" := "ns1" ]}.

Definition generated_descriptor : gmap string string :=
  {[ "ibm.io/auto-create-bucket" := "true"; "ibm.io/auto-delete-bucket" := "true";
     "ibm.io/bucket" := "tmp-s3fs-0"; "ibm.io/secret-name" := "s1";
     "ibm.io/secret-namespace" := "ns1" ]}.

Definition mount_options (endpoint : string) : gmap string string :=
  {[ "bucket" := "tmp-s3fs-0"; "chunk-size-mb" := "16";
     "object-store-endpoint" := endpoint;
     "object-store-storage-class" := "standard";
     "iam-endpoint" := "https://iam.example.com" ]}.

Definition kept_volume : PersistentVolume :=
  persisted_volume kept_descriptor (mount_options "https://s3.example.com").

Definition generated_volume : PersistentVolume :=
  persisted_volume generated_descriptor (mount_options "https://s3.example.com").

Definition generated_volume_elsewhere : PersistentVolume :=
  persisted_volume generated_descriptor (mount_options "https://s3.elsewhere.example").

(** The same volume with further mount options changed. *)
Definition generated_volume_retuned : PersistentVolume :=
  persisted_volume generated_descriptor
    (<[ "chunk-size-mb" := "64" ]> (<[ "bucket" := "other" ]>
       (mount_options "https://s3.example.com"))).

(** The descriptor of the generated volumes, parsed. *)
Definition generated_pvAnnotations : pvAnnotations :=
  {| pva_pvcAnnotations := plain_claim true true "tmp-s3fs-0" "" "s1" "";
     pva_SecretNamespace := "ns1" |}.

Definition kept_pvAnnotations : pvAnnotations :=
  {| pva_pvcAnnotations := plain_claim false false "b1" "" "s1" "";
     pva_SecretNamespace := "ns1" |}.

(** The session and credentials the fake hands out for secret [s1]. *)
Definition hmac_credentials : ObjectStorageCredentials :=
  {| cred_AccessKey := "AK"; cred_SecretKey := "SK"; cred_APIKey := "";
     cred_ServiceInstanceID := ""; cred_IAMEndpoint := "https://iam.example.com" |}.

Definition key_only_credentials : ObjectStorageCredentials :=
  {| cred_AccessKey := ""; cred_SecretKey := ""; cred_APIKey := "KEY";
     cred_ServiceInstanceID := ""; cred_IAMEndpoint := "https://iam.example.com" |}.

Definition empty_key_credentials : ObjectStorageCredentials :=
  {| cred_AccessKey := ""; cred_SecretKey := ""; cred_APIKey := "";
     cred_ServiceInstanceID := ""; cred_IAMEndpoint := "https://iam.example.com" |}.

Definition fake_session (endpoint : string) (creds : ObjectStorageCredentials)
  : FakeSession :=
  {| fs_endpoint := endpoint; fs_region := "standard"; fs_creds := creds |}.

(** The fake over the secrets above, the request of the first fixture
    and the volume [Provision] makes of it. *)
Definition fake : IBMS3fsProvisioner FakeWorld FakeSession :=
  fake_provisioner fake_secrets.

Definition generated_mount_options : gmap string string :=
  {[ "chunk-size-mb" := "16"; "parallel-count" := "2"; "multireq-max" := "20";
     "stat-cache-size" := "100000"; "debug-level" := "warn";
     "s3fs-fuse-retry-count" := "5";
     "iam-endpoint" := "https://iam.example.com";
     "object-store-endpoint" := "https://s3.example.com";
     "object-store-storage-class" := "standard";
     "bucket" := "tmp-s3fs-0" ]}.

Definition provisioned_volume : PersistentVolume :=
  persisted_volume generated_descriptor generated_mount_options.

Definition provisioned_state : State FakeWorld FakeSession :=
  ({| fw_buckets := ["tmp-s3fs-0"]; fw_tokens := 1 |},
   [EvUUIDNew;
    EvSecretsGet "ns1" "s1";
    EvNewObjectStorageSession "https://s3.example.com" "standard" hmac_credentials;
    EvCreateBucket (fake_session "https://s3.example.com" hmac_credentials)
      "tmp-s3fs-0";
    EvCheckBucketAccess (fake_session "https://s3.example.com" hmac_credentials)
      "tmp-s3fs-0"]).

(** ** The order of the calls of [Provision] *)

(** The calls of lines 262-299 when validation is on, in source order:
    the secret, the session, the bucket creation when auto-create is
    set, the access check, and the object-path check when a path is
    given. *)
Definition lifecycle_calls {Session : Type} (secretNamespace : string)
    (pvc : pvcAnnotations) (sc : scOptions)
    (creds : ObjectStorageCredentials) (sess : Session) : list (Event Session) :=
  ([EvSecretsGet secretNamespace (pvc_SecretName pvc);
    EvNewObjectStorageSession (sc_OSEndpoint sc) (sc_OSStorageClass sc) creds] ++
   (if pvc_AutoCreateBucket pvc
    then [EvCreateBucket sess (pvc_Bucket pvc)] else []) ++
   [EvCheckBucketAccess sess (pvc_Bucket pvc)] ++
   (if negb (String.eqb (pvc_ObjectPath pvc) "")
    then [EvCheckObjectPathExistence sess (pvc_Bucket pvc) (pvc_ObjectPath pvc)]
    else []))%list.

(** How many of these calls have been made when the lifecycle ends in
    an outcome: each error belongs to one call, and a success comes
    after the last one. *)
Definition calls_before {A : Type} (pvc : pvcAnnotations) (out : Outcome A)
  : option nat :=
  let create := if pvc_AutoCreateBucket pvc then 1%nat else 0%nat in
  let path :=
    if negb (String.eqb (pvc_ObjectPath pvc) "") then 1%nat else 0%nat in
  match out with
  | Return _ => Some (3 + create + path)%nat
  | Fail (CannotGetCredentials _) => Some 1%nat
  | Fail APIKeyWithoutServiceInstanceID => Some 2%nat
  | Fail (CannotCreateBucket _ _) => Some 3%nat
  | Fail (CannotAccessBucket _ _) => Some (3 + create)%nat
  | Fail (CannotAccessObjectPath _ _ _) => Some (3 + create + path)%nat
  | Fail (ObjectPathNotFound _ _) => Some (3 + create + path)%nat
  | _ => None
  end.

(** The bucket a backend call of [Provision] may name for a claim: the
    bucket of the claim, or a generated name when the claim has
    auto-delete set. *)
Definition bucket_of_claim (pvc : pvcAnnotations) (bucket : string) : Prop :=
  (pvc_AutoDeleteBucket pvc = false /\ bucket = pvc_Bucket pvc /\ bucket <> "")
  \/ (pvc_AutoDeleteBucket pvc = true /\ exists id, bucket = "tmp-s3fs-" ++ id).

(** What justifies a call of [Provision], by the claim and the class it
    was given. *)
Definition call_justified {Session : Type} (secretNamespace : string)
    (pvc : pvcAnnotations) (sc : scOptions) (ev : Event Session) : Prop :=
  match ev with
  | EvUUIDNew => pvc_AutoDeleteBucket pvc = true /\ pvc_Bucket pvc = ""
  | EvSecretsGet ns name =>
      ns = secretNamespace /\ name = pvc_SecretName pvc /\ valBucket pvc = true
  | EvNewObjectStorageSession endpoint region creds =>
      endpoint = effective_OSEndpoint pvc sc /\
      region = effective_OSStorageClass pvc sc /\
      cred_IAMEndpoint creds = effective_IAMEndpoint pvc sc
  | EvCreateBucket _ bucket =>
      pvc_AutoCreateBucket pvc = true /\ bucket_of_claim pvc bucket
  | EvCheckBucketAccess _ bucket => bucket_of_claim pvc bucket
  | EvCheckObjectPathExistence _ bucket objectPath =>
      pvc_AutoCreateBucket pvc = false /\ bucket = pvc_Bucket pvc /\
      objectPath = pvc_ObjectPath pvc /\ objectPath <> ""
  | EvDeleteBucket _ _ => False
  end.

(** A secret store with a secret that holds an access key only, and a
    claim whose [stat-cache-expire-seconds] is negative. *)
Definition half_secrets : gmap string Secret :=
  {[ "ns1/half" := {| secret_Data := {[ "access-key" := "AK" ]} |} ]}.

Definition negative_expire_annotations : gmap string string :=
  {[ "ibm.io/bucket" := "b1"; "ibm.io/secret-name" := "s1";
     "ibm.io/stat-cache-expire-seconds" := "-5" ]}.

Definition negative_expire_claim : pvcAnnotations :=
  {| pvc_AutoCreateBucket := false; pvc_AutoDeleteBucket := false;
     pvc_Bucket := "b1"; pvc_ObjectPath := "";
     pvc_Endpoint := ""; pvc_Region := ""; pvc_SecretName := "s1";
     pvc_ChunkSizeMB := ""; pvc_ParallelCount := ""; pvc_MultiReqMax := "";
     pvc_StatCacheSize := ""; pvc_S3FSFUSERetryCount := "";
     pvc_StatCacheExpireSeconds := "-5"; pvc_IAMEndpoint := "";
     pvc_ValidateBucket := "" |}.

(** The state after the teardown of the provisioned volume. *)
Definition torn_down_state : State FakeWorld FakeSession :=
  ({| fw_buckets := []; fw_tokens := 1 |},
   (provisioned_state.2 ++
    [EvSecretsGet "ns1" "s1";
     EvNewObjectStorageSession "https://s3.example.com" "standard" hmac_credentials;
     EvDeleteBucket (fake_session "https://s3.example.com" hmac_credentials)
       "tmp-s3fs-0"])%list).

(** A claim that violates a policy rule (auto-delete without
    auto-create, and with a bucket name) and whose chunk size is not an
    integer. *)
Definition violating_malformed_annotations : gmap string string :=
  {[ "ibm.io/auto-delete-bucket" := "true"; "ibm.io/bucket" := "b1";
     "ibm.io/chunk-size-mb" := "abc" ]}.

Definition violating_malformed_claim : pvcAnnotations :=
  {| pvc_AutoCreateBucket := false; pvc_AutoDeleteBucket := true;
     pvc_Bucket := "b1"; pvc_ObjectPath := "";
     pvc_Endpoint := ""; pvc_Region := ""; pvc_SecretName := "";
     pvc_ChunkSizeMB := "abc"; pvc_ParallelCount := ""; pvc_MultiReqMax := "";
     pvc_StatCacheSize := ""; pvc_S3FSFUSERetryCount := "";
     pvc_StatCacheExpireSeconds := ""; pvc_IAMEndpoint := "";
     pvc_ValidateBucket := "" |}.

(** ** Tests of the embedding *)

Example Atoi_decimal : Atoi "42" = Ok 42.
Proof. reflexivity. Qed.

Example Atoi_signed : Atoi "-7" = Ok (-7) /\ Atoi "+7" = Ok 7.
Proof. split; reflexivity. Qed.

Example Atoi_rejects :
  Atoi "" = Err (AtoiError "" ErrSyntax) /\
  Atoi "-" = Err (AtoiError "-" ErrSyntax) /\
  Atoi "12a" = Err (AtoiError "12a" ErrSyntax) /\
  Atoi "1.5" = Err (AtoiError "1.5" ErrSyntax).
Proof. repeat split; reflexivity. Qed.

Example Atoi_range :
  Atoi "9223372036854775807" = Ok max_int /\
  Atoi "-9223372036854775808" = Ok min_int /\
  Atoi "9223372036854775808" = Err (AtoiError "9223372036854775808" ErrRange).
Proof. repeat split; vm_compute; reflexivity. Qed.

Example Atoi_first_failure :
  Atoi "99999999999999999999x" = Err (AtoiError "99999999999999999999x" ErrRange) /\
  Atoi "9223372036854775808x" = Err (AtoiError "9223372036854775808x" ErrSyntax) /\
  Atoi "12x99999999999999999999" = Err (AtoiError "12x99999999999999999999" ErrSyntax) /\
  Atoi "-9223372036854775809" = Err (AtoiError "-9223372036854775809" ErrRange).
Proof. repeat split; vm_compute; reflexivity. Qed.

Example Itoa_decimal : Itoa 5 = "5" /\ Itoa (-12) = "-12" /\ Itoa 0 = "0".
Proof. repeat split; vm_compute; reflexivity. Qed.

Example HasPrefix_scheme :
  has_scheme "https://s3.example.com" = true /\
  has_scheme "http://s3.example.com" = true /\
  has_scheme "s3.example.com" = false /\
  has_scheme "ftp://s3.example.com" = false /\
  has_scheme "" = false.
Proof. repeat split; reflexivity. Qed.

(** ** The map codec *)

Lemma lookup_encode_string_eq k v (m : gmap string string) :
  encode_string k v m !! k = Some v.
Proof. apply lookup_insert_eq. Qed.

Lemma lookup_encode_string_ne k k' v (m : gmap string string) :
  k <> k' -> encode_string k v m !! k' = m !! k'.
Proof. intros. by apply lookup_insert_ne. Qed.

Lemma lookup_encode_string_omitempty_eq k v (m : gmap string string) :
  m !! k = None ->
  default "" (encode_string_omitempty k v m !! k) = v.
Proof.
  intros Hfree. unfold encode_string_omitempty.
  destruct (String.eqb_spec v "") as [-> | _].
  - by rewrite Hfree.
  - by rewrite lookup_insert_eq.
Qed.

Lemma lookup_encode_string_omitempty_ne k k' v (m : gmap string string) :
  k <> k' -> encode_string_omitempty k v m !! k' = m !! k'.
Proof.
  intros. unfold encode_string_omitempty.
  destruct (String.eqb v ""); [done | by apply lookup_insert_ne].
Qed.

Lemma lookup_encode_bool_eq k b (m : gmap string string) :
  encode_bool k b m !! k = Some (bool_literal b).
Proof. apply lookup_insert_eq. Qed.

Lemma lookup_encode_bool_ne k k' b (m : gmap string string) :
  k <> k' -> encode_bool k b m !! k' = m !! k'.
Proof. intros. by apply lookup_insert_ne. Qed.

Lemma lookup_encode_bool_omitempty_ne k k' b (m : gmap string string) :
  k <> k' -> encode_bool_omitempty k b m !! k' = m !! k'.
Proof.
  intros. unfold encode_bool_omitempty.
  destruct b; [by apply lookup_insert_ne | done].
Qed.

Lemma lookup_encode_int_ne k k' z (m : gmap string string) :
  k <> k' -> encode_int k z m !! k' = m !! k'.
Proof. intros. by apply lookup_insert_ne. Qed.

(** Two different field tags. *)
Ltac tag_ne := apply String.eqb_neq; reflexivity.

(** Walks a lookup past the fields stored under other tags. *)
Ltac skip_fields :=
  repeat first
    [ rewrite lookup_encode_string_ne by tag_ne
    | rewrite lookup_encode_string_omitempty_ne by tag_ne
    | rewrite lookup_encode_bool_ne by tag_ne
    | rewrite lookup_encode_bool_omitempty_ne by tag_ne
    | rewrite lookup_encode_int_ne by tag_ne ].

(** Reads back the field stored under the tag looked up. *)
Ltac read_field :=
  unfold decode_string, map_get; skip_fields;
  first
    [ by rewrite lookup_encode_string_eq
    | apply lookup_encode_string_omitempty_eq; skip_fields; apply lookup_empty ].

Lemma decode_bool_literal (m : gmap string string) k b :
  m !! k = Some (bool_literal b) -> decode_bool m k = Ok b.
Proof. intros H. unfold decode_bool. rewrite H. by destruct b. Qed.

(** What [parse] makes of what [build] wrote: every field of the
    descriptor, the namespace of the secret included. *)
Lemma UnmarshalMap_MarshalToMap_pvAnnotations a m :
  MarshalToMap_pvAnnotations a = Ok m ->
  UnmarshalMap_pvAnnotations m = Ok a.
Proof.
  intros [= <-].
  unfold UnmarshalMap_pvAnnotations, UnmarshalMap_pvcAnnotations.
  rewrite (decode_bool_literal _ _ (pvc_AutoCreateBucket (pva_pvcAnnotations a)))
    by (skip_fields; apply lookup_encode_bool_eq).
  rewrite (decode_bool_literal _ _ (pvc_AutoDeleteBucket (pva_pvcAnnotations a)))
    by (skip_fields; apply lookup_encode_bool_eq).
  destruct a as [c ns]; destruct c.
  cbn [pva_pvcAnnotations pva_SecretNamespace pvc_AutoCreateBucket
       pvc_AutoDeleteBucket pvc_Bucket pvc_ObjectPath pvc_Endpoint pvc_Region
       pvc_SecretName pvc_ChunkSizeMB pvc_ParallelCount pvc_MultiReqMax
       pvc_StatCacheSize pvc_S3FSFUSERetryCount pvc_StatCacheExpireSeconds
       pvc_IAMEndpoint pvc_ValidateBucket].
  do 2 f_equal; [f_equal |]; read_field.
Qed.

(** The three options that [Delete] reads, as [build] wrote them. *)
Lemma MarshalToMap_Options_endpoints d m :
  MarshalToMap_Options d = Ok m ->
  map_get m "object-store-endpoint" = do_OSEndpoint d /\
  map_get m "object-store-storage-class" = do_OSStorageClass d /\
  map_get m "iam-endpoint" = do_IAMEndpoint d.
Proof.
  intros [= <-]. repeat split; read_field.
Qed.

(** ** Configuration resolution *)

(** Projections and field assignments of the two structs, for [cbn]. *)
Ltac struct_simpl :=
  cbn [sc_ChunkSizeMB sc_ParallelCount sc_MultiReqMax sc_StatCacheSize
       sc_TLSCipherSuite sc_DebugLevel sc_CurlDebug sc_KernelCache
       sc_S3FSFUSERetryCount sc_IAMEndpoint sc_OSEndpoint sc_OSStorageClass
       set_sc_OSEndpoint set_sc_OSStorageClass set_sc_IAMEndpoint
       set_sc_S3FSFUSERetryCount set_sc_ChunkSizeMB set_sc_ParallelCount
       set_sc_MultiReqMax set_sc_StatCacheSize
       pvc_AutoCreateBucket pvc_AutoDeleteBucket pvc_Bucket pvc_ObjectPath
       pvc_Endpoint pvc_Region pvc_SecretName pvc_ChunkSizeMB
       pvc_ParallelCount pvc_MultiReqMax pvc_StatCacheSize
       pvc_S3FSFUSERetryCount pvc_StatCacheExpireSeconds pvc_IAMEndpoint
       pvc_ValidateBucket set_pvc_Bucket claim_value class_value] in *.

Lemma override_int_Ok f claim cur v :
  override_int f claim cur = Ok v -> overrides_int claim cur v.
Proof.
  unfold override_int, overrides_int.
  destruct (String.eqb_spec claim "") as [-> | Hne].
  - intros [= <-]. split; [done | congruence].
  - destruct (Atoi claim); intros [= <-]. split; [congruence | done].
Qed.

Lemma override_int_malformed f claim cur :
  malformed claim = true ->
  exists cause, Atoi claim = Err cause /\
    override_int f claim cur = Err (CannotConvert f cause).
Proof.
  unfold malformed, override_int.
  destruct (String.eqb claim ""); [done |].
  destruct (Atoi claim) as [v | cause]; [done |]. eauto.
Qed.

Lemma override_int_wellformed f claim cur :
  malformed claim = false -> exists v, override_int f claim cur = Ok v.
Proof.
  unfold malformed, override_int.
  destruct (String.eqb claim ""); [eauto |].
  destruct (Atoi claim) as [v | cause]; [eauto | done].
Qed.

(** What a successful resolution carries, field by field. *)
Lemma Provision_resolve_Ok pvc sc sc' :
  Provision_resolve pvc sc = Ok sc' ->
  sc_OSEndpoint sc' = effective_OSEndpoint pvc sc /\
  sc_OSStorageClass sc' = effective_OSStorageClass pvc sc /\
  sc_IAMEndpoint sc' = effective_IAMEndpoint pvc sc /\
  has_scheme (sc_OSEndpoint sc') = true /\
  has_scheme (sc_IAMEndpoint sc') = true /\
  (forall f, In f numeric_overrides ->
     overrides_int (claim_value f pvc) (class_value f sc) (class_value f sc')) /\
  sc_TLSCipherSuite sc' = sc_TLSCipherSuite sc /\
  sc_DebugLevel sc' = sc_DebugLevel sc /\
  sc_CurlDebug sc' = sc_CurlDebug sc /\
  sc_KernelCache sc' = sc_KernelCache sc.
Proof.
  unfold Provision_resolve, effective_OSEndpoint, effective_OSStorageClass,
    effective_IAMEndpoint.
  cbv zeta. intros H.
  destruct (has_scheme (sc_OSEndpoint _)) eqn:HOS in H; [| discriminate H].
  destruct (has_scheme (sc_IAMEndpoint _)) eqn:HIAM in H; [| discriminate H].
  cbn [negb] in H.
  destruct (override_int F_s3fs_fuse_retry_count _ _) as [v1 |] eqn:E1 in H;
    [| discriminate H].
  destruct (override_int F_chunk_size_mb _ _) as [v2 |] eqn:E2 in H;
    [| discriminate H].
  destruct (override_int F_parallel_count _ _) as [v3 |] eqn:E3 in H;
    [| discriminate H].
  destruct (override_int F_multireq_max _ _) as [v4 |] eqn:E4 in H;
    [| discriminate H].
  destruct (override_int F_stat_cache_size _ _) as [v5 |] eqn:E5 in H;
    [| discriminate H].
  apply override_int_Ok in E1, E2, E3, E4, E5.
  assert (Hsc : sc' =
    set_sc_StatCacheSize v5 (set_sc_MultiReqMax v4 (set_sc_ParallelCount v3
      (set_sc_ChunkSizeMB v2 (set_sc_S3FSFUSERetryCount v1
        (if String.eqb (pvc_IAMEndpoint pvc) ""
         then (if String.eqb (pvc_Region pvc) ""
               then (if String.eqb (pvc_Endpoint pvc) "" then sc
                     else set_sc_OSEndpoint (pvc_Endpoint pvc) sc)
               else set_sc_OSStorageClass (pvc_Region pvc)
                      (if String.eqb (pvc_Endpoint pvc) "" then sc
                       else set_sc_OSEndpoint (pvc_Endpoint pvc) sc))
         else set_sc_IAMEndpoint (pvc_IAMEndpoint pvc)
                (if String.eqb (pvc_Region pvc) ""
                 then (if String.eqb (pvc_Endpoint pvc) "" then sc
                       else set_sc_OSEndpoint (pvc_Endpoint pvc) sc)
                 else set_sc_OSStorageClass (pvc_Region pvc)
                        (if String.eqb (pvc_Endpoint pvc) "" then sc
                         else set_sc_OSEndpoint (pvc_Endpoint pvc) sc)))))))).
  { destruct (String.eqb (pvc_StatCacheExpireSeconds pvc) "").
    - by injection H as <-.
    - destruct (Atoi (pvc_StatCacheExpireSeconds pvc)); [| discriminate H].
      destruct (_ <? 0); [discriminate H | by injection H as <-]. }
  clear H. subst sc'.
  destruct (String.eqb (pvc_IAMEndpoint pvc) ""),
    (String.eqb (pvc_Region pvc) ""), (String.eqb (pvc_Endpoint pvc) "");
    struct_simpl;
    (repeat apply conj; try done;
     intros f Hf; cbn in Hf;
     destruct Hf as [<- | [<- | [<- | [<- | [<- | []]]]]]; struct_simpl; done).
Qed.

Lemma Provision_resolve_bad_OSEndpoint pvc sc :
  has_scheme (effective_OSEndpoint pvc sc) = false ->
  Provision_resolve pvc sc =
    Err (BadObjectStoreEndpoint (effective_OSEndpoint pvc sc)).
Proof.
  unfold Provision_resolve, effective_OSEndpoint. cbv zeta.
  destruct (String.eqb (pvc_Endpoint pvc) ""), (String.eqb (pvc_Region pvc) "");
    struct_simpl; intros ->; reflexivity.
Qed.

Lemma Provision_resolve_bad_IAMEndpoint pvc sc :
  has_scheme (effective_OSEndpoint pvc sc) = true ->
  has_scheme (effective_IAMEndpoint pvc sc) = false ->
  Provision_resolve pvc sc = Err (BadIAMEndpoint (effective_IAMEndpoint pvc sc)).
Proof.
  unfold Provision_resolve, effective_OSEndpoint, effective_IAMEndpoint. cbv zeta.
  destruct (String.eqb (pvc_Endpoint pvc) ""), (String.eqb (pvc_Region pvc) ""),
    (String.eqb (pvc_IAMEndpoint pvc) "");
    struct_simpl; intros -> ->; reflexivity.
Qed.

(** One of the five override blocks, on a claim string known to be
    malformed or not. *)
Ltac step_override :=
  match goal with
  | M : malformed ?c = false |- context [override_int ?f ?c ?cur] =>
      let v := fresh "v" in
      destruct (override_int_wellformed f c cur M) as [v ->]
  | M : malformed ?c = true |- context [override_int ?f ?c ?cur] =>
      let cause := fresh "cause" in
      let Hc := fresh "Hc" in
      destruct (override_int_malformed f c cur M) as [cause [Hc ->]];
      exists cause; split; [exact Hc | reflexivity]
  end.

Lemma Provision_resolve_malformed pvc sc g :
  has_scheme (effective_OSEndpoint pvc sc) = true ->
  has_scheme (effective_IAMEndpoint pvc sc) = true ->
  first_malformed pvc = Some g ->
  exists cause, Atoi (claim_value g pvc) = Err cause /\
    Provision_resolve pvc sc = Err (CannotConvert g cause).
Proof.
  unfold Provision_resolve, effective_OSEndpoint, effective_IAMEndpoint,
    first_malformed, numeric_overrides.
  cbv zeta. cbn [find]. struct_simpl.
  intros HOS HIAM Hg.
  destruct (malformed (pvc_S3FSFUSERetryCount pvc)) eqn:M1;
    [injection Hg as <- |];
  (destruct (malformed (pvc_ChunkSizeMB pvc)) eqn:M2;
    [try injection Hg as <- |]);
  (destruct (malformed (pvc_ParallelCount pvc)) eqn:M3;
    [try injection Hg as <- |]);
  (destruct (malformed (pvc_MultiReqMax pvc)) eqn:M4;
    [try injection Hg as <- |]);
  (destruct (malformed (pvc_StatCacheSize pvc)) eqn:M5;
    [try injection Hg as <- | try discriminate Hg]);
  destruct (String.eqb (pvc_Endpoint pvc) ""), (String.eqb (pvc_Region pvc) ""),
    (String.eqb (pvc_IAMEndpoint pvc) "");
  struct_simpl; rewrite HOS, HIAM; cbn [negb];
  repeat step_override.
Qed.


Lemma override_int_Err f claim cur err :
  override_int f claim cur = Err err -> exists cause, err = CannotConvert f cause.
Proof.
  unfold override_int. destruct (String.eqb claim ""); [done |].
  destruct (Atoi claim) as [v | cause]; [done |]. intros [= <-]. eauto.
Qed.

(** Past the two scheme checks, resolution fails on integers only. *)
Lemma Provision_resolve_past_endpoints pvc sc err :
  has_scheme (effective_OSEndpoint pvc sc) = true ->
  has_scheme (effective_IAMEndpoint pvc sc) = true ->
  Provision_resolve pvc sc = Err err ->
  (exists f cause, err = CannotConvert f cause) \/ err = NegativeStatCacheExpire.
Proof.
  unfold Provision_resolve, effective_OSEndpoint, effective_IAMEndpoint.
  cbv zeta. intros HOS HIAM.
  destruct (String.eqb (pvc_Endpoint pvc) ""), (String.eqb (pvc_Region pvc) ""),
    (String.eqb (pvc_IAMEndpoint pvc) "");
    struct_simpl; rewrite HOS, HIAM; cbn [negb];
    repeat match goal with
    | |- context [override_int ?f ?c ?cur] =>
        let E := fresh "E" in
        destruct (override_int f c cur) eqn:E;
        [| apply override_int_Err in E as [cause ->]; intros [= <-]; eauto]
    end;
    (destruct (String.eqb (pvc_StatCacheExpireSeconds pvc) ""); [done |]);
    (destruct (Atoi (pvc_StatCacheExpireSeconds pvc)); [| intros [= <-]; eauto]);
    (destruct (_ <? 0); [intros [= <-]; eauto | done]).
Qed.

(** ** The policy checks, the lifecycle and the teardown *)

Section Properties.

Context {World Session : Type}.
Context (keys : SecretKeys) (p : IBMS3fsProvisioner World Session).

(** Unfolds the plumbing of [M]. *)
Ltac run := unfold bind, ret, fail, panic, call, wrap_error; cbn [fst snd].

(** Wrapping an error changes neither the world nor the trace. *)
Lemma wrap_error_state {A} (wrap : Error -> Error) (m : M World Session A)
    (st : State World Session) :
  (wrap_error wrap m st).2 = (m st).2.
Proof. unfold wrap_error. by destruct (m st) as [[a | err |] st']. Qed.

Lemma Provision_after_unmarshal options pvc sc :
  UnmarshalMap_pvcAnnotations (claim_Annotations (vo_PVC options)) = Ok pvc ->
  UnmarshalMap_scOptions (vo_Parameters options) = Ok sc ->
  Provision keys p options = Provision_unmarshalled keys p options pvc sc.
Proof. intros Hpvc Hsc. unfold Provision. by rewrite Hpvc, Hsc. Qed.

Lemma Provision_resolve_fails options pvc sc err (st : State World Session) :
  Provision_resolve pvc sc = Err err ->
  Provision_unmarshalled keys p options pvc sc st = (Fail err, st).
Proof. intros H. unfold Provision_unmarshalled. by rewrite H. Qed.

(** A claim that violates a rule is refused with the error of the first
    rule it violates, and nothing is called. *)
Lemma Provision_policy_violation pvc r (st : State World Session) :
  first_violated pvc = Some r ->
  Provision_policy p pvc st = (Fail (rule_error r pvc), st).
Proof.
  unfold first_violated, violates, Provision_policy, rule_error. run.
  destruct (pvc_AutoCreateBucket pvc), (pvc_AutoDeleteBucket pvc),
    (String.eqb (pvc_ObjectPath pvc) ""), (String.eqb (pvc_Bucket pvc) "");
    cbn [negb andb]; intros [= <-]; reflexivity.
Qed.

(** A claim that violates no rule passes; a name is generated when, and
    only when, auto-delete is set. *)
Lemma Provision_policy_valid pvc (st : State World Session) :
  first_violated pvc = None ->
  Provision_policy p pvc st =
    if pvc_AutoDeleteBucket pvc then
      match UUIDGenerator_New p st.1 with
      | (Ok id, w') =>
          (Return (set_pvc_Bucket (autoBucketNamePrefix ++ id) pvc),
           (w', (st.2 ++ [EvUUIDNew])%list))
      | (Err err, w') =>
          (Fail (CannotCreateUUID err), (w', (st.2 ++ [EvUUIDNew])%list))
      end
    else (Return pvc, st).
Proof.
  unfold first_violated, violates, Provision_policy. run.
  destruct (pvc_AutoCreateBucket pvc), (pvc_AutoDeleteBucket pvc),
    (String.eqb (pvc_ObjectPath pvc) ""), (String.eqb (pvc_Bucket pvc) "");
    cbn [negb andb]; intros [=]; try reflexivity;
    destruct (UUIDGenerator_New p st.1) as [[id | err] w']; reflexivity.
Qed.

(** On claims that violate no rule, auto-delete is the same condition as
    auto-create without a bucket name. *)
Lemma valid_auto_delete_iff pvc :
  first_violated pvc = None ->
  pvc_AutoDeleteBucket pvc = true <->
  pvc_AutoCreateBucket pvc = true /\ pvc_Bucket pvc = "".
Proof.
  unfold first_violated, violates.
  destruct (pvc_AutoCreateBucket pvc), (pvc_AutoDeleteBucket pvc),
    (String.eqb (pvc_ObjectPath pvc) ""),
    (String.eqb_spec (pvc_Bucket pvc) "");
    cbn [negb andb]; intros [=]; intuition congruence.
Qed.

(** The claim that leaves the policy checks differs from the one that
    entered in [Bucket] at most. *)
Lemma Provision_policy_Return pvc pvc' (st st' : State World Session) :
  Provision_policy p pvc st = (Return pvc', st') ->
  first_violated pvc = None /\
  (pvc' = pvc \/ exists id, pvc' = set_pvc_Bucket (autoBucketNamePrefix ++ id) pvc).
Proof.
  intros H. destruct (first_violated pvc) as [r |] eqn:Hr.
  - rewrite (Provision_policy_violation _ _ _ Hr) in H. discriminate H.
  - split; [done |]. rewrite (Provision_policy_valid _ _ Hr) in H.
    destruct (pvc_AutoDeleteBucket pvc).
    + destruct (UUIDGenerator_New p st.1) as [[id | err] w']; [| discriminate H].
      injection H as <- _. eauto.
    + injection H as <- _. by left.
Qed.

(** Case analysis on the answer of the next call of a session method
    in hypothesis [H]. *)
Ltac answer_calls H :=
  match type of H with
  | context [Session_CreateBucket p ?s ?b ?w] =>
      destruct (Session_CreateBucket p s b w) as [[? [?|]] ?]
  | context [Session_CheckBucketAccess p ?s ?b ?w] =>
      destruct (Session_CheckBucketAccess p s b w) as [[?|] ?]
  | context [Session_CheckObjectPathExistence p ?s ?b ?o ?w] =>
      destruct (Session_CheckObjectPathExistence p s b o w) as [[[|] [?|]] ?]
  | context [Session_DeleteBucket p ?s ?b ?w] =>
      destruct (Session_DeleteBucket p s b w) as [[?|] ?]
  end; cbn [fst snd negb andb] in H.

(** [Provision] as the sequence of its stages. *)
Lemma Provision_stages options pvc sc sc' pvc' (st st1 : State World Session) :
  Provision_resolve pvc sc = Ok sc' ->
  Provision_policy p pvc st = (Return pvc', st1) ->
  Provision_unmarshalled keys p options pvc sc st =
    match Provision_lifecycle keys p (claim_Namespace (vo_PVC options)) pvc' sc' st1 with
    | (Return _, st2) =>
        match Provision_volume options pvc' sc' with
        | Ok pv => (Return pv, st2)
        | Err err => (Fail err, st2)
        end
    | (Fail err, st2) => (Fail err, st2)
    | (Panic, st2) => (Panic, st2)
    end.
Proof.
  intros Hres Hpol. unfold Provision_unmarshalled. rewrite Hres.
  unfold bind at 1. rewrite Hpol. unfold bind at 1.
  destruct (Provision_lifecycle _ _ _ _ _ _) as [[[] | err |] st2];
    try reflexivity;
    destruct (Provision_volume options pvc' sc'); reflexivity.
Qed.

(** A volume is returned only after every stage succeeded. *)
Lemma Provision_Return options pvc sc pv (st st' : State World Session) :
  Provision_unmarshalled keys p options pvc sc st = (Return pv, st') ->
  exists sc' pvc' st1,
    Provision_resolve pvc sc = Ok sc' /\
    Provision_policy p pvc st = (Return pvc', st1) /\
    Provision_lifecycle keys p (claim_Namespace (vo_PVC options)) pvc' sc' st1
      = (Return tt, st') /\
    Provision_volume options pvc' sc' = Ok pv.
Proof.
  intros H.
  destruct (Provision_resolve pvc sc) as [sc' | err] eqn:Hres;
    [| by rewrite (Provision_resolve_fails _ _ _ _ _ Hres) in H].
  destruct (Provision_policy p pvc st) as [[pvc' | err |] st1] eqn:Hpol.
  - rewrite (Provision_stages _ _ _ _ _ _ _ Hres Hpol) in H.
    destruct (Provision_lifecycle _ _ _ _ _ _) as [[[] | err |] st2] eqn:Hlife;
      try discriminate H.
    destruct (Provision_volume options pvc' sc') as [pv' | err] eqn:Hvol;
      [| discriminate H].
    injection H as <- <-. eauto 10.
  - unfold Provision_unmarshalled in H. rewrite Hres in H.
    unfold bind at 1 in H. rewrite Hpol in H. discriminate H.
  - unfold Provision_unmarshalled in H. rewrite Hres in H.
    unfold bind at 1 in H. rewrite Hpol in H. discriminate H.
Qed.

(** [getCredentials] makes one call, whatever comes of it. *)
Lemma getCredentials_trace secretName secretNamespace out
    (st st' : State World Session) :
  getCredentials keys p secretName secretNamespace st = (out, st') ->
  st'.1 = (Client_Secrets_Get p secretNamespace secretName st.1).2 /\
  st'.2 = (st.2 ++ [EvSecretsGet secretNamespace secretName])%list.
Proof.
  unfold getCredentials. run.
  destruct (Client_Secrets_Get p secretNamespace secretName st.1)
    as [[secrets | err] w1]; cbn [fst snd].
  - destruct (parseSecret secrets (SecretAPIKey keys));
      [| destruct (parseSecret secrets (SecretAccessKey keys));
         [destruct (parseSecret secrets (SecretSecretKey keys)) |]];
      intros [= <- <-]; done.
  - intros [= <- <-]; done.
Qed.

(** A secret with an API key and no service instance resolves, to
    credentials without a service instance. *)
Lemma getCredentials_api_key_only secretName secretNamespace secrets apiKey w1
    (st : State World Session) :
  Client_Secrets_Get p secretNamespace secretName st.1 = (Ok secrets, w1) ->
  secret_Data secrets !! SecretAPIKey keys = Some apiKey ->
  secret_Data secrets !! SecretServiceInstanceID keys = None ->
  getCredentials keys p secretName secretNamespace st =
    (Return {| cred_AccessKey := ""; cred_SecretKey := "";
               cred_APIKey := apiKey; cred_ServiceInstanceID := "";
               cred_IAMEndpoint := "" |},
     (w1, (st.2 ++ [EvSecretsGet secretNamespace secretName])%list)).
Proof.
  intros Hget Hkey Hsid. unfold getCredentials, parseSecret. run.
  rewrite Hget, Hkey, Hsid. reflexivity.
Qed.

(** Without validation nothing is called: the lifecycle ends at once, in
    a panic when an object path has to be checked on the nil session. *)
Lemma Provision_lifecycle_unvalidated secretNamespace pvc sc
    (st : State World Session) :
  valBucket pvc = false ->
  Provision_lifecycle keys p secretNamespace pvc sc st =
    (if negb (String.eqb (pvc_ObjectPath pvc) "") then Panic else Return tt, st).
Proof.
  intros Hval. unfold Provision_lifecycle. rewrite Hval.
  unfold valBucket in Hval.
  destruct (pvc_AutoCreateBucket pvc);
    [by destruct (String.eqb (pvc_ValidateBucket pvc) "no") |].
  run. by destruct (String.eqb (pvc_ObjectPath pvc) "").
Qed.

(** With validation, the calls of a lifecycle that succeeds. *)
Lemma Provision_lifecycle_Return secretNamespace pvc sc
    (st st' : State World Session) :
  valBucket pvc = true ->
  Provision_lifecycle keys p secretNamespace pvc sc st = (Return tt, st') ->
  exists creds sess,
    cred_IAMEndpoint creds = sc_IAMEndpoint sc /\
    st'.2 =
      (st.2 ++
       EvSecretsGet secretNamespace (pvc_SecretName pvc) ::
       EvNewObjectStorageSession (sc_OSEndpoint sc) (sc_OSStorageClass sc) creds ::
       (if pvc_AutoCreateBucket pvc then [EvCreateBucket sess (pvc_Bucket pvc)]
        else []) ++
       EvCheckBucketAccess sess (pvc_Bucket pvc) ::
       (if negb (String.eqb (pvc_ObjectPath pvc) "")
        then [EvCheckObjectPathExistence sess (pvc_Bucket pvc) (pvc_ObjectPath pvc)]
        else []))%list.
Proof.
  intros Hval. unfold Provision_lifecycle. rewrite Hval.
  unfold bind at 1. unfold bind at 1. unfold wrap_error.
  destruct (getCredentials keys p (pvc_SecretName pvc) secretNamespace st)
    as [[creds | err |] [w1 tr1]] eqn:Hcreds; try discriminate.
  apply getCredentials_trace in Hcreds as [_ Htr1]. cbn [fst snd] in Htr1.
  subst tr1. run.
  destruct (Backend_NewObjectStorageSession p _ _ _ w1) as [sess w2].
  intros H.
  exists (set_cred_IAMEndpoint (sc_IAMEndpoint sc) creds), sess.
  split; [reflexivity |].
  destruct (pvc_AutoCreateBucket pvc), (String.eqb (pvc_ObjectPath pvc) "");
    cbn [negb] in *;
    try (destruct (negb (String.eqb (cred_APIKey _) "") && _) in H;
         [discriminate H |]);
    repeat (answer_calls H; try discriminate H);
    injection H as <-; cbn [snd app];
    rewrite <- ?app_assoc; reflexivity.
Qed.

(** The calls of a lifecycle, whatever its outcome: none of them asks
    for a token. *)
Lemma Provision_lifecycle_trace secretNamespace pvc sc out
    (st st' : State World Session) :
  Provision_lifecycle keys p secretNamespace pvc sc st = (out, st') ->
  exists evs, st'.2 = (st.2 ++ evs)%list /\ ~ In EvUUIDNew evs.
Proof.
  destruct (valBucket pvc) eqn:Hval.
  2: { rewrite (Provision_lifecycle_unvalidated _ _ _ _ Hval).
       intros [= _ <-]. exists []. rewrite app_nil_r. split; [reflexivity | intros []]. }
  unfold Provision_lifecycle. rewrite Hval.
  unfold bind at 1. unfold bind at 1. unfold wrap_error.
  destruct (getCredentials keys p (pvc_SecretName pvc) secretNamespace st)
    as [[creds | err |] [w1 tr1]] eqn:Hcreds;
    apply getCredentials_trace in Hcreds as [_ Htr1]; cbn [fst snd] in Htr1;
    subst tr1.
  2, 3: intros [= _ <-]; eexists; split; [reflexivity |];
        cbn; intuition discriminate.
  run.
  destruct (Backend_NewObjectStorageSession p _ _ _ w1) as [sess w2].
  intros H.
  destruct (pvc_AutoCreateBucket pvc), (String.eqb (pvc_ObjectPath pvc) "");
    cbn [negb] in *;
    try (destruct (negb (String.eqb (cred_APIKey _) "") && _) in H);
    repeat (answer_calls H);
    injection H as _ <-; cbn [snd app]; rewrite <- ?app_assoc;
    (eexists; split; [reflexivity |]); cbn; intuition discriminate.
Qed.

(** [deleteBucket]: the secret is read; once the credentials resolve a
    session is opened on the endpoint, region and IAM endpoint passed in
    and the bucket is deleted through it. *)
Lemma deleteBucket_trace pvAnnots endpointValue regionValue iamEndpoint out
    (st st' : State World Session) :
  deleteBucket keys p pvAnnots endpointValue regionValue iamEndpoint st
    = (out, st') ->
  let secretName := pvc_SecretName (pva_pvcAnnotations pvAnnots) in
  let get := EvSecretsGet (pva_SecretNamespace pvAnnots) secretName in
  (st'.2 = (st.2 ++ [get])%list /\ exists err, out = Fail (CannotGetCredentials err))
  \/
  (exists creds sess,
     cred_IAMEndpoint creds = iamEndpoint /\
     st'.2 = (st.2 ++
              [get;
               EvNewObjectStorageSession endpointValue regionValue creds;
               EvDeleteBucket sess (pvc_Bucket (pva_pvcAnnotations pvAnnots))])%list
     /\ (out = Return tt \/ exists err, out = Fail err)).
Proof.
  unfold deleteBucket. unfold bind at 1. unfold wrap_error.
  destruct (getCredentials keys p _ _ st) as [[creds | err |] [w1 tr1]] eqn:Hcreds.
  - apply getCredentials_trace in Hcreds as [_ Htr1]. cbn [fst snd] in Htr1.
    subst tr1. run.
    destruct (Backend_NewObjectStorageSession p _ _ _ w1) as [sess w2].
    intros H. right.
    exists (set_cred_IAMEndpoint iamEndpoint creds), sess.
    split; [reflexivity |].
    answer_calls H; injection H as <- <-; cbn [snd];
      rewrite <- ?app_assoc; (split; [reflexivity | eauto]).
  - apply getCredentials_trace in Hcreds as [_ Htr1]. cbn [fst snd] in Htr1.
    subst tr1. intros [= <- <-]. left. cbn [snd]. eauto.
  - exfalso. revert Hcreds. unfold getCredentials. run.
    destruct (Client_Secrets_Get p _ _ st.1) as [[secrets | err] w]; [| done].
    destruct (parseSecret secrets (SecretAPIKey keys));
      [| destruct (parseSecret secrets (SecretAccessKey keys));
         [destruct (parseSecret secrets (SecretSecretKey keys)) |]]; done.
Qed.

(** [Delete] on a volume with a FlexVolume source and a descriptor that
    parses. *)
Lemma Delete_parsed pv flexVolume pvAnnots (st : State World Session) :
  pv_FlexVolume pv = Some flexVolume ->
  UnmarshalMap_pvAnnotations (pv_Annotations pv) = Ok pvAnnots ->
  Delete keys p pv st =
    if pvc_AutoDeleteBucket (pva_pvcAnnotations pvAnnots) then
      wrap_error CannotDeleteBucket
        (deleteBucket keys p pvAnnots
           (map_get (fv_Options flexVolume) "object-store-endpoint")
           (map_get (fv_Options flexVolume) "object-store-storage-class")
           (map_get (fv_Options flexVolume) "iam-endpoint")) st
    else (Return tt, st).
Proof.
  intros Hfv Hparse. unfold Delete. rewrite Hfv, Hparse.
  by destruct (pvc_AutoDeleteBucket _).
Qed.

(** The volume built by [Provision]: its descriptor parses back to the
    claim and the namespace, its options hold the resolved endpoints. *)
Lemma Provision_volume_Ok options pvc sc pv :
  Provision_volume options pvc sc = Ok pv ->
  exists flexVolume,
    pv_FlexVolume pv = Some flexVolume /\
    MarshalToMap_Options (driver_Options pvc sc) = Ok (fv_Options flexVolume) /\
    MarshalToMap_pvAnnotations
      {| pva_pvcAnnotations := pvc;
         pva_SecretNamespace := claim_Namespace (vo_PVC options) |}
      = Ok (pv_Annotations pv).
Proof.
  unfold Provision_volume.
  destruct (MarshalToMap_Options _) as [driverOptions |] eqn:Hopts; [| done].
  destruct (MarshalToMap_pvAnnotations _) as [pvAnnots |] eqn:Hannots; [| done].
  intros [= <-]. cbn [pv_FlexVolume pv_Annotations]. eauto.
Qed.

(** The requests for a token during a whole [Provision]: there is one
    only for a claim that violates no rule and has auto-delete set. *)
Lemma Provision_token_requests options pvc out (st st' : State World Session) :
  UnmarshalMap_pvcAnnotations (claim_Annotations (vo_PVC options)) = Ok pvc ->
  Provision keys p options st = (out, st') ->
  exists evs, st'.2 = (st.2 ++ evs)%list /\
    (In EvUUIDNew evs ->
     first_violated pvc = None /\ pvc_AutoDeleteBucket pvc = true).
Proof.
  intros Hpvc. unfold Provision. rewrite Hpvc.
  assert (Hnone : forall o,
            (Fail o : Outcome PersistentVolume, st) = (out, st') ->
            exists evs, st'.2 = (st.2 ++ evs)%list /\
              (In EvUUIDNew evs ->
               first_violated pvc = None /\ pvc_AutoDeleteBucket pvc = true)).
  { intros o [= _ <-]. exists []. by rewrite app_nil_r. }
  destruct (UnmarshalMap_scOptions (vo_Parameters options)) as [sc | err];
    [| by apply Hnone].
  destruct (Provision_resolve pvc sc) as [sc' | err] eqn:Hres;
    [| rewrite (Provision_resolve_fails _ _ _ _ _ Hres); by apply Hnone].
  destruct (first_violated pvc) as [r |] eqn:Hr.
  { unfold Provision_unmarshalled. rewrite Hres. unfold bind at 1.
    rewrite (Provision_policy_violation _ _ _ Hr). by apply Hnone. }
  pose proof (Provision_policy_valid pvc st Hr) as Hpol.
  destruct (pvc_AutoDeleteBucket pvc).
  - destruct (UUIDGenerator_New p st.1) as [[id | err] w'].
    + rewrite (Provision_stages _ _ _ _ _ _ _ Hres Hpol).
      destruct (Provision_lifecycle _ _ _ _ _ _) as [o st2] eqn:Hlife.
      apply Provision_lifecycle_trace in Hlife as (evs & Hevs & _).
      cbn [snd] in Hevs. intros H.
      assert (st' = st2) as ->.
      { destruct o as [[] | |]; [destruct (Provision_volume _ _ _) |..];
          by injection H. }
      exists (EvUUIDNew :: evs). rewrite Hevs, <- app_assoc. done.
    + unfold Provision_unmarshalled. rewrite Hres. unfold bind at 1.
      rewrite Hpol. intros [= _ <-]. by exists [EvUUIDNew].
  - rewrite (Provision_stages _ _ _ _ _ _ _ Hres Hpol).
    destruct (Provision_lifecycle _ _ _ _ _ _) as [o st2] eqn:Hlife.
    apply Provision_lifecycle_trace in Hlife as (evs & Hevs & Hno).
    intros H.
    assert (st' = st2) as ->.
    { destruct o as [[] | |]; [destruct (Provision_volume _ _ _) |..];
        by injection H. }
    exists evs. done.
Qed.

(** The bucket of a descriptor that parses is what is stored under
    [ibm.io/bucket]. *)
Lemma UnmarshalMap_pvAnnotations_Bucket m a :
  UnmarshalMap_pvAnnotations m = Ok a ->
  pvc_Bucket (pva_pvcAnnotations a) = map_get m "ibm.io/bucket".
Proof.
  unfold UnmarshalMap_pvAnnotations, UnmarshalMap_pvcAnnotations.
  destruct (decode_bool m "ibm.io/auto-create-bucket"); [| done].
  destruct (decode_bool m "ibm.io/auto-delete-bucket"); [| done].
  by intros [= <-].
Qed.

(** ** The claims *)

(** C7 (as amended). Every claim that violates one of the four policy
    rules (object-path with auto-create; auto-delete without
    auto-create; auto-delete with an explicit bucket name; no
    auto-delete and no bucket name) makes [Provision] fail with the
    state untouched, that is before any credential lookup, token
    request or backend call.  The configuration is resolved before the
    policy is checked: when the class parameters parse and the
    configuration resolves, the error returned is the [ValidationError]
    of the first rule violated, the rules being checked in the order of
    the specification. *)
Theorem policy_violation_refused options pvc r (st : State World Session) :
  UnmarshalMap_pvcAnnotations (claim_Annotations (vo_PVC options)) = Ok pvc ->
  violates r pvc = true ->
  (exists err, Provision keys p options st = (Fail err, st)) /\
  (exists r',
     first_violated pvc = Some r' /\
     (rule_index r' <= rule_index r)%nat /\
     violates r' pvc = true /\
     error_class (rule_error r' pvc) = Some ValidationError /\
     forall sc sc',
       UnmarshalMap_scOptions (vo_Parameters options) = Ok sc ->
       Provision_resolve pvc sc = Ok sc' ->
       Provision keys p options st = (Fail (rule_error r' pvc), st)).
Proof.
  intros Hpvc Hr.
  assert (Hfirst : exists r', first_violated pvc = Some r' /\
            (rule_index r' <= rule_index r)%nat /\ violates r' pvc = true).
  { unfold first_violated.
    destruct (violates ObjectPathNeedsExistingBucket pvc) eqn:V1;
      [exists ObjectPathNeedsExistingBucket; destruct r; cbn; auto with lia |].
    destruct (violates AutoDeleteNeedsAutoCreate pvc) eqn:V2;
      [exists AutoDeleteNeedsAutoCreate; destruct r; cbn; auto with lia;
       congruence |].
    destruct (violates AutoDeleteNeedsGeneratedName pvc) eqn:V3;
      [exists AutoDeleteNeedsGeneratedName; destruct r; cbn; auto with lia;
       congruence |].
    destruct (violates BucketNameRequired pvc) eqn:V4;
      [exists BucketNameRequired; destruct r; cbn; auto with lia; congruence |].
    destruct r; congruence. }
  destruct Hfirst as (r' & Hfirst & Hle & Hr').
  assert (Hrun : forall sc sc',
            UnmarshalMap_scOptions (vo_Parameters options) = Ok sc ->
            Provision_resolve pvc sc = Ok sc' ->
            Provision keys p options st = (Fail (rule_error r' pvc), st)).
  { intros sc sc' Hsc Hres.
    rewrite (Provision_after_unmarshal _ _ _ Hpvc Hsc).
    unfold Provision_unmarshalled. rewrite Hres. unfold bind at 1.
    by rewrite (Provision_policy_violation _ _ _ Hfirst). }
  split.
  - destruct (UnmarshalMap_scOptions (vo_Parameters options)) as [sc | err] eqn:Hsc.
    + destruct (Provision_resolve pvc sc) as [sc' | err] eqn:Hres.
      * exists (rule_error r' pvc). exact (Hrun _ _ eq_refl Hres).
      * exists err. rewrite (Provision_after_unmarshal _ _ _ Hpvc Hsc).
        by apply Provision_resolve_fails.
    + eexists. unfold Provision. by rewrite Hpvc, Hsc.
  - exists r'. repeat apply conj; try done. by destruct r'.
Qed.

(** C8. After the claim has been merged over the class, an object-store
    endpoint that starts with neither [http://] nor [https://] makes
    [Provision] fail with the [ValidationError] that names it, and so
    does such an IAM endpoint once the object-store endpoint has passed;
    the state is untouched, so no credential was looked up and no
    backend was called.  Every string with one of the two prefixes
    passes the check: with both endpoints so prefixed, resolution does
    not fail on an endpoint. *)
Theorem endpoint_scheme_required options pvc sc (st : State World Session) :
  UnmarshalMap_pvcAnnotations (claim_Annotations (vo_PVC options)) = Ok pvc ->
  UnmarshalMap_scOptions (vo_Parameters options) = Ok sc ->
  (has_scheme (effective_OSEndpoint pvc sc) = false ->
   Provision keys p options st =
     (Fail (BadObjectStoreEndpoint (effective_OSEndpoint pvc sc)), st)) /\
  (has_scheme (effective_OSEndpoint pvc sc) = true ->
   has_scheme (effective_IAMEndpoint pvc sc) = false ->
   Provision keys p options st =
     (Fail (BadIAMEndpoint (effective_IAMEndpoint pvc sc)), st)) /\
  (forall v, error_class (BadObjectStoreEndpoint v) = Some ValidationError /\
             error_class (BadIAMEndpoint v) = Some ValidationError) /\
  (forall rest, has_scheme ("http://" ++ rest) = true /\
                has_scheme ("https://" ++ rest) = true) /\
  (has_scheme (effective_OSEndpoint pvc sc) = true ->
   has_scheme (effective_IAMEndpoint pvc sc) = true ->
   forall v, Provision_resolve pvc sc <> Err (BadObjectStoreEndpoint v) /\
             Provision_resolve pvc sc <> Err (BadIAMEndpoint v)).
Proof.
  intros Hpvc Hsc. rewrite (Provision_after_unmarshal _ _ _ Hpvc Hsc).
  repeat apply conj.
  - intros H. apply Provision_resolve_fails.
    by apply Provision_resolve_bad_OSEndpoint.
  - intros HOS HIAM. apply Provision_resolve_fails.
    by apply Provision_resolve_bad_IAMEndpoint.
  - done.
  - intros rest. split; by destruct rest.
  - intros HOS HIAM v.
    split; intros H;
      destruct (Provision_resolve_past_endpoints _ _ _ HOS HIAM H)
        as [(f & cause & ?) | ?]; discriminate.
Qed.


(** C3. On a claim that violates no policy rule, a bucket name is
    generated exactly when auto-create is set and no bucket name was
    given: the generator is asked once, and the token it supplies,
    behind the literal prefix [tmp-s3fs-], becomes the bucket of the
    claim and of the descriptor of the volume.  In no other case is a
    name generated: during a whole [Provision] the generator is asked
    only for a claim that violates no rule, has auto-create set and has
    no bucket name, and the policy checks leave any other claim as it
    was. *)
Theorem bucket_name_generation options pvc (st : State World Session) :
  UnmarshalMap_pvcAnnotations (claim_Annotations (vo_PVC options)) = Ok pvc ->
  (first_violated pvc = None ->
   pvc_AutoCreateBucket pvc = true ->
   pvc_Bucket pvc = "" ->
   Provision_policy p pvc st =
     match UUIDGenerator_New p st.1 with
     | (Ok id, w') =>
         (Return (set_pvc_Bucket ("tmp-s3fs-" ++ id) pvc),
          (w', (st.2 ++ [EvUUIDNew])%list))
     | (Err err, w') =>
         (Fail (CannotCreateUUID err), (w', (st.2 ++ [EvUUIDNew])%list))
     end) /\
  (forall pv st',
     Provision keys p options st = (Return pv, st') ->
     pvc_AutoCreateBucket pvc = true ->
     pvc_Bucket pvc = "" ->
     exists id w',
       UUIDGenerator_New p st.1 = (Ok id, w') /\
       map_get (pv_Annotations pv) "ibm.io/bucket" = "tmp-s3fs-" ++ id) /\
  (forall out st',
     Provision keys p options st = (out, st') ->
     exists evs, st'.2 = (st.2 ++ evs)%list /\
       (In EvUUIDNew evs ->
        first_violated pvc = None /\
        pvc_AutoCreateBucket pvc = true /\ pvc_Bucket pvc = "")) /\
  (forall out st',
     Provision_policy p pvc st = (out, st') ->
     ~ (pvc_AutoCreateBucket pvc = true /\ pvc_Bucket pvc = "") ->
     st' = st /\ forall pvc', out = Return pvc' -> pvc' = pvc).
Proof.
  intros Hpvc. repeat apply conj.
  - intros Hvalid Hcreate Hbucket.
    rewrite (Provision_policy_valid _ _ Hvalid).
    destruct (valid_auto_delete_iff _ Hvalid) as [_ Hdel].
    by rewrite Hdel.
  - intros pv st' Hrun Hcreate Hbucket. unfold Provision in Hrun.
    rewrite Hpvc in Hrun.
    destruct (UnmarshalMap_scOptions (vo_Parameters options)) as [sc |];
      [| discriminate Hrun].
    apply Provision_Return in Hrun
      as (sc' & pvc' & st1 & _ & Hpol & _ & Hvol).
    destruct (Provision_policy_Return _ _ _ _ Hpol) as [Hvalid _].
    rewrite (Provision_policy_valid _ _ Hvalid) in Hpol.
    destruct (valid_auto_delete_iff _ Hvalid) as [_ Hdel].
    rewrite Hdel in Hpol by done.
    destruct (UUIDGenerator_New p st.1) as [[id | err] w']; [| discriminate Hpol].
    injection Hpol as <- _. exists id, w'. split; [done |].
    apply Provision_volume_Ok in Hvol as (flexVolume & _ & _ & Hannots).
    apply UnmarshalMap_MarshalToMap_pvAnnotations in Hannots.
    by rewrite <- (UnmarshalMap_pvAnnotations_Bucket _ _ Hannots).
  - intros out st' Hrun.
    destruct (Provision_token_requests _ _ _ _ _ Hpvc Hrun) as (evs & Hevs & Huuid).
    exists evs. split; [done |]. intros Hin.
    destruct (Huuid Hin) as [Hvalid Hdel].
    split; [done |]. by apply valid_auto_delete_iff.
  - intros out st' Hpol Hother.
    destruct (first_violated pvc) as [r |] eqn:Hr.
    + rewrite (Provision_policy_violation _ _ _ Hr) in Hpol.
      injection Hpol as <- <-. done.
    + rewrite (Provision_policy_valid _ _ Hr) in Hpol.
      destruct (pvc_AutoDeleteBucket pvc) eqn:Hdel.
      * exfalso. apply Hother. by apply valid_auto_delete_iff.
      * injection Hpol as <- <-. split; [done |]. by intros pvc' [= <-].
Qed.

(** C4. A claim with an object path, [validate-bucket] equal to ["no"],
    no auto-create, no auto-delete and a bucket name passes every policy
    check; once its configuration has resolved, [Provision] skips the
    credentials and the session, reaches the object-path check with the
    nil session and panics there, the state untouched: no session was
    ever opened, and no result is returned. *)
Theorem object_path_check_on_nil_session options pvc sc sc'
    (st : State World Session) :
  UnmarshalMap_pvcAnnotations (claim_Annotations (vo_PVC options)) = Ok pvc ->
  UnmarshalMap_scOptions (vo_Parameters options) = Ok sc ->
  Provision_resolve pvc sc = Ok sc' ->
  pvc_ObjectPath pvc <> "" ->
  pvc_ValidateBucket pvc = "no" ->
  pvc_AutoCreateBucket pvc = false ->
  pvc_AutoDeleteBucket pvc = false ->
  pvc_Bucket pvc <> "" ->
  first_violated pvc = None /\
  valBucket pvc = false /\
  Provision keys p options st = (Panic, st).
Proof.
  intros Hpvc Hsc Hres Hpath Hno Hcreate Hdelete Hbucket.
  apply String.eqb_neq in Hpath, Hbucket.
  assert (Hvalid : first_violated pvc = None).
  { unfold first_violated, violates.
    by rewrite Hpath, Hbucket, Hcreate, Hdelete. }
  assert (Hval : valBucket pvc = false).
  { unfold valBucket. by rewrite Hno, Hcreate. }
  repeat apply conj; try done.
  rewrite (Provision_after_unmarshal _ _ _ Hpvc Hsc).
  pose proof (Provision_policy_valid pvc st Hvalid) as Hpol.
  rewrite Hdelete in Hpol.
  rewrite (Provision_stages _ _ _ _ _ _ _ Hres Hpol).
  rewrite (Provision_lifecycle_unvalidated _ _ _ _ Hval).
  by rewrite Hpath.
Qed.

(** C6. The access check is skipped if and only if the [validate-bucket]
    annotation is exactly ["no"] and auto-create is off.  In that case
    [Provision] leaves the state as it found it, whatever it returns: no
    credential is resolved and no backend is called.  With
    [validate-bucket] equal to ["no"] and auto-create on, validation is
    still in force: a provision that returns a volume has read the
    secret, opened a session, created the bucket and checked access to
    it, in that order. *)
Theorem access_check_decision options pvc (st : State World Session) :
  UnmarshalMap_pvcAnnotations (claim_Annotations (vo_PVC options)) = Ok pvc ->
  (valBucket pvc = false <->
   pvc_ValidateBucket pvc = "no" /\ pvc_AutoCreateBucket pvc = false) /\
  (valBucket pvc = false -> (Provision keys p options st).2 = st) /\
  (pvc_ValidateBucket pvc = "no" ->
   pvc_AutoCreateBucket pvc = true ->
   valBucket pvc = true /\
   forall sc pv st',
     UnmarshalMap_scOptions (vo_Parameters options) = Ok sc ->
     Provision keys p options st = (Return pv, st') ->
     exists creds sess bucket,
       st'.2 =
         (st.2 ++
          (if pvc_AutoDeleteBucket pvc then [EvUUIDNew] else []) ++
          [EvSecretsGet (claim_Namespace (vo_PVC options)) (pvc_SecretName pvc);
           EvNewObjectStorageSession (effective_OSEndpoint pvc sc)
             (effective_OSStorageClass pvc sc) creds;
           EvCreateBucket sess bucket;
           EvCheckBucketAccess sess bucket])%list).
Proof.
  intros Hpvc. repeat apply conj.
  - unfold valBucket.
    destruct (String.eqb_spec (pvc_ValidateBucket pvc) "no"),
      (pvc_AutoCreateBucket pvc); cbn [negb andb]; intuition congruence.
  - unfold valBucket.
    destruct (String.eqb_spec (pvc_ValidateBucket pvc) "no"),
      (pvc_AutoCreateBucket pvc); cbn [negb andb]; intuition congruence.
  - intros Hval. unfold Provision. rewrite Hpvc.
    destruct (UnmarshalMap_scOptions (vo_Parameters options)) as [sc | err];
      [| done].
    destruct (Provision_resolve pvc sc) as [sc' | err] eqn:Hres;
      [| by rewrite (Provision_resolve_fails _ _ _ _ _ Hres)].
    destruct (first_violated pvc) as [r |] eqn:Hr.
    { unfold Provision_unmarshalled. rewrite Hres. unfold bind at 1.
      by rewrite (Provision_policy_violation _ _ _ Hr). }
    pose proof (Provision_policy_valid pvc st Hr) as Hpol.
    destruct (pvc_AutoDeleteBucket pvc) eqn:Hdel.
    { apply (valid_auto_delete_iff _ Hr) in Hdel as [Hcreate _].
      unfold valBucket in Hval. rewrite Hcreate, andb_false_r in Hval. done. }
    rewrite (Provision_stages _ _ _ _ _ _ _ Hres Hpol).
    rewrite (Provision_lifecycle_unvalidated _ _ _ _ Hval).
    destruct (negb _); [done |].
    by destruct (Provision_volume options pvc sc').
  - intros Hno Hcreate.
    assert (Hval : valBucket pvc = true).
    { unfold valBucket. by rewrite Hcreate, andb_false_r. }
    split; [done |].
    intros sc pv st' Hsc Hrun.
    rewrite (Provision_after_unmarshal _ _ _ Hpvc Hsc) in Hrun.
    apply Provision_Return in Hrun
      as (sc' & pvc' & st1 & Hres & Hpol & Hlife & _).
    destruct (Provision_policy_Return _ _ _ _ Hpol) as [Hvalid _].
    assert (Hpath : String.eqb (pvc_ObjectPath pvc) "" = true).
    { revert Hvalid. unfold first_violated, violates. rewrite Hcreate.
      by destruct (String.eqb (pvc_ObjectPath pvc) ""). }
    apply Provision_resolve_Ok in Hres as (HOS & HSC & _).
    rewrite (Provision_policy_valid _ _ Hvalid) in Hpol.
    destruct (pvc_AutoDeleteBucket pvc).
    + destruct (UUIDGenerator_New p st.1) as [[id | err] w'];
        [| discriminate Hpol].
      injection Hpol as <- <-.
      apply Provision_lifecycle_Return in Hlife
        as (creds & sess & _ & Htrace); [| done].
      struct_simpl. rewrite Hcreate, Hpath, HOS, HSC in Htrace.
      exists creds, sess, (autoBucketNamePrefix ++ id).
      rewrite Htrace. cbn [snd negb app]. by rewrite <- app_assoc.
    + injection Hpol as <- <-.
      apply Provision_lifecycle_Return in Hlife
        as (creds & sess & _ & Htrace); [| done].
      rewrite Hcreate, Hpath, HOS, HSC in Htrace.
      exists creds, sess, (pvc_Bucket pvc). by rewrite Htrace.
Qed.

(** C5 (as amended). A secret with an API-key field and no
    service-instance-id field resolves without error, to API-key
    credentials whose service-instance-id is empty.  The missing
    service-instance-id is enforced on the create path only, and only
    for an API key that is not the empty string: a provision with
    auto-create then fails with the [ValidationError] for it after the
    session was opened and before any bucket is created, while a
    provision that only validates access goes on to the access check and
    returns the volume when that check passes. *)
Theorem service_instance_required_on_create options pvc sc sc' pvc'
    secrets apiKey w1 sess w2 (st st1 : State World Session) :
  UnmarshalMap_pvcAnnotations (claim_Annotations (vo_PVC options)) = Ok pvc ->
  UnmarshalMap_scOptions (vo_Parameters options) = Ok sc ->
  Provision_resolve pvc sc = Ok sc' ->
  Provision_policy p pvc st = (Return pvc', st1) ->
  valBucket pvc' = true ->
  let secretNamespace := claim_Namespace (vo_PVC options) in
  let creds :=
    {| cred_AccessKey := ""; cred_SecretKey := ""; cred_APIKey := apiKey;
       cred_ServiceInstanceID := ""; cred_IAMEndpoint := sc_IAMEndpoint sc' |} in
  let opened :=
    [EvSecretsGet secretNamespace (pvc_SecretName pvc');
     EvNewObjectStorageSession (sc_OSEndpoint sc') (sc_OSStorageClass sc') creds] in
  Client_Secrets_Get p secretNamespace (pvc_SecretName pvc') st1.1
    = (Ok secrets, w1) ->
  secret_Data secrets !! SecretAPIKey keys = Some apiKey ->
  secret_Data secrets !! SecretServiceInstanceID keys = None ->
  Backend_NewObjectStorageSession p
    (sc_OSEndpoint sc') (sc_OSStorageClass sc') creds w1 = (sess, w2) ->
  getCredentials keys p (pvc_SecretName pvc') secretNamespace st1 =
    (Return {| cred_AccessKey := ""; cred_SecretKey := ""; cred_APIKey := apiKey;
               cred_ServiceInstanceID := ""; cred_IAMEndpoint := "" |},
     (w1, (st1.2 ++ [EvSecretsGet secretNamespace (pvc_SecretName pvc')])%list)) /\
  (pvc_AutoCreateBucket pvc' = true ->
   apiKey <> "" ->
   Provision keys p options st =
     (Fail APIKeyWithoutServiceInstanceID, (w2, (st1.2 ++ opened)%list)) /\
   error_class APIKeyWithoutServiceInstanceID = Some ValidationError) /\
  (pvc_AutoCreateBucket pvc' = false ->
   pvc_ObjectPath pvc' = "" ->
   forall w3,
     Session_CheckBucketAccess p sess (pvc_Bucket pvc') w2 = (None, w3) ->
     exists pv,
       Provision keys p options st =
         (Return pv,
          (w3, (st1.2 ++ opened ++
                [EvCheckBucketAccess sess (pvc_Bucket pvc')])%list))).
Proof.
  intros Hpvc Hsc Hres Hpol Hval secretNamespace creds opened
    Hget Hkey Hsid Hsess.
  pose proof (getCredentials_api_key_only _ _ _ _ _ _ Hget Hkey Hsid) as Hcreds.
  rewrite (Provision_after_unmarshal _ _ _ Hpvc Hsc).
  rewrite (Provision_stages _ _ _ _ _ _ _ Hres Hpol).
  fold secretNamespace.
  split; [exact Hcreds |]. split.
  - intros Hcreate Hne. split; [| done].
    unfold Provision_lifecycle. rewrite Hval, Hcreate.
    unfold bind at 1. unfold bind at 1. unfold wrap_error.
    rewrite Hcreds. run.
    change (set_cred_IAMEndpoint (sc_IAMEndpoint sc') _) with creds.
    rewrite Hsess. cbn [fst snd cred_APIKey cred_ServiceInstanceID creds].
    apply String.eqb_neq in Hne. rewrite Hne. cbn [negb andb String.eqb].
    subst opened. by rewrite <- app_assoc.
  - intros Hcreate Hpath w3 Haccess.
    unfold Provision_lifecycle. rewrite Hval, Hcreate, Hpath.
    unfold bind at 1. unfold bind at 1. unfold wrap_error.
    rewrite Hcreds. run.
    change (set_cred_IAMEndpoint (sc_IAMEndpoint sc') _) with creds.
    rewrite Hsess. cbn [fst snd]. rewrite Haccess.
    cbn [fst snd String.eqb negb].
    unfold Provision_volume, MarshalToMap_Options, MarshalToMap_pvAnnotations.
    eexists. subst opened. rewrite <- !app_assoc. reflexivity.
Qed.

(** C10. For a persisted volume whose descriptor has auto-delete off,
    [Delete] returns success and leaves the state as it found it: no
    credential is resolved and no backend is called.  With auto-delete
    on, [Delete] is the bucket deletion: it starts by reading the
    secret.  So a [Delete] that changes the state at all - a credential
    lookup or a backend call - has auto-delete on in its descriptor. *)
Theorem Delete_without_auto_delete pv flexVolume pvAnnots
    (st : State World Session) :
  pv_FlexVolume pv = Some flexVolume ->
  UnmarshalMap_pvAnnotations (pv_Annotations pv) = Ok pvAnnots ->
  (pvc_AutoDeleteBucket (pva_pvcAnnotations pvAnnots) = false ->
   Delete keys p pv st = (Return tt, st)) /\
  (pvc_AutoDeleteBucket (pva_pvcAnnotations pvAnnots) = true ->
   exists evs,
     (Delete keys p pv st).2.2 =
       (st.2 ++
        EvSecretsGet (pva_SecretNamespace pvAnnots)
          (pvc_SecretName (pva_pvcAnnotations pvAnnots)) :: evs)%list) /\
  (forall out st',
     Delete keys p pv st = (out, st') ->
     st' <> st ->
     pvc_AutoDeleteBucket (pva_pvcAnnotations pvAnnots) = true).
Proof.
  intros Hfv Hparse. rewrite (Delete_parsed _ _ _ _ Hfv Hparse).
  repeat apply conj.
  - by intros ->.
  - intros ->. rewrite wrap_error_state.
    destruct (deleteBucket keys p pvAnnots _ _ _ st) as [out st'] eqn:Hdel.
    apply deleteBucket_trace in Hdel
      as [[Htrace _] | (creds & sess & _ & Htrace & _)];
      cbn [snd]; rewrite Htrace; eauto.
  - intros out st'.
    destruct (pvc_AutoDeleteBucket (pva_pvcAnnotations pvAnnots)); [done |].
    intros [= _ <-]. done.
Qed.

(** C2 (as amended). [Delete] reads the mount-driver options of the
    volume at three keys, [object-store-endpoint],
    [object-store-storage-class] and [iam-endpoint], and nowhere else:
    for two persisted volumes with identical annotations whose options
    agree on these three keys, [Delete] performs the same credential
    lookups and backend calls and returns the same result, however the
    options differ elsewhere; when the descriptor has auto-delete off
    the options are not used at all. *)
Theorem Delete_reads_three_options pv1 pv2 flexVolume1 flexVolume2
    (st : State World Session) :
  pv_FlexVolume pv1 = Some flexVolume1 ->
  pv_FlexVolume pv2 = Some flexVolume2 ->
  pv_Annotations pv1 = pv_Annotations pv2 ->
  (map_get (fv_Options flexVolume1) "object-store-endpoint"
     = map_get (fv_Options flexVolume2) "object-store-endpoint" /\
   map_get (fv_Options flexVolume1) "object-store-storage-class"
     = map_get (fv_Options flexVolume2) "object-store-storage-class" /\
   map_get (fv_Options flexVolume1) "iam-endpoint"
     = map_get (fv_Options flexVolume2) "iam-endpoint")
  \/ (exists pvAnnots,
        UnmarshalMap_pvAnnotations (pv_Annotations pv1) = Ok pvAnnots /\
        pvc_AutoDeleteBucket (pva_pvcAnnotations pvAnnots) = false) ->
  Delete keys p pv1 st = Delete keys p pv2 st.
Proof.
  intros Hfv1 Hfv2 Hannots Hagree. unfold Delete.
  rewrite Hfv1, Hfv2, <- Hannots.
  destruct Hagree as [(-> & -> & ->) | (pvAnnots & -> & ->)]; reflexivity.
Qed.

(** C1 (as amended). For every provisioning input for which [Provision]
    succeeds, the descriptor attached to the volume - the marshalled
    claim annotations plus the namespace of the secret - parses back to
    exactly the claim that was marshalled and that namespace; in
    particular it gives [Delete] the secret name, the secret namespace,
    the bucket name (the generated one where a name was generated) and
    the auto-delete flag.  The endpoint, the storage-class region and
    the IAM endpoint used at teardown do not come from the descriptor:
    [Delete] reads them from the mount-driver options of the volume,
    where [Provision] stored the resolved values.  Together they
    determine the teardown: [Delete] does nothing when auto-delete is
    off, and otherwise reads that secret, opens a session on the
    resolved endpoint, region and IAM endpoint, and deletes that
    bucket. *)
Theorem teardown_reconstructed_from_volume options pv
    (st st' : State World Session) :
  Provision keys p options st = (Return pv, st') ->
  exists pvc sc sc' pvc' flexVolume,
    UnmarshalMap_pvcAnnotations (claim_Annotations (vo_PVC options)) = Ok pvc /\
    UnmarshalMap_scOptions (vo_Parameters options) = Ok sc /\
    Provision_resolve pvc sc = Ok sc' /\
    (pvc' = pvc \/ exists id, pvc' = set_pvc_Bucket ("tmp-s3fs-" ++ id) pvc) /\
    UnmarshalMap_pvAnnotations (pv_Annotations pv) =
      Ok {| pva_pvcAnnotations := pvc';
            pva_SecretNamespace := claim_Namespace (vo_PVC options) |} /\
    pv_FlexVolume pv = Some flexVolume /\
    map_get (fv_Options flexVolume) "object-store-endpoint"
      = effective_OSEndpoint pvc sc /\
    map_get (fv_Options flexVolume) "object-store-storage-class"
      = effective_OSStorageClass pvc sc /\
    map_get (fv_Options flexVolume) "iam-endpoint"
      = effective_IAMEndpoint pvc sc /\
    forall (st2 : State World Session),
      (pvc_AutoDeleteBucket pvc = false ->
       Delete keys p pv st2 = (Return tt, st2)) /\
      (pvc_AutoDeleteBucket pvc = true ->
       let get :=
         EvSecretsGet (claim_Namespace (vo_PVC options)) (pvc_SecretName pvc) in
       (Delete keys p pv st2).2.2 = (st2.2 ++ [get])%list \/
       exists creds sess,
         cred_IAMEndpoint creds = effective_IAMEndpoint pvc sc /\
         (Delete keys p pv st2).2.2 =
           (st2.2 ++
            [get;
             EvNewObjectStorageSession (effective_OSEndpoint pvc sc)
               (effective_OSStorageClass pvc sc) creds;
             EvDeleteBucket sess (pvc_Bucket pvc')])%list).
Proof.
  intros Hrun. unfold Provision in Hrun.
  destruct (UnmarshalMap_pvcAnnotations _) as [pvc | err] eqn:Hpvc;
    [| discriminate Hrun].
  destruct (UnmarshalMap_scOptions _) as [sc | err] eqn:Hsc;
    [| discriminate Hrun].
  apply Provision_Return in Hrun as (sc' & pvc' & st1 & Hres & Hpol & _ & Hvol).
  apply Provision_policy_Return in Hpol as [_ Hpvc'].
  apply Provision_volume_Ok in Hvol as (flexVolume & Hfv & Hopts & Hannots).
  apply UnmarshalMap_MarshalToMap_pvAnnotations in Hannots.
  apply MarshalToMap_Options_endpoints in Hopts as (HE & HR & HI).
  cbn [driver_Options do_OSEndpoint do_OSStorageClass do_IAMEndpoint] in HE, HR, HI.
  pose proof (Provision_resolve_Ok _ _ _ Hres) as (HOS & HSC & HIAM & _).
  rewrite HOS in HE. rewrite HSC in HR. rewrite HIAM in HI.
  exists pvc, sc, sc', pvc', flexVolume.
  repeat apply conj; try done.
  intros st2.
  assert (Hflags : pvc_AutoDeleteBucket pvc' = pvc_AutoDeleteBucket pvc /\
                   pvc_SecretName pvc' = pvc_SecretName pvc).
  { destruct Hpvc' as [-> | [id ->]]; done. }
  destruct Hflags as [Hdel Hname].
  rewrite (Delete_parsed _ _ _ _ Hfv Hannots).
  cbn [pva_pvcAnnotations]. rewrite Hdel, HE, HR, HI.
  split; intros ->; [done |].
  rewrite wrap_error_state.
  destruct (deleteBucket keys p _ _ _ _ st2) as [out st3] eqn:Hdelete.
  cbn [snd].
  apply deleteBucket_trace in Hdelete.
  cbn [pva_pvcAnnotations pva_SecretNamespace] in Hdelete. rewrite Hname in Hdelete.
  destruct Hdelete as [[Htrace _] | (creds & sess & Hiam & Htrace & _)];
    [by left | right; eauto].
Qed.

(** ** Further properties of the provisioner *)

Lemma getCredentials_no_panic secretName secretNamespace
    (st st' : State World Session) :
  getCredentials keys p secretName secretNamespace st <> (Panic, st').
Proof.
  unfold getCredentials. run.
  destruct (Client_Secrets_Get p _ _ st.1) as [[secrets | err] w]; [| done].
  destruct (parseSecret secrets (SecretAPIKey keys));
    [| destruct (parseSecret secrets (SecretAccessKey keys));
       [destruct (parseSecret secrets (SecretSecretKey keys)) |]]; done.
Qed.

(** How far a validated lifecycle gets, by its outcome. *)
Lemma Provision_lifecycle_progress secretNamespace pvc sc out
    (st st' : State World Session) :
  valBucket pvc = true ->
  Provision_lifecycle keys p secretNamespace pvc sc st = (out, st') ->
  (exists err,
     out = Fail (CannotGetCredentials err) /\
     st'.2 = (st.2 ++ [EvSecretsGet secretNamespace (pvc_SecretName pvc)])%list)
  \/
  (exists creds sess n,
     cred_IAMEndpoint creds = sc_IAMEndpoint sc /\
     calls_before pvc out = Some n /\
     (2 <= n)%nat /\
     st'.2 = (st.2 ++ take n (lifecycle_calls secretNamespace pvc sc creds sess))%list).
Proof.
  intros Hval. unfold Provision_lifecycle. rewrite Hval.
  unfold bind at 1. unfold bind at 1. unfold wrap_error.
  destruct (getCredentials keys p (pvc_SecretName pvc) secretNamespace st)
    as [[creds | err |] [w1 tr1]] eqn:Hcreds.
  - apply getCredentials_trace in Hcreds as [_ Htr1]. cbn [fst snd] in Htr1.
    subst tr1. run.
    destruct (Backend_NewObjectStorageSession p _ _ _ w1) as [sess w2].
    intros H. right.
    exists (set_cred_IAMEndpoint (sc_IAMEndpoint sc) creds), sess.
    unfold calls_before, lifecycle_calls.
    destruct (pvc_AutoCreateBucket pvc), (String.eqb (pvc_ObjectPath pvc) "");
      cbn [negb] in *;
      try (destruct (negb (String.eqb (cred_APIKey _) "") && _) in H);
      repeat (answer_calls H);
      injection H as <- <-; cbn [snd];
      (eexists; split; [reflexivity |]; split; [reflexivity |];
       split; [cbn; lia |]);
      cbn [take firstn app Nat.add]; rewrite <- ?app_assoc; reflexivity.
  - apply getCredentials_trace in Hcreds as [_ Htr1]. cbn [fst snd] in Htr1.
    subst tr1. intros [= <- <-]. left. eauto.
  - by apply getCredentials_no_panic in Hcreds.
Qed.

(** X1. Without an API-key field the secret has to hold an access key
    and a secret key: [getCredentials] returns that pair, and otherwise
    fails naming the first of the two that is missing; the
    service-instance-id field plays no part. *)
Theorem getCredentials_key_pair secretName secretNamespace secrets w1
    (st : State World Session) :
  Client_Secrets_Get p secretNamespace secretName st.1 = (Ok secrets, w1) ->
  secret_Data secrets !! SecretAPIKey keys = None ->
  getCredentials keys p secretName secretNamespace st =
    (match secret_Data secrets !! SecretAccessKey keys,
           secret_Data secrets !! SecretSecretKey keys with
     | Some accessKey, Some secretKey =>
         Return {| cred_AccessKey := accessKey; cred_SecretKey := secretKey;
                   cred_APIKey := ""; cred_ServiceInstanceID := "";
                   cred_IAMEndpoint := "" |}
     | None, _ => Fail (SecretMissing (SecretAccessKey keys))
     | Some _, None => Fail (SecretMissing (SecretSecretKey keys))
     end,
     (w1, (st.2 ++ [EvSecretsGet secretNamespace secretName])%list)).
Proof.
  intros Hget Hkey. unfold getCredentials, parseSecret. run.
  rewrite Hget, Hkey.
  destruct (secret_Data secrets !! SecretAccessKey keys);
    [destruct (secret_Data secrets !! SecretSecretKey keys) |]; reflexivity.
Qed.

(** X2. An API-key field, whatever its value, decides the shape: the
    credentials carry the API key and the service-instance-id (empty
    when that field is missing), the access key and the secret key of
    the secret are not used, and resolution cannot fail. *)
Theorem getCredentials_api_key_precedence secretName secretNamespace secrets
    apiKey w1 (st : State World Session) :
  Client_Secrets_Get p secretNamespace secretName st.1 = (Ok secrets, w1) ->
  secret_Data secrets !! SecretAPIKey keys = Some apiKey ->
  getCredentials keys p secretName secretNamespace st =
    (Return {| cred_AccessKey := ""; cred_SecretKey := "";
               cred_APIKey := apiKey;
               cred_ServiceInstanceID :=
                 default "" (secret_Data secrets !! SecretServiceInstanceID keys);
               cred_IAMEndpoint := "" |},
     (w1, (st.2 ++ [EvSecretsGet secretNamespace secretName])%list)).
Proof.
  intros Hget Hkey. unfold getCredentials, parseSecret. run.
  rewrite Hget, Hkey.
  destruct (secret_Data secrets !! SecretServiceInstanceID keys); reflexivity.
Qed.

(** X3. Credentials that [getCredentials] returns never mix the two
    shapes: either the access key and the secret key are empty, or the
    API key and the service-instance-id are; the IAM endpoint is left
    empty for the caller to set. *)
Theorem getCredentials_one_shape secretName secretNamespace creds
    (st st' : State World Session) :
  getCredentials keys p secretName secretNamespace st = (Return creds, st') ->
  cred_IAMEndpoint creds = "" /\
  ((cred_AccessKey creds = "" /\ cred_SecretKey creds = "") \/
   (cred_APIKey creds = "" /\ cred_ServiceInstanceID creds = "")).
Proof.
  unfold getCredentials, parseSecret. run.
  destruct (Client_Secrets_Get p _ _ st.1) as [[secrets | err] w]; [| done].
  destruct (secret_Data secrets !! SecretAPIKey keys).
  - intros [= <- _]. cbn. auto.
  - destruct (secret_Data secrets !! SecretAccessKey keys); [| done].
    destruct (secret_Data secrets !! SecretSecretKey keys); [| done].
    intros [= <- _]. cbn. auto.
Qed.

(** X4. [getCredentials] fails in three ways only: the lookup of the
    secret failed, and the error names the secret and wraps the cause;
    or the secret has no API key and lacks the access key; or it has no
    API key, has the access key and lacks the secret key.  In each case
    the lookup was the only call. *)
Theorem getCredentials_failures secretName secretNamespace err
    (st st' : State World Session) :
  getCredentials keys p secretName secretNamespace st = (Fail err, st') ->
  st'.2 = (st.2 ++ [EvSecretsGet secretNamespace secretName])%list /\
  ((exists cause w,
      Client_Secrets_Get p secretNamespace secretName st.1 = (Err cause, w) /\
      err = CannotGetSecret secretName cause) \/
   (exists secrets w,
      Client_Secrets_Get p secretNamespace secretName st.1 = (Ok secrets, w) /\
      secret_Data secrets !! SecretAPIKey keys = None /\
      ((secret_Data secrets !! SecretAccessKey keys = None /\
        err = SecretMissing (SecretAccessKey keys)) \/
       (is_Some (secret_Data secrets !! SecretAccessKey keys) /\
        secret_Data secrets !! SecretSecretKey keys = None /\
        err = SecretMissing (SecretSecretKey keys))))).
Proof.
  intros Hrun. split; [apply getCredentials_trace in Hrun; tauto |].
  revert Hrun. unfold getCredentials, parseSecret. run.
  destruct (Client_Secrets_Get p _ _ st.1) as [[secrets | cause] w].
  - destruct (secret_Data secrets !! SecretAPIKey keys) eqn:Hkey; [done |].
    destruct (secret_Data secrets !! SecretAccessKey keys) eqn:Ha.
    + destruct (secret_Data secrets !! SecretSecretKey keys) eqn:Hs; [done |].
      intros [= <- _]. right. exists secrets, w. eauto 10.
    + intros [= <- _]. right. exists secrets, w. eauto 10.
  - intros [= <- _]. left. eauto.
Qed.

(** With both endpoints and the five overrides in order, resolution
    depends on [stat-cache-expire-seconds] only. *)
Lemma Provision_resolve_wellformed pvc sc :
  has_scheme (effective_OSEndpoint pvc sc) = true ->
  has_scheme (effective_IAMEndpoint pvc sc) = true ->
  first_malformed pvc = None ->
  exists sc',
    Provision_resolve pvc sc =
      if String.eqb (pvc_StatCacheExpireSeconds pvc) "" then Ok sc'
      else
        match Atoi (pvc_StatCacheExpireSeconds pvc) with
        | Err err => Err (CannotConvert F_stat_cache_expire_seconds err)
        | Ok n => if n <? 0 then Err NegativeStatCacheExpire else Ok sc'
        end.
Proof.
  unfold Provision_resolve, effective_OSEndpoint, effective_IAMEndpoint,
    first_malformed, numeric_overrides.
  cbv zeta. cbn [find]. struct_simpl.
  intros HOS HIAM Hnone.
  destruct (malformed (pvc_S3FSFUSERetryCount pvc)) eqn:M1; [discriminate Hnone |].
  destruct (malformed (pvc_ChunkSizeMB pvc)) eqn:M2; [discriminate Hnone |].
  destruct (malformed (pvc_ParallelCount pvc)) eqn:M3; [discriminate Hnone |].
  destruct (malformed (pvc_MultiReqMax pvc)) eqn:M4; [discriminate Hnone |].
  destruct (malformed (pvc_StatCacheSize pvc)) eqn:M5; [discriminate Hnone |].
  destruct (String.eqb (pvc_Endpoint pvc) ""), (String.eqb (pvc_Region pvc) ""),
    (String.eqb (pvc_IAMEndpoint pvc) "");
    struct_simpl; rewrite HOS, HIAM; cbn [negb];
    repeat step_override; eexists; reflexivity.
Qed.

(** X5. The configuration of a claim over a class resolves exactly when
    both effective endpoints carry a scheme, none of the five integer
    overrides is malformed, and [stat-cache-expire-seconds] is empty or
    a non-negative integer. *)
Theorem Provision_resolve_succeeds_iff pvc sc :
  (exists sc', Provision_resolve pvc sc = Ok sc') <->
  has_scheme (effective_OSEndpoint pvc sc) = true /\
  has_scheme (effective_IAMEndpoint pvc sc) = true /\
  first_malformed pvc = None /\
  (pvc_StatCacheExpireSeconds pvc = "" \/
   exists n, Atoi (pvc_StatCacheExpireSeconds pvc) = Ok n /\ 0 <= n).
Proof.
  destruct (has_scheme (effective_OSEndpoint pvc sc)) eqn:HOS.
  2: { rewrite (Provision_resolve_bad_OSEndpoint _ _ HOS).
       split; [by intros [sc' ?] | by intros [? _]]. }
  destruct (has_scheme (effective_IAMEndpoint pvc sc)) eqn:HIAM.
  2: { rewrite (Provision_resolve_bad_IAMEndpoint _ _ HOS HIAM).
       split; [by intros [sc' ?] | by intros (_ & ? & _)]. }
  destruct (first_malformed pvc) as [g |] eqn:Hg.
  { destruct (Provision_resolve_malformed _ _ _ HOS HIAM Hg) as (cause & _ & ->).
    split; [by intros [sc' ?] | by intros (_ & _ & ? & _)]. }
  destruct (Provision_resolve_wellformed _ _ HOS HIAM Hg) as [sc0 ->].
  destruct (String.eqb_spec (pvc_StatCacheExpireSeconds pvc) "") as [-> | Hne].
  { split; [auto | eauto]. }
  destruct (Atoi (pvc_StatCacheExpireSeconds pvc)) as [n | err].
  - destruct (Z.ltb_spec n 0).
    + split; [by intros [sc' ?] |].
      intros (_ & _ & _ & [? | (m & [= <-] & ?)]); [done | lia].
    + split; [| eauto]. intros _. repeat split; try done. right. eauto.
  - split; [by intros [sc' ?] |].
    intros (_ & _ & _ & [? | (m & ? & _)]); done.
Qed.

(** X6. Once the endpoints and the five integer overrides are in
    order, a [stat-cache-expire-seconds] annotation that is set and is
    not an integer, or that is a negative integer, makes [Provision]
    fail with the error for it, the state untouched; an empty one is
    not checked. *)
Theorem stat_cache_expire_checked options pvc sc (st : State World Session) :
  UnmarshalMap_pvcAnnotations (claim_Annotations (vo_PVC options)) = Ok pvc ->
  UnmarshalMap_scOptions (vo_Parameters options) = Ok sc ->
  has_scheme (effective_OSEndpoint pvc sc) = true ->
  has_scheme (effective_IAMEndpoint pvc sc) = true ->
  first_malformed pvc = None ->
  (forall cause,
     pvc_StatCacheExpireSeconds pvc <> "" ->
     Atoi (pvc_StatCacheExpireSeconds pvc) = Err cause ->
     Provision keys p options st =
       (Fail (CannotConvert F_stat_cache_expire_seconds cause), st)) /\
  (forall n,
     Atoi (pvc_StatCacheExpireSeconds pvc) = Ok n ->
     n < 0 ->
     Provision keys p options st = (Fail NegativeStatCacheExpire, st)) /\
  (pvc_StatCacheExpireSeconds pvc = "" ->
   exists sc', Provision_resolve pvc sc = Ok sc').
Proof.
  intros Hpvc Hsc HOS HIAM Hg.
  rewrite (Provision_after_unmarshal _ _ _ Hpvc Hsc).
  destruct (Provision_resolve_wellformed _ _ HOS HIAM Hg) as [sc0 Hres].
  repeat apply conj.
  - intros cause Hne Hcause. apply Provision_resolve_fails.
    apply String.eqb_neq in Hne. by rewrite Hres, Hne, Hcause.
  - intros n Hn Hneg. apply Provision_resolve_fails.
    rewrite Hres, Hn.
    destruct (String.eqb_spec (pvc_StatCacheExpireSeconds pvc) "") as [Hnil | _].
    + rewrite Hnil in Hn. discriminate Hn.
    + by destruct (Z.ltb_spec n 0); [| lia].
  - intros Hnil. exists sc0. by rewrite Hres, Hnil.
Qed.

Lemma Provision_volume_total options pvc sc :
  exists pv, Provision_volume options pvc sc = Ok pv.
Proof. unfold Provision_volume. cbn. eauto. Qed.

(** X7. What a successful [Provision] hands to the mount driver: the
    TLS cipher suite, debug level, curl-debug and kernel-cache of the
    class as they were, whatever the claim holds; the
    [stat-cache-expire-seconds] and object path of the claim verbatim;
    and the retry count as the decimal text of the resolved integer. *)
Theorem driver_options_content options pvc sc pv (st st' : State World Session) :
  UnmarshalMap_pvcAnnotations (claim_Annotations (vo_PVC options)) = Ok pvc ->
  UnmarshalMap_scOptions (vo_Parameters options) = Ok sc ->
  Provision keys p options st = (Return pv, st') ->
  exists d flexVolume retry,
    pv_FlexVolume pv = Some flexVolume /\
    MarshalToMap_Options d = Ok (fv_Options flexVolume) /\
    do_TLSCipherSuite d = sc_TLSCipherSuite sc /\
    do_DebugLevel d = sc_DebugLevel sc /\
    do_CurlDebug d = sc_CurlDebug sc /\
    do_KernelCache d = sc_KernelCache sc /\
    do_StatCacheExpireSeconds d = pvc_StatCacheExpireSeconds pvc /\
    do_ObjectPath d = pvc_ObjectPath pvc /\
    do_S3FSFUSERetryCount d = Itoa retry /\
    overrides_int (pvc_S3FSFUSERetryCount pvc) (sc_S3FSFUSERetryCount sc) retry.
Proof.
  intros Hpvc Hsc Hrun.
  rewrite (Provision_after_unmarshal _ _ _ Hpvc Hsc) in Hrun.
  apply Provision_Return in Hrun as (sc' & pvc' & st1 & Hres & Hpol & _ & Hvol).
  apply Provision_policy_Return in Hpol as [_ Hpvc'].
  apply Provision_volume_Ok in Hvol as (flexVolume & Hfv & Hopts & _).
  apply Provision_resolve_Ok in Hres
    as (_ & _ & _ & _ & _ & Hint & HT & HD & HC & HK).
  exists (driver_Options pvc' sc'), flexVolume, (sc_S3FSFUSERetryCount sc').
  cbn [driver_Options do_TLSCipherSuite do_DebugLevel do_CurlDebug do_KernelCache
       do_StatCacheExpireSeconds do_ObjectPath do_S3FSFUSERetryCount].
  assert (Hretry : overrides_int (pvc_S3FSFUSERetryCount pvc)
                     (sc_S3FSFUSERetryCount sc) (sc_S3FSFUSERetryCount sc'))
    by (apply (Hint F_s3fs_fuse_retry_count); cbn; tauto).
  assert (Hexpire : pvc_StatCacheExpireSeconds pvc' = pvc_StatCacheExpireSeconds pvc)
    by (by destruct Hpvc' as [-> | [id ->]]).
  assert (Hpath : pvc_ObjectPath pvc' = pvc_ObjectPath pvc)
    by (by destruct Hpvc' as [-> | [id ->]]).
  repeat (split; [done |]). exact Hretry.
Qed.

(** X8. The volume that [Provision] returns is named as asked, keeps
    the reclaim policy and access modes of the request, has the storage
    request of the claim as its capacity, and is a FlexVolume of driver
    [ibm/ibmc-s3fs] with an empty file-system type, writable, whose
    secret reference is the secret name of the claim. *)
Theorem Provision_volume_shape options pvc pv (st st' : State World Session) :
  UnmarshalMap_pvcAnnotations (claim_Annotations (vo_PVC options)) = Ok pvc ->
  Provision keys p options st = (Return pv, st') ->
  pv_Name pv = vo_PVName options /\
  pv_PersistentVolumeReclaimPolicy pv = vo_PersistentVolumeReclaimPolicy options /\
  pv_AccessModes pv = claim_AccessModes (vo_PVC options) /\
  pv_Capacity pv =
    {[ "storage" := map_get (claim_Requests (vo_PVC options)) "storage" ]} /\
  exists flexVolume,
    pv_FlexVolume pv = Some flexVolume /\
    fv_Driver flexVolume = "ibm/ibmc-s3fs" /\
    fv_FSType flexVolume = "" /\
    fv_ReadOnly flexVolume = false /\
    fv_SecretRef flexVolume = Some {| sr_Name := pvc_SecretName pvc |}.
Proof.
  intros Hpvc Hrun. unfold Provision in Hrun. rewrite Hpvc in Hrun.
  destruct (UnmarshalMap_scOptions (vo_Parameters options)) as [sc |];
    [| discriminate Hrun].
  apply Provision_Return in Hrun as (sc' & pvc' & st1 & _ & Hpol & _ & Hvol).
  apply Provision_policy_Return in Hpol as [_ Hpvc'].
  assert (Hname : pvc_SecretName pvc' = pvc_SecretName pvc)
    by (by destruct Hpvc' as [-> | [id ->]]).
  unfold Provision_volume in Hvol.
  destruct (MarshalToMap_Options _) as [driverOptions |]; [| discriminate Hvol].
  destruct (MarshalToMap_pvAnnotations _) as [pvAnnots |]; [| discriminate Hvol].
  injection Hvol as <-.
  cbn [pv_Name pv_PersistentVolumeReclaimPolicy pv_AccessModes pv_Capacity
       pv_FlexVolume].
  repeat apply conj; try done.
  eexists. split; [reflexivity |].
  cbn [fv_Driver fv_FSType fv_ReadOnly fv_SecretRef]. by rewrite Hname.
Qed.

(** What a claim that violates no rule is like. *)
Lemma valid_facts pvc :
  first_violated pvc = None ->
  (pvc_AutoCreateBucket pvc = true -> String.eqb (pvc_ObjectPath pvc) "" = true) /\
  (pvc_AutoDeleteBucket pvc = false -> pvc_Bucket pvc <> "") /\
  (pvc_AutoDeleteBucket pvc = true ->
   pvc_AutoCreateBucket pvc = true /\ pvc_Bucket pvc = "").
Proof.
  unfold first_violated, violates.
  destruct (pvc_AutoCreateBucket pvc), (pvc_AutoDeleteBucket pvc),
    (String.eqb (pvc_ObjectPath pvc) ""),
    (String.eqb_spec (pvc_Bucket pvc) "");
    cbn [negb andb]; intros [=]; repeat split; congruence.
Qed.

(** The two ways through the policy checks. *)
Lemma Provision_policy_Return_cases pvc pvc' (st st1 : State World Session) :
  Provision_policy p pvc st = (Return pvc', st1) ->
  first_violated pvc = None /\
  ((pvc_AutoDeleteBucket pvc = false /\ pvc' = pvc /\ st1 = st) \/
   (pvc_AutoDeleteBucket pvc = true /\
    exists id, pvc' = set_pvc_Bucket ("tmp-s3fs-" ++ id) pvc /\
               st1.2 = (st.2 ++ [EvUUIDNew])%list)).
Proof.
  intros Hpol. destruct (Provision_policy_Return _ _ _ _ Hpol) as [Hvalid _].
  split; [done |]. rewrite (Provision_policy_valid _ _ Hvalid) in Hpol.
  destruct (pvc_AutoDeleteBucket pvc).
  - destruct (UUIDGenerator_New p st.1) as [[id | err] w']; [| discriminate Hpol].
    injection Hpol as <- <-. right. eauto.
  - injection Hpol as <- <-. by left.
Qed.

(** The state [Provision] ends in is the one its lifecycle ends in. *)
Lemma Provision_stages_state options pvc sc sc' pvc' (st st1 : State World Session) :
  Provision_resolve pvc sc = Ok sc' ->
  Provision_policy p pvc st = (Return pvc', st1) ->
  (Provision_unmarshalled keys p options pvc sc st).2 =
  (Provision_lifecycle keys p (claim_Namespace (vo_PVC options)) pvc' sc' st1).2.
Proof.
  intros Hres Hpol. rewrite (Provision_stages _ _ _ _ _ _ _ Hres Hpol).
  destruct (Provision_lifecycle _ _ _ _ _ _) as [[[] | err |] st2];
    try reflexivity; by destruct (Provision_volume options pvc' sc').
Qed.

Lemma In_take {A} (x : A) n (l : list A) : In x (take n l) -> In x l.
Proof.
  revert l. induction n as [| n IH]; intros [| y l]; cbn; try tauto.
  intros [-> | H]; [by left | right; by apply IH].
Qed.

(** Every call of a validated lifecycle is justified by the claim as it
    entered the policy checks. *)
Lemma lifecycle_calls_justified secretNamespace pvc sc sc' pvc' creds
    (sess : Session) ev :
  first_violated pvc = None ->
  valBucket pvc' = true ->
  Provision_resolve pvc sc = Ok sc' ->
  (pvc_AutoDeleteBucket pvc = false /\ pvc' = pvc) \/
  (pvc_AutoDeleteBucket pvc = true /\
   exists id, pvc' = set_pvc_Bucket ("tmp-s3fs-" ++ id) pvc) ->
  cred_IAMEndpoint creds = sc_IAMEndpoint sc' ->
  In ev (lifecycle_calls secretNamespace pvc' sc' creds sess) ->
  call_justified secretNamespace pvc sc ev.
Proof.
  intros Hvalid Hval Hres Hpvc' Hiam.
  apply Provision_resolve_Ok in Hres as (HOS & HSC & HIAM & _).
  destruct (valid_facts _ Hvalid) as (Hpath & Hbucket & Hdel).
  assert (Hsame : pvc_AutoCreateBucket pvc' = pvc_AutoCreateBucket pvc /\
                  pvc_ObjectPath pvc' = pvc_ObjectPath pvc /\
                  pvc_SecretName pvc' = pvc_SecretName pvc /\
                  valBucket pvc = true /\
                  bucket_of_claim pvc (pvc_Bucket pvc')).
  { destruct Hpvc' as [[Hd ->] | [Hd [id ->]]]; repeat split; try done.
    - left. auto.
    - right. split; [done |]. by exists id. }
  destruct Hsame as (Hcreate & Hobj & Hname & Hval0 & Hb).
  unfold lifecycle_calls. rewrite Hcreate, Hobj, Hname, HOS, HSC.
  destruct (pvc_AutoCreateBucket pvc) eqn:Hc;
    destruct (String.eqb_spec (pvc_ObjectPath pvc) "") as [Hp | Hp];
    cbn [negb app In];
    try (by specialize (Hpath eq_refl));
    intros Hin;
    repeat (destruct Hin as [<- | Hin]); try (destruct Hin);
    cbn [call_justified]; repeat split; try done; try congruence.
  all: destruct (pvc_AutoDeleteBucket pvc) eqn:Hd;
    [ destruct (Hdel eq_refl) as [? _]; congruence
    | by destruct Hpvc' as [[_ ->] | [? _]] ].
Qed.

(** X9. [Provision] panics in one situation only: the claim and the
    class parse, the configuration resolves, the claim violates no
    rule, [validate-bucket] is ["no"], auto-create is off and an object
    path is given.  The panic comes before any call; in every other
    case [Provision] returns a volume or an error. *)
Theorem Provision_panics_iff options (st st' : State World Session) :
  Provision keys p options st = (Panic, st') <->
  st' = st /\
  exists pvc sc sc',
    UnmarshalMap_pvcAnnotations (claim_Annotations (vo_PVC options)) = Ok pvc /\
    UnmarshalMap_scOptions (vo_Parameters options) = Ok sc /\
    Provision_resolve pvc sc = Ok sc' /\
    first_violated pvc = None /\
    pvc_ValidateBucket pvc = "no" /\
    pvc_AutoCreateBucket pvc = false /\
    pvc_ObjectPath pvc <> "".
Proof.
  split.
  - unfold Provision.
    destruct (UnmarshalMap_pvcAnnotations _) as [pvc | err] eqn:Hpvc; [| done].
    destruct (UnmarshalMap_scOptions _) as [sc | err] eqn:Hsc; [| done].
    destruct (Provision_resolve pvc sc) as [sc' | err] eqn:Hres;
      [| by rewrite (Provision_resolve_fails _ _ _ _ _ Hres)].
    destruct (Provision_policy p pvc st) as [[pvc' | err |] st1] eqn:Hpol.
    2: { unfold Provision_unmarshalled. rewrite Hres. unfold bind at 1.
         by rewrite Hpol. }
    2: { exfalso. destruct (first_violated pvc) as [r |] eqn:Hr.
         - by rewrite (Provision_policy_violation _ _ _ Hr) in Hpol.
         - rewrite (Provision_policy_valid _ _ Hr) in Hpol.
           destruct (pvc_AutoDeleteBucket pvc); [| done].
           by destruct (UUIDGenerator_New p st.1) as [[id | err] w']. }
    rewrite (Provision_stages _ _ _ _ _ _ _ Hres Hpol).
    destruct (Provision_policy_Return_cases _ _ _ _ Hpol) as [Hvalid Hcases].
    destruct (Provision_lifecycle _ _ _ _ _ _) as [out st2] eqn:Hlife.
    destruct (valBucket pvc') eqn:Hval.
    + apply (Provision_lifecycle_progress _ _ _ _ _ _ Hval) in Hlife
        as [(err & -> & _) | (creds & sess & n & _ & Hn & _)]; [done |].
      destruct out as [[] | err |]; [by destruct (Provision_volume _ _ _) | done |].
      discriminate Hn.
    + rewrite (Provision_lifecycle_unvalidated _ _ _ _ Hval) in Hlife.
      assert (Hoff : pvc_ValidateBucket pvc' = "no" /\
                     pvc_AutoCreateBucket pvc' = false).
      { revert Hval. unfold valBucket.
        destruct (String.eqb_spec (pvc_ValidateBucket pvc') "no"),
          (pvc_AutoCreateBucket pvc'); cbn [negb andb]; done. }
      destruct Hoff as [Hno Hcreate].
      assert (pvc' = pvc /\ st1 = st) as [-> ->].
      { destruct Hcases as [(_ & -> & ->) | (Hdel & id & -> & _)]; [done |].
        destruct (valid_facts _ Hvalid) as (_ & _ & Hd).
        destruct (Hd Hdel) as [Hc _]. cbn in Hcreate. congruence. }
      destruct (String.eqb_spec (pvc_ObjectPath pvc) "") as [Hp | Hp];
        cbn [negb] in Hlife; injection Hlife as <- <-.
      * by destruct (Provision_volume _ _ _).
      * intros [= <-]. split; [done |]. exists pvc, sc, sc'. auto 10.
  - intros (-> & pvc & sc & sc' & Hpvc & Hsc & Hres & Hvalid & Hno & Hcreate & Hpath).
    rewrite (Provision_after_unmarshal _ _ _ Hpvc Hsc).
    assert (Hdel : pvc_AutoDeleteBucket pvc = false).
    { destruct (valid_facts _ Hvalid) as (_ & _ & Hd).
      destruct (pvc_AutoDeleteBucket pvc); [| done].
      destruct (Hd eq_refl). congruence. }
    pose proof (Provision_policy_valid pvc st Hvalid) as Hpol.
    rewrite Hdel in Hpol.
    rewrite (Provision_stages _ _ _ _ _ _ _ Hres Hpol).
    assert (Hval : valBucket pvc = false)
      by (unfold valBucket; by rewrite Hno, Hcreate).
    rewrite (Provision_lifecycle_unvalidated _ _ _ _ Hval).
    apply String.eqb_neq in Hpath. by rewrite Hpath.
Qed.

(** X10. With validation on, [Provision] makes its calls in one fixed
    order - secret, session, bucket creation (with auto-create), access
    check, object-path check (with an object path) - and stops at the
    first that fails: each error belongs to one call, nothing is called
    after it, and a volume is returned only after the last call. *)
Theorem Provision_fails_fast options pvc sc sc' pvc' out
    (st st1 st' : State World Session) :
  UnmarshalMap_pvcAnnotations (claim_Annotations (vo_PVC options)) = Ok pvc ->
  UnmarshalMap_scOptions (vo_Parameters options) = Ok sc ->
  Provision_resolve pvc sc = Ok sc' ->
  Provision_policy p pvc st = (Return pvc', st1) ->
  valBucket pvc' = true ->
  Provision keys p options st = (out, st') ->
  let secretNamespace := claim_Namespace (vo_PVC options) in
  (exists err,
     out = Fail (CannotGetCredentials err) /\
     st'.2 = (st1.2 ++ [EvSecretsGet secretNamespace (pvc_SecretName pvc')])%list)
  \/
  (exists creds sess n,
     cred_IAMEndpoint creds = sc_IAMEndpoint sc' /\
     calls_before pvc' out = Some n /\
     (2 <= n)%nat /\
     st'.2 =
       (st1.2 ++ take n (lifecycle_calls secretNamespace pvc' sc' creds sess))%list).
Proof.
  intros Hpvc Hsc Hres Hpol Hval Hrun secretNamespace.
  rewrite (Provision_after_unmarshal _ _ _ Hpvc Hsc) in Hrun.
  rewrite (Provision_stages _ _ _ _ _ _ _ Hres Hpol) in Hrun.
  destruct (Provision_lifecycle _ _ _ _ _ _) as [out0 st2] eqn:Hlife.
  apply (Provision_lifecycle_progress _ _ _ _ _ _ Hval) in Hlife.
  assert (Hout : st' = st2 /\
                 (out0 = Return tt -> exists pv, out = Return pv) /\
                 (forall err, out0 = Fail err -> out = Fail err) /\
                 (out0 = Panic -> out = Panic)).
  { destruct out0 as [[] | err |].
    - destruct (Provision_volume_total options pvc' sc') as [pv Hpv].
      rewrite Hpv in Hrun. injection Hrun as <- <-.
      repeat split; try done. eauto.
    - injection Hrun as <- <-. repeat split; try done. by intros ? [= <-].
    - injection Hrun as <- <-. repeat split; done. }
  destruct Hout as (-> & Hret & Hfail & Hpanic).
  destruct Hlife as [(err & -> & Htrace) | (creds & sess & n & Hiam & Hn & Hle & Htrace)].
  - left. exists err. by rewrite (Hfail _ eq_refl).
  - right. exists creds, sess, n. repeat split; try done.
    destruct out0 as [[] | err |].
    + by destruct (Hret eq_refl) as [pv ->].
    + by rewrite (Hfail _ eq_refl).
    + by rewrite (Hpanic eq_refl).
Qed.

(** X11. Every call [Provision] makes is justified by the claim and the
    class: a token is requested only for auto-delete without a bucket
    name; the secret read is the one the claim names, in the namespace
    of the claim, and only with validation on; a session is opened only
    on the effective endpoint and region, with the effective IAM
    endpoint in its credentials; a bucket is created only with
    auto-create; the bucket named in a call is the bucket of the claim
    or, with auto-delete, a generated name; the object-path check is
    made only without auto-create, on the path of the claim; and no
    bucket is ever deleted. *)
Theorem Provision_calls_justified options pvc sc out
    (st st' : State World Session) :
  UnmarshalMap_pvcAnnotations (claim_Annotations (vo_PVC options)) = Ok pvc ->
  UnmarshalMap_scOptions (vo_Parameters options) = Ok sc ->
  Provision keys p options st = (out, st') ->
  exists evs,
    st'.2 = (st.2 ++ evs)%list /\
    forall ev, In ev evs ->
      call_justified (claim_Namespace (vo_PVC options)) pvc sc ev.
Proof.
  intros Hpvc Hsc Hrun.
  rewrite (Provision_after_unmarshal _ _ _ Hpvc Hsc) in Hrun.
  assert (Hnone : st' = st ->
            exists evs, st'.2 = (st.2 ++ evs)%list /\
              forall ev, In ev evs ->
                call_justified (claim_Namespace (vo_PVC options)) pvc sc ev).
  { intros ->. exists []. rewrite app_nil_r. split; [done | by intros ? []]. }
  destruct (Provision_resolve pvc sc) as [sc' | err] eqn:Hres.
  2: { rewrite (Provision_resolve_fails _ _ _ _ _ Hres) in Hrun.
       apply Hnone. by injection Hrun. }
  destruct (Provision_policy p pvc st) as [[pvc' | err |] st1] eqn:Hpol.
  - pose proof (Provision_stages_state options _ _ _ _ _ _ Hres Hpol) as Hst.
    rewrite Hrun in Hst. cbn [snd] in Hst.
    destruct (Provision_policy_Return_cases _ _ _ _ Hpol) as [Hvalid Hcases].
    destruct (valid_facts _ Hvalid) as (_ & _ & Hdel).
    destruct (Provision_lifecycle _ _ _ _ _ _) as [out0 st2] eqn:Hlife.
    cbn [snd] in Hst. subst st2.
    assert (Hev0 : exists evs0, st1.2 = (st.2 ++ evs0)%list /\
              forall ev, In ev evs0 ->
                call_justified (claim_Namespace (vo_PVC options)) pvc sc ev).
    { destruct Hcases as [(_ & _ & ->) | (Hd & id & _ & Htr)].
      - exists []. rewrite app_nil_r. split; [done | by intros ? []].
      - exists [EvUUIDNew]. split; [done |].
        intros ev [<- | []]. cbn. destruct (Hdel Hd). auto. }
    destruct Hev0 as (evs0 & Htr0 & Hj0).
    assert (Hcases' :
      (pvc_AutoDeleteBucket pvc = false /\ pvc' = pvc) \/
      (pvc_AutoDeleteBucket pvc = true /\
       exists id, pvc' = set_pvc_Bucket ("tmp-s3fs-" ++ id) pvc)).
    { destruct Hcases as [(? & ? & _) | (? & id & ? & _)]; eauto. }
    destruct (valBucket pvc') eqn:Hval.
    + apply (Provision_lifecycle_progress _ _ _ _ _ _ Hval) in Hlife
        as [(err & _ & Htrace) | (creds & sess & n & Hiam & _ & _ & Htrace)].
      * exists (evs0 ++ [EvSecretsGet (claim_Namespace (vo_PVC options))
                           (pvc_SecretName pvc')])%list.
        rewrite Htrace, Htr0, <- app_assoc. split; [done |].
        intros ev Hin. apply in_app_or in Hin as [Hin | Hin]; [by apply Hj0 |].
        destruct Hin as [<- | []]. cbn [call_justified].
        destruct Hcases' as [[_ ->] | [_ [id ->]]]; repeat split; done.
      * exists (evs0 ++ take n (lifecycle_calls (claim_Namespace (vo_PVC options))
                                  pvc' sc' creds sess))%list.
        rewrite Htrace, Htr0, <- app_assoc. split; [done |].
        intros ev Hin. apply in_app_or in Hin as [Hin | Hin]; [by apply Hj0 |].
        apply In_take in Hin.
        by apply (lifecycle_calls_justified _ _ _ _ _ _ _ _
                    Hvalid Hval Hres Hcases' Hiam Hin).
    + rewrite (Provision_lifecycle_unvalidated _ _ _ _ Hval) in Hlife.
      injection Hlife as _ <-. exists evs0. done.
  - unfold Provision_unmarshalled in Hrun. rewrite Hres in Hrun.
    unfold bind at 1 in Hrun. rewrite Hpol in Hrun. injection Hrun as _ <-.
    destruct (first_violated pvc) as [r |] eqn:Hr.
    + rewrite (Provision_policy_violation _ _ _ Hr) in Hpol.
      apply Hnone. by injection Hpol.
    + rewrite (Provision_policy_valid _ _ Hr) in Hpol.
      destruct (valid_facts _ Hr) as (_ & _ & Hdel).
      destruct (pvc_AutoDeleteBucket pvc) eqn:Hd; [| discriminate Hpol].
      destruct (UUIDGenerator_New p st.1) as [[id | e] w']; [discriminate Hpol |].
      injection Hpol as _ <-. exists [EvUUIDNew]. split; [done |].
      intros ev [<- | []]. cbn. destruct (Hdel eq_refl). auto.
  - exfalso. destruct (first_violated pvc) as [r |] eqn:Hr.
    + by rewrite (Provision_policy_violation _ _ _ Hr) in Hpol.
    + rewrite (Provision_policy_valid _ _ Hr) in Hpol.
      destruct (pvc_AutoDeleteBucket pvc); [| done].
      by destruct (UUIDGenerator_New p st.1) as [[id | e] w'].
Qed.

(** X12. The descriptor of every volume that [Provision] returns is
    well formed: it parses, its bucket name is not empty, auto-delete
    comes only with auto-create and a generated bucket name, and
    auto-create comes only without an object path. *)
Theorem persisted_descriptor_wellformed options pv (st st' : State World Session) :
  Provision keys p options st = (Return pv, st') ->
  exists pvc',
    UnmarshalMap_pvAnnotations (pv_Annotations pv) =
      Ok {| pva_pvcAnnotations := pvc';
            pva_SecretNamespace := claim_Namespace (vo_PVC options) |} /\
    pvc_Bucket pvc' <> "" /\
    (pvc_AutoDeleteBucket pvc' = true ->
     pvc_AutoCreateBucket pvc' = true /\
     exists id, pvc_Bucket pvc' = "tmp-s3fs-" ++ id) /\
    (pvc_AutoCreateBucket pvc' = true -> pvc_ObjectPath pvc' = "").
Proof.
  intros Hrun. unfold Provision in Hrun.
  destruct (UnmarshalMap_pvcAnnotations _) as [pvc | err]; [| discriminate Hrun].
  destruct (UnmarshalMap_scOptions _) as [sc | err]; [| discriminate Hrun].
  apply Provision_Return in Hrun as (sc' & pvc' & st1 & _ & Hpol & _ & Hvol).
  apply Provision_policy_Return_cases in Hpol as [Hvalid Hcases].
  apply Provision_volume_Ok in Hvol as (_ & _ & _ & Hannots).
  apply UnmarshalMap_MarshalToMap_pvAnnotations in Hannots.
  destruct (valid_facts _ Hvalid) as (Hpath & Hbucket & Hdel).
  exists pvc'. split; [done |].
  destruct Hcases as [(Hd & -> & _) | (Hd & id & -> & _)]; struct_simpl.
  - split; [by apply Hbucket |]. split; [congruence |].
    intros Hc. by apply String.eqb_eq, Hpath.
  - destruct (Hdel Hd) as [Hc _].
    split; [discriminate |].
    split; [intros _; split; [done | by exists id] |].
    intros _. by apply String.eqb_eq, Hpath.
Qed.

(** X13. Teardown deletes nothing that provisioning did not create: a
    bucket that [Delete] deletes for a volume returned by [Provision]
    has a generated name ([tmp-s3fs-] and a token) and was created by a
    call of that very [Provision]. *)
Theorem Delete_deletes_created_bucket options pv out
    (st st' st2 st3 : State World Session) :
  Provision keys p options st = (Return pv, st') ->
  Delete keys p pv st2 = (out, st3) ->
  exists created evs,
    st'.2 = (st.2 ++ created)%list /\
    st3.2 = (st2.2 ++ evs)%list /\
    forall sess bucket,
      In (EvDeleteBucket sess bucket) evs ->
      (exists id, bucket = "tmp-s3fs-" ++ id) /\
      exists sess0, In (EvCreateBucket sess0 bucket) created.
Proof.
  intros Hrun Hdelete. unfold Provision in Hrun.
  destruct (UnmarshalMap_pvcAnnotations _) as [pvc | err]; [| discriminate Hrun].
  destruct (UnmarshalMap_scOptions _) as [sc | err]; [| discriminate Hrun].
  apply Provision_Return in Hrun as (sc' & pvc' & st1 & _ & Hpol & Hlife & Hvol).
  apply Provision_policy_Return_cases in Hpol as [Hvalid Hcases].
  apply Provision_volume_Ok in Hvol as (flexVolume & Hfv & _ & Hannots).
  apply UnmarshalMap_MarshalToMap_pvAnnotations in Hannots.
  rewrite (Delete_parsed _ _ _ _ Hfv Hannots) in Hdelete.
  cbn [pva_pvcAnnotations] in Hdelete.
  destruct (valid_facts _ Hvalid) as (_ & _ & Hdel).
  destruct Hcases as [(Hd & -> & ->) | (Hd & id & -> & Htr1)]; struct_simpl.
  - rewrite Hd in Hdelete. injection Hdelete as _ <-.
    destruct (Provision_lifecycle_trace _ _ _ _ _ _ Hlife) as (created & Hcreated & _).
    exists created, []. rewrite app_nil_r.
    split; [done |]. split; [done |]. by intros sess bucket [].
  - rewrite Hd in Hdelete. destruct (Hdel Hd) as [Hc _].
    assert (Hval : valBucket (set_pvc_Bucket ("tmp-s3fs-" ++ id) pvc) = true).
    { unfold valBucket. struct_simpl. by rewrite Hc, andb_false_r. }
    apply (Provision_lifecycle_Return _ _ _ _ _ Hval) in Hlife
      as (creds & sess0 & _ & Htrace).
    struct_simpl. rewrite Hc, Htr1, <- app_assoc in Htrace.
    eexists.
    assert (Hst3 : st3 = (deleteBucket keys p
                            {| pva_pvcAnnotations :=
                                 set_pvc_Bucket ("tmp-s3fs-" ++ id) pvc;
                               pva_SecretNamespace :=
                                 claim_Namespace (vo_PVC options) |}
                            (map_get (fv_Options flexVolume) "object-store-endpoint")
                            (map_get (fv_Options flexVolume)
                               "object-store-storage-class")
                            (map_get (fv_Options flexVolume) "iam-endpoint")
                            st2).2).
    { rewrite <- (wrap_error_state CannotDeleteBucket). by rewrite Hdelete. }
    destruct (deleteBucket keys p _ _ _ _ st2) as [out2 st4] eqn:Hdb.
    cbn [snd] in Hst3. subst st4.
    apply deleteBucket_trace in Hdb.
    cbn [pva_pvcAnnotations pva_SecretNamespace] in Hdb. struct_simpl.
    destruct Hdb as [[Htr3 _] | (creds3 & sess3 & _ & Htr3 & _)];
      eexists; (split; [exact Htrace |]); (split; [exact Htr3 |]);
      intros sess bucket Hin.
    + by destruct Hin as [Hin | []].
    + destruct Hin as [Hin | [Hin | [Hin | []]]]; try discriminate Hin.
      injection Hin as _ <-. split; [by exists id |].
      exists sess0. cbn [app In]. auto 10.
Qed.

(** X14. The outcomes of [Delete].  It panics exactly on a volume
    without a FlexVolume source.  It fails either on a descriptor that
    does not parse, before any call, or - with auto-delete on - when the
    credentials do not resolve, and then no session is opened and
    nothing is deleted, or when the backend refuses the deletion.  It
    returns success either with auto-delete off, having called nothing,
    or after the backend deleted the bucket. *)
Theorem Delete_outcomes pv out (st st' : State World Session) :
  Delete keys p pv st = (out, st') ->
  (out = Panic <-> pv_FlexVolume pv = None) /\
  (forall err,
     out = Fail err ->
     (exists cause,
        UnmarshalMap_pvAnnotations (pv_Annotations pv) = Err cause /\
        err = CannotUnmarshalPV cause /\ st' = st) \/
     (exists pvAnnots cause,
        UnmarshalMap_pvAnnotations (pv_Annotations pv) = Ok pvAnnots /\
        pvc_AutoDeleteBucket (pva_pvcAnnotations pvAnnots) = true /\
        err = CannotDeleteBucket cause /\
        let get :=
          EvSecretsGet (pva_SecretNamespace pvAnnots)
            (pvc_SecretName (pva_pvcAnnotations pvAnnots)) in
        ((exists cause', cause = CannotGetCredentials cause' /\
                         st'.2 = (st.2 ++ [get])%list) \/
         (exists endpoint region creds sess,
            st'.2 =
              (st.2 ++
               [get; EvNewObjectStorageSession endpoint region creds;
                EvDeleteBucket sess
                  (pvc_Bucket (pva_pvcAnnotations pvAnnots))])%list)))) /\
  (out = Return tt ->
   exists pvAnnots,
     UnmarshalMap_pvAnnotations (pv_Annotations pv) = Ok pvAnnots /\
     ((pvc_AutoDeleteBucket (pva_pvcAnnotations pvAnnots) = false /\ st' = st) \/
      (pvc_AutoDeleteBucket (pva_pvcAnnotations pvAnnots) = true /\
       exists endpoint region creds sess,
         st'.2 =
           (st.2 ++
            [EvSecretsGet (pva_SecretNamespace pvAnnots)
               (pvc_SecretName (pva_pvcAnnotations pvAnnots));
             EvNewObjectStorageSession endpoint region creds;
             EvDeleteBucket sess
               (pvc_Bucket (pva_pvcAnnotations pvAnnots))])%list))).
Proof.
  unfold Delete.
  destruct (pv_FlexVolume pv) as [flexVolume |] eqn:Hfv.
  2: { intros [= <- <-]. repeat split; try done. }
  destruct (UnmarshalMap_pvAnnotations (pv_Annotations pv))
    as [pvAnnots | cause] eqn:Hparse.
  2: { intros [= <- <-]. repeat split; try done.
       intros err [= <-]. left. eauto. }
  destruct (pvc_AutoDeleteBucket (pva_pvcAnnotations pvAnnots)) eqn:Hd.
  2: { intros [= <- <-]. repeat split; try done. intros _. eauto. }
  unfold wrap_error.
  destruct (deleteBucket keys p pvAnnots _ _ _ st) as [out0 st0] eqn:Hdb.
  apply deleteBucket_trace in Hdb. cbv zeta in Hdb.
  destruct Hdb as [[Htr (cause & ->)] | (creds & sess & _ & Htr & Hout)].
  - intros [= <- <-]. repeat split; try done.
    intros err [= <-]. right. exists pvAnnots. eexists.
    repeat split; try done. left. eauto.
  - destruct Hout as [-> | [cause ->]]; intros [= <- <-]; repeat split; try done.
    + intros _. exists pvAnnots. split; [done |]. right. eauto 10.
    + intros err [= <-]. right. exists pvAnnots, cause.
      repeat split; try done. right. eauto 10.
Qed.

(** X15. With validation off and no object path, a claim that violates
    no rule and whose configuration resolves is provisioned without a
    single call: [Provision] returns the volume and leaves the state as
    it found it. *)
Theorem Provision_unvalidated_succeeds options pvc sc sc'
    (st : State World Session) :
  UnmarshalMap_pvcAnnotations (claim_Annotations (vo_PVC options)) = Ok pvc ->
  UnmarshalMap_scOptions (vo_Parameters options) = Ok sc ->
  Provision_resolve pvc sc = Ok sc' ->
  first_violated pvc = None ->
  valBucket pvc = false ->
  pvc_ObjectPath pvc = "" ->
  exists pv,
    Provision keys p options st = (Return pv, st) /\
    Provision_volume options pvc sc' = Ok pv.
Proof.
  intros Hpvc Hsc Hres Hvalid Hval Hpath.
  rewrite (Provision_after_unmarshal _ _ _ Hpvc Hsc).
  assert (Hdel : pvc_AutoDeleteBucket pvc = false).
  { destruct (valid_facts _ Hvalid) as (_ & _ & Hd).
    destruct (pvc_AutoDeleteBucket pvc); [| done].
    destruct (Hd eq_refl) as [Hc _]. revert Hval. unfold valBucket.
    by rewrite Hc, andb_false_r. }
  pose proof (Provision_policy_valid pvc st Hvalid) as Hpol.
  rewrite Hdel in Hpol.
  rewrite (Provision_stages _ _ _ _ _ _ _ Hres Hpol).
  rewrite (Provision_lifecycle_unvalidated _ _ _ _ Hval), Hpath.
  cbn [String.eqb negb].
  destruct (Provision_volume_total options pvc sc') as [pv Hpv].
  exists pv. by rewrite Hpv.
Qed.

End Properties.

(** ** The claims on the fake object store *)

Example Provision_generated_bucket :
  Provision fake_keys fake (request generated_annotations class_parameters)
    (fake_start [])
  = (Return provisioned_volume, provisioned_state).
Proof. vm_compute. reflexivity. Qed.

Example Delete_generated_bucket :
  Delete fake_keys fake provisioned_volume provisioned_state
  = (Return tt,
     ({| fw_buckets := []; fw_tokens := 1 |},
      (provisioned_state.2 ++
       [EvSecretsGet "ns1" "s1";
        EvNewObjectStorageSession "https://s3.example.com" "standard"
          hmac_credentials;
        EvDeleteBucket (fake_session "https://s3.example.com" hmac_credentials)
          "tmp-s3fs-0"])%list)).
Proof. vm_compute. reflexivity. Qed.

(** C7 on a claim with auto-create and an object path: refused with the
    error of the first rule, nothing called. *)
Lemma policy_violation_refused_witness :
  UnmarshalMap_pvcAnnotations path_with_create_annotations
    = Ok (plain_claim true false "b1" "data/" "s1" "") /\
  violates ObjectPathNeedsExistingBucket
    (plain_claim true false "b1" "data/" "s1" "") = true /\
  Provision fake_keys fake (request path_with_create_annotations class_parameters)
    (fake_start [])
  = (Fail (ObjectPathWithAutoCreate "data/"), fake_start []).
Proof.
  assert (H1 : UnmarshalMap_pvcAnnotations path_with_create_annotations
                 = Ok (plain_claim true false "b1" "data/" "s1" ""))
    by (vm_compute; reflexivity).
  assert (H2 : violates ObjectPathNeedsExistingBucket
                 (plain_claim true false "b1" "data/" "s1" "") = true)
    by reflexivity.
  split; [exact H1 |]. split; [exact H2 |].
  destruct (policy_violation_refused fake_keys fake
              (request path_with_create_annotations class_parameters)
              _ _ (fake_start []) H1 H2)
    as [_ (r' & Hfirst & _ & _ & _ & Hrun)].
  vm_compute in Hfirst. injection Hfirst as <-.
  apply (Hrun class_options class_options); vm_compute; reflexivity.
Defined.

(** C8 on a class whose IAM endpoint has no scheme. *)
Lemma endpoint_scheme_required_witness :
  UnmarshalMap_pvcAnnotations unvalidated_annotations
    = Ok (plain_claim false false "b1" "" "s1" "no") /\
  UnmarshalMap_scOptions class_parameters_bare_iam
    = Ok (set_sc_IAMEndpoint "iam.example.com" class_options) /\
  Provision fake_keys fake (request unvalidated_annotations class_parameters_bare_iam)
    (fake_start [])
  = (Fail (BadIAMEndpoint "iam.example.com"), fake_start []).
Proof.
  assert (H1 : UnmarshalMap_pvcAnnotations unvalidated_annotations
                 = Ok (plain_claim false false "b1" "" "s1" "no"))
    by (vm_compute; reflexivity).
  assert (H2 : UnmarshalMap_scOptions class_parameters_bare_iam
                 = Ok (set_sc_IAMEndpoint "iam.example.com" class_options))
    by (vm_compute; reflexivity).
  split; [exact H1 |]. split; [exact H2 |].
  destruct (endpoint_scheme_required fake_keys fake
              (request unvalidated_annotations class_parameters_bare_iam)
              _ _ (fake_start []) H1 H2) as (_ & Hiam & _).
  apply Hiam; reflexivity.
Defined.


(** C3 on a claim with auto-create, auto-delete and no bucket name. *)
Lemma bucket_name_generation_witness :
  UnmarshalMap_pvcAnnotations generated_annotations
    = Ok (plain_claim true true "" "" "s1" "") /\
  first_violated (plain_claim true true "" "" "s1" "") = None /\
  Provision_policy fake (plain_claim true true "" "" "s1" "") (fake_start [])
  = (Return (plain_claim true true "tmp-s3fs-0" "" "s1" ""),
     ({| fw_buckets := []; fw_tokens := 1 |}, [EvUUIDNew])) /\
  map_get (pv_Annotations provisioned_volume) "ibm.io/bucket" = "tmp-s3fs-0".
Proof.
  assert (H1 : UnmarshalMap_pvcAnnotations generated_annotations
                 = Ok (plain_claim true true "" "" "s1" ""))
    by (vm_compute; reflexivity).
  assert (H2 : first_violated (plain_claim true true "" "" "s1" "") = None)
    by reflexivity.
  split; [exact H1 |]. split; [exact H2 |].
  destruct (bucket_name_generation fake_keys fake
              (request generated_annotations class_parameters)
              _ (fake_start []) H1) as (Hgen & Hvol & _ & _).
  split.
  - specialize (Hgen H2 eq_refl eq_refl). vm_compute in Hgen. vm_compute.
    exact Hgen.
  - destruct (Hvol provisioned_volume provisioned_state)
      as (id & w' & Hid & Hbucket);
      [vm_compute; reflexivity | reflexivity | reflexivity |].
    vm_compute in Hid. injection Hid as <- _. vm_compute in Hbucket.
    vm_compute. exact Hbucket.
Defined.

(** C4 on a claim for bucket [b1] with object path [data/] and
    validation switched off. *)
Lemma object_path_check_on_nil_session_witness :
  UnmarshalMap_pvcAnnotations unvalidated_path_annotations
    = Ok (plain_claim false false "b1" "data/" "s1" "no") /\
  UnmarshalMap_scOptions class_parameters = Ok class_options /\
  Provision_resolve (plain_claim false false "b1" "data/" "s1" "no") class_options
    = Ok class_options /\
  first_violated (plain_claim false false "b1" "data/" "s1" "no") = None /\
  Provision fake_keys fake (request unvalidated_path_annotations class_parameters)
    (fake_start ["b1"])
  = (Panic, fake_start ["b1"]).
Proof.
  assert (H1 : UnmarshalMap_pvcAnnotations unvalidated_path_annotations
                 = Ok (plain_claim false false "b1" "data/" "s1" "no"))
    by (vm_compute; reflexivity).
  assert (H2 : UnmarshalMap_scOptions class_parameters = Ok class_options)
    by (vm_compute; reflexivity).
  assert (H3 : Provision_resolve (plain_claim false false "b1" "data/" "s1" "no")
                 class_options = Ok class_options)
    by (vm_compute; reflexivity).
  split; [exact H1 |]. split; [exact H2 |]. split; [exact H3 |].
  destruct (object_path_check_on_nil_session fake_keys fake
              (request unvalidated_path_annotations class_parameters)
              _ _ _ (fake_start ["b1"]) H1 H2 H3
              ltac:(discriminate) eq_refl eq_refl eq_refl ltac:(discriminate))
    as (Hvalid & _ & Hpanic).
  split; [exact Hvalid | exact Hpanic].
Defined.

(** C6 on a claim with validation switched off, without and with
    auto-create. *)
Lemma access_check_decision_witness :
  (UnmarshalMap_pvcAnnotations unvalidated_annotations
     = Ok (plain_claim false false "b1" "" "s1" "no") /\
   valBucket (plain_claim false false "b1" "" "s1" "no") = false /\
   (Provision fake_keys fake (request unvalidated_annotations class_parameters)
      (fake_start [])).2 = fake_start []) /\
  (UnmarshalMap_pvcAnnotations unvalidated_create_annotations
     = Ok (plain_claim true true "" "" "s1" "no") /\
   UnmarshalMap_scOptions class_parameters = Ok class_options /\
   Provision fake_keys fake
     (request unvalidated_create_annotations class_parameters) (fake_start [])
   = (Return (persisted_volume
                (<[ "ibm.io/validate-bucket" := "no" ]> generated_descriptor)
                generated_mount_options),
      provisioned_state) /\
   exists creds sess bucket,
     provisioned_state.2 =
       [EvUUIDNew; EvSecretsGet "ns1" "s1";
        EvNewObjectStorageSession "https://s3.example.com" "standard" creds;
        EvCreateBucket sess bucket; EvCheckBucketAccess sess bucket]).
Proof.
  split.
  - assert (H1 : UnmarshalMap_pvcAnnotations unvalidated_annotations
                   = Ok (plain_claim false false "b1" "" "s1" "no"))
      by (vm_compute; reflexivity).
    assert (H2 : valBucket (plain_claim false false "b1" "" "s1" "no") = false)
      by reflexivity.
    split; [exact H1 |]. split; [exact H2 |].
    destruct (access_check_decision fake_keys fake
                (request unvalidated_annotations class_parameters)
                _ (fake_start []) H1) as (_ & Hskip & _).
    exact (Hskip H2).
  - assert (H1 : UnmarshalMap_pvcAnnotations unvalidated_create_annotations
                   = Ok (plain_claim true true "" "" "s1" "no"))
      by (vm_compute; reflexivity).
    assert (H2 : UnmarshalMap_scOptions class_parameters = Ok class_options)
      by (vm_compute; reflexivity).
    assert (H3 : Provision fake_keys fake
                   (request unvalidated_create_annotations class_parameters)
                   (fake_start [])
                 = (Return (persisted_volume
                      (<[ "ibm.io/validate-bucket" := "no" ]> generated_descriptor)
                      generated_mount_options),
                    provisioned_state))
      by (vm_compute; reflexivity).
    split; [exact H1 |]. split; [exact H2 |]. split; [exact H3 |].
    destruct (access_check_decision fake_keys fake
                (request unvalidated_create_annotations class_parameters)
                _ (fake_start []) H1) as (_ & _ & Hforced).
    destruct (Hforced eq_refl eq_refl) as [_ Htrace].
    exact (Htrace _ _ _ H2 H3).
Defined.

(** C5 (as amended) on bucket [b1] and the secret that holds an API key
    only: the create path is refused, the validate-only path returns the
    volume. *)
Lemma service_instance_required_on_create_witness :
  (secret_Data api_key_only_secret !! SecretAPIKey fake_keys = Some "KEY" /\
   secret_Data api_key_only_secret !! SecretServiceInstanceID fake_keys = None) /\
  Provision fake_keys fake (request key_only_create_annotations class_parameters)
    (fake_start [])
  = (Fail APIKeyWithoutServiceInstanceID,
     ({| fw_buckets := []; fw_tokens := 0 |},
      [EvSecretsGet "ns1" "keyonly";
       EvNewObjectStorageSession "https://s3.example.com" "standard"
         key_only_credentials])) /\
  exists pv,
    Provision fake_keys fake (request key_only_validate_annotations class_parameters)
      (fake_start ["b1"])
    = (Return pv,
       ({| fw_buckets := ["b1"]; fw_tokens := 0 |},
        [EvSecretsGet "ns1" "keyonly";
         EvNewObjectStorageSession "https://s3.example.com" "standard"
           key_only_credentials;
         EvCheckBucketAccess
           (fake_session "https://s3.example.com" key_only_credentials) "b1"])).
Proof.
  assert (Hkey : secret_Data api_key_only_secret !! SecretAPIKey fake_keys
                 = Some "KEY") by (vm_compute; reflexivity).
  assert (Hsid : secret_Data api_key_only_secret
                   !! SecretServiceInstanceID fake_keys = None)
    by (vm_compute; reflexivity).
  assert (Hsc : UnmarshalMap_scOptions class_parameters = Ok class_options)
    by (vm_compute; reflexivity).
  split; [split; [exact Hkey | exact Hsid] |]. split.
  - assert (H1 : UnmarshalMap_pvcAnnotations key_only_create_annotations
                   = Ok (plain_claim true false "b1" "" "keyonly" ""))
      by (vm_compute; reflexivity).
    destruct (service_instance_required_on_create fake_keys fake
                (request key_only_create_annotations class_parameters)
                (plain_claim true false "b1" "" "keyonly" "")
                class_options class_options
                (plain_claim true false "b1" "" "keyonly" "")
                api_key_only_secret "KEY"
                {| fw_buckets := []; fw_tokens := 0 |}
                (fake_session "https://s3.example.com" key_only_credentials)
                {| fw_buckets := []; fw_tokens := 0 |}
                (fake_start []) (fake_start [])
                H1 Hsc ltac:(vm_compute; reflexivity)
                ltac:(vm_compute; reflexivity) eq_refl
                ltac:(vm_compute; reflexivity) Hkey Hsid eq_refl)
      as (_ & Hcreate & _).
    destruct (Hcreate eq_refl ltac:(discriminate)) as [Hrun _].
    exact Hrun.
  - assert (H1 : UnmarshalMap_pvcAnnotations key_only_validate_annotations
                   = Ok (plain_claim false false "b1" "" "keyonly" ""))
      by (vm_compute; reflexivity).
    destruct (service_instance_required_on_create fake_keys fake
                (request key_only_validate_annotations class_parameters)
                (plain_claim false false "b1" "" "keyonly" "")
                class_options class_options
                (plain_claim false false "b1" "" "keyonly" "")
                api_key_only_secret "KEY"
                {| fw_buckets := ["b1"]; fw_tokens := 0 |}
                (fake_session "https://s3.example.com" key_only_credentials)
                {| fw_buckets := ["b1"]; fw_tokens := 0 |}
                (fake_start ["b1"]) (fake_start ["b1"])
                H1 Hsc ltac:(vm_compute; reflexivity)
                ltac:(vm_compute; reflexivity) eq_refl
                ltac:(vm_compute; reflexivity) Hkey Hsid eq_refl)
      as (_ & _ & Hvalidate).
    destruct (Hvalidate eq_refl eq_refl {| fw_buckets := ["b1"]; fw_tokens := 0 |}
                ltac:(vm_compute; reflexivity)) as [pv Hrun].
    exists pv. exact Hrun.
Defined.

(** C5 as stated fails on a secret whose API-key field is present and
    empty, with no service-instance-id field: a provision with
    auto-create is not refused, the bucket is created and the volume
    returned. *)
Lemma empty_api_key_creates_bucket :
  secret_Data empty_api_key_secret !! SecretAPIKey fake_keys = Some "" /\
  secret_Data empty_api_key_secret !! SecretServiceInstanceID fake_keys = None /\
  fake_secrets !! "ns1/emptykey" = Some empty_api_key_secret /\
  UnmarshalMap_pvcAnnotations empty_key_create_annotations
    = Ok (plain_claim true false "b1" "" "emptykey" "") /\
  exists pv,
    Provision fake_keys fake (request empty_key_create_annotations class_parameters)
      (fake_start [])
    = (Return pv,
       ({| fw_buckets := ["b1"]; fw_tokens := 0 |},
        [EvSecretsGet "ns1" "emptykey";
         EvNewObjectStorageSession "https://s3.example.com" "standard"
           empty_key_credentials;
         EvCreateBucket
           (fake_session "https://s3.example.com" empty_key_credentials) "b1";
         EvCheckBucketAccess
           (fake_session "https://s3.example.com" empty_key_credentials) "b1"])).
Proof.
  repeat split; try (vm_compute; reflexivity).
  eexists. vm_compute. reflexivity.
Qed.

(** C10 on the volume whose bucket is kept. *)
Lemma Delete_without_auto_delete_witness :
  UnmarshalMap_pvAnnotations (pv_Annotations kept_volume) = Ok kept_pvAnnotations /\
  Delete fake_keys fake kept_volume (fake_start ["b1"])
  = (Return tt, fake_start ["b1"]).
Proof.
  assert (H1 : UnmarshalMap_pvAnnotations (pv_Annotations kept_volume)
                 = Ok kept_pvAnnotations) by (vm_compute; reflexivity).
  split; [exact H1 |].
  destruct (Delete_without_auto_delete fake_keys fake kept_volume
              _ _ (fake_start ["b1"]) eq_refl H1) as (Hnoop & _ & _).
  exact (Hnoop eq_refl).
Defined.

(** C2 (as amended) on two volumes that differ in the [bucket] and
    [chunk-size-mb] options. *)
Lemma Delete_reads_three_options_witness :
  pv_Annotations generated_volume = pv_Annotations generated_volume_retuned /\
  pv_FlexVolume generated_volume <> pv_FlexVolume generated_volume_retuned /\
  Delete fake_keys fake generated_volume (fake_start ["tmp-s3fs-0"])
  = Delete fake_keys fake generated_volume_retuned (fake_start ["tmp-s3fs-0"]).
Proof.
  split; [reflexivity |]. split.
  - intros H. vm_compute in H. discriminate H.
  - apply (Delete_reads_three_options fake_keys fake
             generated_volume generated_volume_retuned _ _
             (fake_start ["tmp-s3fs-0"]) eq_refl eq_refl eq_refl).
    left. repeat split; vm_compute; reflexivity.
Defined.

(** C2 as stated fails: two volumes with identical annotations whose
    options differ in [object-store-endpoint] make [Delete] open its
    session on different endpoints. *)
Lemma Delete_depends_on_mount_options :
  pv_Annotations generated_volume = pv_Annotations generated_volume_elsewhere /\
  (Delete fake_keys fake generated_volume (fake_start ["tmp-s3fs-0"])).2.2
  = [EvSecretsGet "ns1" "s1";
     EvNewObjectStorageSession "https://s3.example.com" "standard"
       hmac_credentials;
     EvDeleteBucket (fake_session "https://s3.example.com" hmac_credentials)
       "tmp-s3fs-0"] /\
  (Delete fake_keys fake generated_volume_elsewhere (fake_start ["tmp-s3fs-0"])).2.2
  = [EvSecretsGet "ns1" "s1";
     EvNewObjectStorageSession "https://s3.elsewhere.example" "standard"
       hmac_credentials;
     EvDeleteBucket (fake_session "https://s3.elsewhere.example" hmac_credentials)
       "tmp-s3fs-0"] /\
  ~ (forall (pv1 pv2 : PersistentVolume) (st : State FakeWorld FakeSession),
       pv_Annotations pv1 = pv_Annotations pv2 ->
       Delete fake_keys fake pv1 st = Delete fake_keys fake pv2 st).
Proof.
  split; [reflexivity |].
  split; [vm_compute; reflexivity |].
  split; [vm_compute; reflexivity |].
  intros H.
  specialize (H generated_volume generated_volume_elsewhere
                (fake_start ["tmp-s3fs-0"]) eq_refl).
  vm_compute in H. discriminate H.
Qed.

(** C1 (as amended) on the claim with a generated bucket. *)
Lemma teardown_reconstructed_from_volume_witness :
  Provision fake_keys fake (request generated_annotations class_parameters)
    (fake_start [])
  = (Return provisioned_volume, provisioned_state) /\
  UnmarshalMap_pvAnnotations (pv_Annotations provisioned_volume)
    = Ok generated_pvAnnotations /\
  exists flexVolume,
    pv_FlexVolume provisioned_volume = Some flexVolume /\
    map_get (fv_Options flexVolume) "object-store-endpoint"
      = "https://s3.example.com" /\
    map_get (fv_Options flexVolume) "object-store-storage-class" = "standard" /\
    map_get (fv_Options flexVolume) "iam-endpoint" = "https://iam.example.com".
Proof.
  assert (H1 : Provision fake_keys fake
                 (request generated_annotations class_parameters) (fake_start [])
               = (Return provisioned_volume, provisioned_state))
    by (vm_compute; reflexivity).
  split; [exact H1 |].
  destruct (teardown_reconstructed_from_volume fake_keys fake _ _ _ _ H1)
    as (pvc & sc & sc' & pvc' & flexVolume & Hpvc & Hsc & _ & Hpvc' & Hparse
        & Hfv & HE & HR & HI & _).
  vm_compute in Hpvc. injection Hpvc as <-.
  vm_compute in Hsc. injection Hsc as <-.
  split.
  - destruct Hpvc' as [-> | [id ->]].
    + vm_compute in Hparse. discriminate Hparse.
    + pose proof Hparse as Hid. vm_compute in Hid. injection Hid as Hid.
      rewrite Hparse, <- Hid. reflexivity.
  - exists flexVolume. split; [exact Hfv |].
    split; [exact HE |]. split; [exact HR | exact HI].
Defined.

(** C1 as stated fails: the descriptor of the provisioned volume parses
    back with empty endpoint, region and IAM endpoint, while the
    teardown of that volume opens its session on the resolved endpoint,
    region and IAM endpoint, which it finds in the mount-driver
    options. *)
Lemma descriptor_lacks_resolved_endpoints :
  Provision fake_keys fake (request generated_annotations class_parameters)
    (fake_start [])
  = (Return provisioned_volume, provisioned_state) /\
  UnmarshalMap_pvAnnotations (pv_Annotations provisioned_volume)
    = Ok generated_pvAnnotations /\
  pvc_Endpoint (pva_pvcAnnotations generated_pvAnnotations) = "" /\
  pvc_Region (pva_pvcAnnotations generated_pvAnnotations) = "" /\
  pvc_IAMEndpoint (pva_pvcAnnotations generated_pvAnnotations) = "" /\
  (Delete fake_keys fake provisioned_volume (fake_start ["tmp-s3fs-0"])).2.2
  = [EvSecretsGet "ns1" "s1";
     EvNewObjectStorageSession "https://s3.example.com" "standard"
       {| cred_AccessKey := "AK"; cred_SecretKey := "SK"; cred_APIKey := "";
          cred_ServiceInstanceID := "";
          cred_IAMEndpoint := "https://iam.example.com" |};
     EvDeleteBucket (fake_session "https://s3.example.com" hmac_credentials)
       "tmp-s3fs-0"] /\
  (Delete fake_keys fake
     (persisted_volume (pv_Annotations provisioned_volume) ∅)
     (fake_start ["tmp-s3fs-0"])).2.2
  = [EvSecretsGet "ns1" "s1";
     EvNewObjectStorageSession "" ""
       {| cred_AccessKey := "AK"; cred_SecretKey := "SK"; cred_APIKey := "";
          cred_ServiceInstanceID := ""; cred_IAMEndpoint := "" |};
     EvDeleteBucket
       {| fs_endpoint := ""; fs_region := "";
          fs_creds :=
            {| cred_AccessKey := "AK"; cred_SecretKey := "SK"; cred_APIKey := "";
               cred_ServiceInstanceID := ""; cred_IAMEndpoint := "" |} |}
       "tmp-s3fs-0"].
Proof.
  repeat split; vm_compute; reflexivity.
Qed.

(** ** The further properties on the fake object store *)

(** X1 on the secret with an access key and a secret key. *)
Lemma getCredentials_key_pair_witness :
  Client_Secrets_Get fake "ns1" "s1" (fake_start []).1
    = (Ok hmac_secret, (fake_start []).1) /\
  secret_Data hmac_secret !! SecretAPIKey fake_keys = None /\
  getCredentials fake_keys fake "s1" "ns1" (fake_start [])
  = (Return {| cred_AccessKey := "AK"; cred_SecretKey := "SK"; cred_APIKey := "";
               cred_ServiceInstanceID := ""; cred_IAMEndpoint := "" |},
     ((fake_start []).1, [EvSecretsGet "ns1" "s1"])).
Proof.
  assert (H1 : Client_Secrets_Get fake "ns1" "s1" (fake_start []).1
               = (Ok hmac_secret, (fake_start []).1)) by (vm_compute; reflexivity).
  assert (H2 : secret_Data hmac_secret !! SecretAPIKey fake_keys = None)
    by (vm_compute; reflexivity).
  split; [exact H1 |]. split; [exact H2 |].
  pose proof (getCredentials_key_pair fake_keys fake "s1" "ns1" hmac_secret _
                (fake_start []) H1 H2) as Hrun.
  vm_compute in Hrun. vm_compute. exact Hrun.
Defined.

(** X2 on the secret with an API key and a service instance. *)
Lemma getCredentials_api_key_precedence_witness :
  Client_Secrets_Get fake "ns1" "iam" (fake_start []).1
    = (Ok iam_secret, (fake_start []).1) /\
  secret_Data iam_secret !! SecretAPIKey fake_keys = Some "KEY" /\
  getCredentials fake_keys fake "iam" "ns1" (fake_start [])
  = (Return {| cred_AccessKey := ""; cred_SecretKey := ""; cred_APIKey := "KEY";
               cred_ServiceInstanceID := "SID"; cred_IAMEndpoint := "" |},
     ((fake_start []).1, [EvSecretsGet "ns1" "iam"])).
Proof.
  assert (H1 : Client_Secrets_Get fake "ns1" "iam" (fake_start []).1
               = (Ok iam_secret, (fake_start []).1)) by (vm_compute; reflexivity).
  assert (H2 : secret_Data iam_secret !! SecretAPIKey fake_keys = Some "KEY")
    by (vm_compute; reflexivity).
  split; [exact H1 |]. split; [exact H2 |].
  pose proof (getCredentials_api_key_precedence fake_keys fake "iam" "ns1"
                iam_secret "KEY" _ (fake_start []) H1 H2) as Hrun.
  vm_compute in Hrun. vm_compute. exact Hrun.
Defined.

(** X3 on the credentials of secret [s1]. *)
Lemma getCredentials_one_shape_witness :
  getCredentials fake_keys fake "s1" "ns1" (fake_start [])
  = (Return {| cred_AccessKey := "AK"; cred_SecretKey := "SK"; cred_APIKey := "";
               cred_ServiceInstanceID := ""; cred_IAMEndpoint := "" |},
     ((fake_start []).1, [EvSecretsGet "ns1" "s1"])) /\
  ("" = "" /\ (("AK" = "" /\ "SK" = "") \/ ("" = "" /\ "" = ""))).
Proof.
  assert (H1 : getCredentials fake_keys fake "s1" "ns1" (fake_start [])
               = (Return {| cred_AccessKey := "AK"; cred_SecretKey := "SK";
                            cred_APIKey := ""; cred_ServiceInstanceID := "";
                            cred_IAMEndpoint := "" |},
                  ((fake_start []).1, [EvSecretsGet "ns1" "s1"])))
    by (vm_compute; reflexivity).
  split; [exact H1 |].
  exact (getCredentials_one_shape fake_keys fake _ _ _ _ _ H1).
Defined.

(** X4 on a secret that holds an access key only. *)
Lemma getCredentials_failures_witness :
  getCredentials fake_keys (fake_provisioner half_secrets) "half" "ns1" (fake_start [])
  = (Fail (SecretMissing "secret-key"),
     ((fake_start []).1, [EvSecretsGet "ns1" "half"])) /\
  [EvSecretsGet (Session := FakeSession) "ns1" "half"]
  = ([] ++ [EvSecretsGet "ns1" "half"])%list.
Proof.
  assert (H1 : getCredentials fake_keys (fake_provisioner half_secrets)
                 "half" "ns1" (fake_start [])
               = (Fail (SecretMissing "secret-key"),
                  ((fake_start []).1, [EvSecretsGet "ns1" "half"])))
    by (vm_compute; reflexivity).
  split; [exact H1 |].
  exact (proj1 (getCredentials_failures fake_keys (fake_provisioner half_secrets)
                  _ _ _ _ _ H1)).
Defined.

(** X6 on a claim whose [stat-cache-expire-seconds] is [-5]. *)
Lemma stat_cache_expire_checked_witness :
  UnmarshalMap_pvcAnnotations negative_expire_annotations = Ok negative_expire_claim /\
  UnmarshalMap_scOptions class_parameters = Ok class_options /\
  first_malformed negative_expire_claim = None /\
  Atoi "-5" = Ok (-5) /\
  Provision fake_keys fake (request negative_expire_annotations class_parameters)
    (fake_start [])
  = (Fail NegativeStatCacheExpire, fake_start []).
Proof.
  assert (H1 : UnmarshalMap_pvcAnnotations negative_expire_annotations
               = Ok negative_expire_claim) by (vm_compute; reflexivity).
  assert (H2 : UnmarshalMap_scOptions class_parameters = Ok class_options)
    by (vm_compute; reflexivity).
  assert (H3 : first_malformed negative_expire_claim = None) by reflexivity.
  assert (H4 : Atoi "-5" = Ok (-5)) by reflexivity.
  split; [exact H1 |]. split; [exact H2 |]. split; [exact H3 |].
  split; [exact H4 |].
  destruct (stat_cache_expire_checked fake_keys fake
              (request negative_expire_annotations class_parameters)
              _ _ (fake_start []) H1 H2 eq_refl eq_refl H3) as (_ & Hneg & _).
  apply (Hneg (-5) H4). lia.
Defined.

(** X7 on the provisioned volume. *)
Lemma driver_options_content_witness :
  Provision fake_keys fake (request generated_annotations class_parameters)
    (fake_start [])
  = (Return provisioned_volume, provisioned_state) /\
  exists d flexVolume,
    pv_FlexVolume provisioned_volume = Some flexVolume /\
    MarshalToMap_Options d = Ok (fv_Options flexVolume) /\
    do_DebugLevel d = "warn" /\
    do_CurlDebug d = false /\
    do_S3FSFUSERetryCount d = "5".
Proof.
  assert (H1 : UnmarshalMap_pvcAnnotations generated_annotations
               = Ok (plain_claim true true "" "" "s1" ""))
    by (vm_compute; reflexivity).
  assert (H2 : UnmarshalMap_scOptions class_parameters = Ok class_options)
    by (vm_compute; reflexivity).
  assert (H3 : Provision fake_keys fake
                 (request generated_annotations class_parameters) (fake_start [])
               = (Return provisioned_volume, provisioned_state))
    by (vm_compute; reflexivity).
  split; [exact H3 |].
  destruct (driver_options_content fake_keys fake
              (request generated_annotations class_parameters)
              _ _ _ _ _ H1 H2 H3)
    as (d & flexVolume & retry & Hfv & Hopts & _ & Hdebug & Hcurl & _ & _ & _
        & Hretry & [Hkeep _]).
  exists d, flexVolume. split; [exact Hfv |]. split; [exact Hopts |].
  split; [exact Hdebug |]. split; [exact Hcurl |].
  rewrite Hretry, (Hkeep eq_refl). vm_compute. reflexivity.
Defined.

(** X8 on the provisioned volume. *)
Lemma Provision_volume_shape_witness :
  UnmarshalMap_pvcAnnotations generated_annotations
    = Ok (plain_claim true true "" "" "s1" "") /\
  Provision fake_keys fake (request generated_annotations class_parameters)
    (fake_start [])
  = (Return provisioned_volume, provisioned_state) /\
  pv_Name provisioned_volume = "pv1" /\
  exists flexVolume,
    pv_FlexVolume provisioned_volume = Some flexVolume /\
    fv_Driver flexVolume = "ibm/ibmc-s3fs" /\
    fv_FSType flexVolume = "" /\
    fv_ReadOnly flexVolume = false /\
    fv_SecretRef flexVolume = Some {| sr_Name := "s1" |}.
Proof.
  assert (H1 : UnmarshalMap_pvcAnnotations generated_annotations
               = Ok (plain_claim true true "" "" "s1" ""))
    by (vm_compute; reflexivity).
  assert (H2 : Provision fake_keys fake
                 (request generated_annotations class_parameters) (fake_start [])
               = (Return provisioned_volume, provisioned_state))
    by (vm_compute; reflexivity).
  split; [exact H1 |]. split; [exact H2 |].
  destruct (Provision_volume_shape fake_keys fake
              (request generated_annotations class_parameters) _ _ _ _ H1 H2)
    as (Hname & _ & _ & _ & Hflex).
  split; [exact Hname | exact Hflex].
Defined.

(** X10 on the claim that is refused for its missing service instance:
    two calls were made. *)
Lemma Provision_fails_fast_witness :
  Provision fake_keys fake (request key_only_create_annotations class_parameters)
    (fake_start [])
  = (Fail APIKeyWithoutServiceInstanceID,
     ((fake_start []).1,
      [EvSecretsGet "ns1" "keyonly";
       EvNewObjectStorageSession "https://s3.example.com" "standard"
         key_only_credentials])) /\
  exists creds (sess : FakeSession),
    [EvSecretsGet "ns1" "keyonly";
     EvNewObjectStorageSession "https://s3.example.com" "standard"
       key_only_credentials]
    = ([] ++ take 2 (lifecycle_calls "ns1"
                       (plain_claim true false "b1" "" "keyonly" "")
                       class_options creds sess))%list.
Proof.
  assert (H1 : UnmarshalMap_pvcAnnotations key_only_create_annotations
               = Ok (plain_claim true false "b1" "" "keyonly" ""))
    by (vm_compute; reflexivity).
  assert (H2 : UnmarshalMap_scOptions class_parameters = Ok class_options)
    by (vm_compute; reflexivity).
  assert (H3 : Provision fake_keys fake
                 (request key_only_create_annotations class_parameters)
                 (fake_start [])
               = (Fail APIKeyWithoutServiceInstanceID,
                  ((fake_start []).1,
                   [EvSecretsGet "ns1" "keyonly";
                    EvNewObjectStorageSession "https://s3.example.com" "standard"
                      key_only_credentials])))
    by (vm_compute; reflexivity).
  split; [exact H3 |].
  destruct (Provision_fails_fast fake_keys fake
              (request key_only_create_annotations class_parameters)
              (plain_claim true false "b1" "" "keyonly" "")
              class_options class_options
              (plain_claim true false "b1" "" "keyonly" "") _
              (fake_start []) (fake_start []) _
              H1 H2 ltac:(vm_compute; reflexivity) ltac:(vm_compute; reflexivity)
              eq_refl H3)
    as [(err & Hout & _) | (creds & sess & n & _ & Hn & _ & Htrace)].
  - discriminate Hout.
  - cbn in Hn. injection Hn as <-. exists creds, sess. exact Htrace.
Defined.

(** X11 on the claim with a generated bucket. *)
Lemma Provision_calls_justified_witness :
  Provision fake_keys fake (request generated_annotations class_parameters)
    (fake_start [])
  = (Return provisioned_volume, provisioned_state) /\
  exists evs,
    provisioned_state.2 = ([] ++ evs)%list /\
    forall ev, In ev evs ->
      call_justified "ns1" (plain_claim true true "" "" "s1" "") class_options ev.
Proof.
  assert (H1 : UnmarshalMap_pvcAnnotations generated_annotations
               = Ok (plain_claim true true "" "" "s1" ""))
    by (vm_compute; reflexivity).
  assert (H2 : UnmarshalMap_scOptions class_parameters = Ok class_options)
    by (vm_compute; reflexivity).
  assert (H3 : Provision fake_keys fake
                 (request generated_annotations class_parameters) (fake_start [])
               = (Return provisioned_volume, provisioned_state))
    by (vm_compute; reflexivity).
  split; [exact H3 |].
  exact (Provision_calls_justified fake_keys fake
           (request generated_annotations class_parameters) _ _ _ _ _ H1 H2 H3).
Defined.

(** X12 on the provisioned volume. *)
Lemma persisted_descriptor_wellformed_witness :
  Provision fake_keys fake (request generated_annotations class_parameters)
    (fake_start [])
  = (Return provisioned_volume, provisioned_state) /\
  exists pvc',
    UnmarshalMap_pvAnnotations (pv_Annotations provisioned_volume) =
      Ok {| pva_pvcAnnotations := pvc'; pva_SecretNamespace := "ns1" |} /\
    pvc_Bucket pvc' <> "" /\
    (pvc_AutoDeleteBucket pvc' = true ->
     pvc_AutoCreateBucket pvc' = true /\
     exists id, pvc_Bucket pvc' = "tmp-s3fs-" ++ id) /\
    (pvc_AutoCreateBucket pvc' = true -> pvc_ObjectPath pvc' = "").
Proof.
  assert (H1 : Provision fake_keys fake
                 (request generated_annotations class_parameters) (fake_start [])
               = (Return provisioned_volume, provisioned_state))
    by (vm_compute; reflexivity).
  split; [exact H1 |].
  exact (persisted_descriptor_wellformed fake_keys fake _ _ _ _ H1).
Defined.

(** X13 on the provisioned volume and its teardown. *)
Lemma Delete_deletes_created_bucket_witness :
  Provision fake_keys fake (request generated_annotations class_parameters)
    (fake_start [])
  = (Return provisioned_volume, provisioned_state) /\
  Delete fake_keys fake provisioned_volume provisioned_state
  = (Return tt, torn_down_state) /\
  exists created evs,
    provisioned_state.2 = ([] ++ created)%list /\
    torn_down_state.2 = (provisioned_state.2 ++ evs)%list /\
    forall sess bucket,
      In (EvDeleteBucket sess bucket) evs ->
      (exists id, bucket = "tmp-s3fs-" ++ id) /\
      exists sess0, In (EvCreateBucket sess0 bucket) created.
Proof.
  assert (H1 : Provision fake_keys fake
                 (request generated_annotations class_parameters) (fake_start [])
               = (Return provisioned_volume, provisioned_state))
    by (vm_compute; reflexivity).
  assert (H2 : Delete fake_keys fake provisioned_volume provisioned_state
               = (Return tt, torn_down_state)) by (vm_compute; reflexivity).
  split; [exact H1 |]. split; [exact H2 |].
  exact (Delete_deletes_created_bucket fake_keys fake _ _ _ _ _ _ _ H1 H2).
Defined.

(** X14 on the teardown of the provisioned volume. *)
Lemma Delete_outcomes_witness :
  Delete fake_keys fake provisioned_volume provisioned_state
  = (Return tt, torn_down_state) /\
  exists pvAnnots,
    UnmarshalMap_pvAnnotations (pv_Annotations provisioned_volume) = Ok pvAnnots /\
    ((pvc_AutoDeleteBucket (pva_pvcAnnotations pvAnnots) = false /\
      torn_down_state = provisioned_state) \/
     (pvc_AutoDeleteBucket (pva_pvcAnnotations pvAnnots) = true /\
      exists endpoint region creds sess,
        torn_down_state.2 =
          (provisioned_state.2 ++
           [EvSecretsGet (pva_SecretNamespace pvAnnots)
              (pvc_SecretName (pva_pvcAnnotations pvAnnots));
            EvNewObjectStorageSession endpoint region creds;
            EvDeleteBucket sess
              (pvc_Bucket (pva_pvcAnnotations pvAnnots))])%list)).
Proof.
  assert (H1 : Delete fake_keys fake provisioned_volume provisioned_state
               = (Return tt, torn_down_state)) by (vm_compute; reflexivity).
  split; [exact H1 |].
  exact (proj2 (proj2 (Delete_outcomes fake_keys fake _ _ _ _ H1)) eq_refl).
Defined.

(** X5 on the plain claim over the class of the fixtures. *)
Lemma Provision_resolve_succeeds_iff_witness :
  exists sc',
    Provision_resolve (plain_claim false false "b1" "" "s1" "") class_options = Ok sc'.
Proof.
  apply (proj2 (Provision_resolve_succeeds_iff
                  (plain_claim false false "b1" "" "s1" "") class_options)).
  repeat split; try reflexivity. by left.
Defined.

(** X9 on the claim with an object path and validation switched off. *)
Lemma Provision_panics_iff_witness :
  Provision fake_keys fake (request unvalidated_path_annotations class_parameters)
    (fake_start ["b1"])
  = (Panic, fake_start ["b1"]).
Proof.
  apply (proj2 (Provision_panics_iff fake_keys fake
                  (request unvalidated_path_annotations class_parameters)
                  (fake_start ["b1"]) (fake_start ["b1"]))).
  split; [reflexivity |].
  exists (plain_claim false false "b1" "data/" "s1" "no"), class_options, class_options.
  repeat split; try (vm_compute; reflexivity). discriminate.
Defined.

(** X15 on the claim for bucket [b1] with validation switched off. *)
Lemma Provision_unvalidated_succeeds_witness :
  UnmarshalMap_pvcAnnotations unvalidated_annotations
    = Ok (plain_claim false false "b1" "" "s1" "no") /\
  UnmarshalMap_scOptions class_parameters = Ok class_options /\
  exists pv,
    Provision fake_keys fake (request unvalidated_annotations class_parameters)
      (fake_start [])
    = (Return pv, fake_start []) /\
    Provision_volume (request unvalidated_annotations class_parameters)
      (plain_claim false false "b1" "" "s1" "no") class_options = Ok pv.
Proof.
  assert (H1 : UnmarshalMap_pvcAnnotations unvalidated_annotations
               = Ok (plain_claim false false "b1" "" "s1" "no"))
    by (vm_compute; reflexivity).
  assert (H2 : UnmarshalMap_scOptions class_parameters = Ok class_options)
    by (vm_compute; reflexivity).
  split; [exact H1 |]. split; [exact H2 |].
  exact (Provision_unvalidated_succeeds fake_keys fake
           (request unvalidated_annotations class_parameters)
           _ _ class_options (fake_start [])
           H1 H2 ltac:(vm_compute; reflexivity) eq_refl eq_refl eq_refl).
Defined.

(** C7 as stated fails: a claim with auto-delete, no auto-create, a
    bucket name and a chunk size that is not an integer violates the
    second and third policy rules, and [Provision] returns the
    [ConfigParseError] of the chunk size, not a [ValidationError]: the
    integer overrides are converted before the policy is checked. *)
Lemma policy_violation_behind_malformed_integer :
  UnmarshalMap_pvcAnnotations violating_malformed_annotations
    = Ok violating_malformed_claim /\
  violates AutoDeleteNeedsAutoCreate violating_malformed_claim = true /\
  violates AutoDeleteNeedsGeneratedName violating_malformed_claim = true /\
  Provision fake_keys fake
    (request violating_malformed_annotations class_parameters) (fake_start [])
  = (Fail (CannotConvert F_chunk_size_mb (AtoiError "abc" ErrSyntax)), fake_start []) /\
  error_class (CannotConvert F_chunk_size_mb (AtoiError "abc" ErrSyntax))
    = Some ConfigParseError /\
  error_class (CannotConvert F_chunk_size_mb (AtoiError "abc" ErrSyntax))
    <> Some ValidationError.
Proof.
  repeat split; try (vm_compute; reflexivity). discriminate.
Qed.
